(** * The web-editor gateway of [api/index.js]

    A shallow embedding of the Express application in [api/index.js]: the
    credential helper [getAuthToken] and the route handlers, written as
    programs of a small state-and-exception monad over a remote content
    store that answers [fetch] calls.

    Layout: JavaScript values and strings; the parts of the language and
    of the Node runtime the handlers call (string conversion, [Buffer],
    [encodeURIComponent]); the handler monad; the handlers, over any
    remote store; a reference store after the specification's protocol;
    the notions the theorems are stated with. Then the facts: the codecs,
    the rules for running a handler, the handlers against any store, the
    handlers against the reference store, and concrete requests. The
    last parts take up the rest of the application: further facts about
    the runtime model and about each route, and their concrete
    requests. *)

From Stdlib Require Import ZArith List String Ascii Bool Lia.
From Stdlib Require Import DecimalString DecimalZ DecimalPos.
From stdpp Require Import base gmap list.
Import ListNotations.
Open Scope Z_scope.
Set Warnings "-register-all".

(** ** JavaScript strings

    A JavaScript string is a sequence of UTF-16 code units; a code unit
    is a [Z] in [[0, 65535]]. *)

Definition jsstring := list Z.

(** The code units of an ASCII literal of the source. *)
Definition js (s : string) : jsstring :=
  List.map (fun a => Z.of_N (N_of_ascii a)) (list_ascii_of_string s).

Fixpoint str_eqb (a b : jsstring) : bool :=
  match a, b with
  | [], [] => true
  | x :: a', y :: b' => (x =? y) && str_eqb a' b'
  | _, _ => false
  end.

(** ** JavaScript values

    The values that [express.json], [express.urlencoded], the query
    parser and [response.json()] hand to the handlers: JSON trees, plus
    [undefined] for what is missing. [VNum n] is the integer-valued
    number [n]; fractional numbers are outside the model. An object is
    the list of its own properties. *)

Inductive value :=
| VUndefined
| VNull
| VBool (b : bool)
| VNum (n : Z)
| VStr (s : jsstring)
| VObj (props : list (jsstring * value))
| VArr (items : list value).

(** ToBoolean: what [if (v)], [!v], [a || b] and [a && b] test. *)
Definition truthy (v : value) : bool :=
  match v with
  | VUndefined | VNull => false
  | VBool b => b
  | VNum n => negb (n =? 0)
  | VStr [] => false
  | VStr (_ :: _) => true
  | VObj _ | VArr _ => true
  end.

(** [a || b] *)
Definition js_or (a b : value) : value := if truthy a then a else b.

Fixpoint own_prop (props : list (jsstring * value)) (k : jsstring) : value :=
  match props with
  | [] => VUndefined
  | (k', v) :: rest => if str_eqb k' k then v else own_prop rest k
  end.

(** [v.k] for a receiver [v] that is neither [undefined] nor [null], and
    a property name [k] that no built-in prototype defines (every name
    the handlers read is such a name: token, content, filePath, sha,
    title, body, prNumber, filename, name, object, html_url, login). *)
Definition member (v : value) (k : jsstring) : value :=
  match v with
  | VObj props => own_prop props k
  | _ => VUndefined
  end.

Definition nullish (v : value) : bool :=
  match v with
  | VUndefined | VNull => true
  | _ => false
  end.

(** ** The incoming request and the process environment *)

(** [req.body] and [req.query] as the middleware of lines 9-10 and the
    query parser leave them. *)
Record request := {
  body : value;
  query : value;
  params0 : jsstring   (* req.params[0], the wildcard of /file/* *)
}.

(** [process.env]: a variable is a string or is not set. *)
Record process_env := {
  GITHUB_TOKEN : option jsstring
}.

Definition env_value (o : option jsstring) : value :=
  match o with
  | Some s => VStr s
  | None => VUndefined
  end.

(** ** getAuthToken (lines 21-30) *)

Definition getAuthToken (env : process_env) (req : request) : value :=
  (* 1. Check Env Var *)
  if truthy (env_value (GITHUB_TOKEN env)) then env_value (GITHUB_TOKEN env)
  (* 2. Check request body *)
  else if truthy (body req) && truthy (member (body req) (js "token"))
  then member (body req) (js "token")
  (* 3. Fallback to query param *)
  else if truthy (query req) && truthy (member (query req) (js "token"))
  then member (query req) (js "token")
  else VNull.

(** The three candidate sources of a credential, in the order of the
    specification: the process-wide one, the one in the request body, the
    one in the query parameters. A source that is not there reads as
    [undefined]. *)
Definition env_credential (env : process_env) : value :=
  env_value (GITHUB_TOKEN env).

Definition body_credential (req : request) : value :=
  if truthy (body req) then member (body req) (js "token") else VUndefined.

Definition query_credential (req : request) : value :=
  if truthy (query req) then member (query req) (js "token") else VUndefined.

(** The specification's resolver, in its words: the first present
    candidate wins, and absence is [None]. A candidate is present when it
    is a usable value, that is a truthy one. *)
Fixpoint first_present (candidates : list value) : option value :=
  match candidates with
  | [] => None
  | c :: rest => if truthy c then Some c else first_present rest
  end.

Definition resolve_spec (env : process_env) (req : request) : option value :=
  first_present [env_credential env; body_credential req; query_credential req].

(** How the specification's [Credential | None] reads the helper's
    result: [null] is [None]. *)
Definition as_credential (v : value) : option value :=
  match v with
  | VNull => None
  | _ => Some v
  end.

(** A request whose body and query carry the given tokens. *)
Definition request_with (b q : option jsstring) : request :=
  {| body := VObj (match b with
                   | Some t => [(js "token", VStr t)]
                   | None => []
                   end);
     query := VObj (match q with
                    | Some t => [(js "token", VStr t)]
                    | None => []
                    end);
     params0 := [] |}.


(** ** Exceptions

    The handlers read only [error.message] of what they catch. The
    message of an error that the engine or the runtime raises is given in
    short form; nothing below depends on its wording. *)

Inductive error_kind := PlainError | TypeError | SyntaxError | URIError.

Record js_error := {
  kind : error_kind;
  message : jsstring
}.

Inductive result (A : Type) :=
| Ok (a : A)
| Throw (e : js_error).
Arguments Ok {A} a.
Arguments Throw {A} e.

Definition type_error (msg : string) : js_error :=
  {| kind := TypeError; message := js msg |}.

(** ** The runtime the handlers call

    [Buffer], [encodeURIComponent] and string conversion belong to Node
    and to the language, not to this repository; they are written here
    after their documented behaviour, on code units and bytes. A byte is
    a [Z] in [[0, 255]]. *)

Definition has_own (props : list (jsstring * value)) (k : jsstring) : bool :=
  existsb (fun p => str_eqb (fst p) k) props.

(** A number in decimal, digit by digit, as a safe integer prints. *)
Definition number_to_string (n : Z) : jsstring :=
  js (NilZero.string_of_int (Z.to_int n)).

(** ToString, as a template literal applies it to [${v}]. A plain object
    prints through [Object.prototype.toString] unless an own property
    hides that method; an array prints its elements joined by commas,
    [null] and [undefined] elements as nothing. *)
Fixpoint ToString (v : value) : result jsstring :=
  match v with
  | VUndefined => Ok (js "undefined")
  | VNull => Ok (js "null")
  | VBool true => Ok (js "true")
  | VBool false => Ok (js "false")
  | VNum n => Ok (number_to_string n)
  | VStr s => Ok s
  | VObj props =>
      if has_own props (js "toString")
      then Throw (type_error "Cannot convert object to primitive value")
      else Ok (js "[object Object]")
  | VArr items =>
      (fix join (l : list value) : result jsstring :=
         match l with
         | [] => Ok []
         | x :: rest =>
             match (if nullish x then Ok [] else ToString x) with
             | Throw e => Throw e
             | Ok s =>
                 match rest with
                 | [] => Ok s
                 | _ :: _ =>
                     match join rest with
                     | Throw e => Throw e
                     | Ok t => Ok (s ++ js "," ++ t)
                     end
                 end
             end
         end) items
  end.

(** *** UTF-16 and UTF-8 *)

Definition is_high_surrogate (u : Z) : bool := (0xD800 <=? u) && (u <=? 0xDBFF).
Definition is_low_surrogate (u : Z) : bool := (0xDC00 <=? u) && (u <=? 0xDFFF).

(** The code points of a string; [None] stands for a surrogate code unit
    that has no partner. *)
Fixpoint code_points (s : jsstring) : list (option Z) :=
  match s with
  | [] => []
  | u :: rest =>
      if is_high_surrogate u then
        match rest with
        | l :: rest' =>
            if is_low_surrogate l
            then Some (0x10000 + (u - 0xD800) * 0x400 + (l - 0xDC00)) :: code_points rest'
            else None :: code_points rest
        | [] => [None]
        end
      else if is_low_surrogate u then None :: code_points rest
      else Some u :: code_points rest
  end.

Definition utf8_of_code_point (c : Z) : list Z :=
  if c <? 0x80 then [c]
  else if c <? 0x800 then [0xC0 + c / 0x40; 0x80 + c mod 0x40]
  else if c <? 0x10000 then
    [0xE0 + c / 0x1000; 0x80 + (c / 0x40) mod 0x40; 0x80 + c mod 0x40]
  else
    [0xF0 + c / 0x40000; 0x80 + (c / 0x1000) mod 0x40;
     0x80 + (c / 0x40) mod 0x40; 0x80 + c mod 0x40].

Definition replacement_character : Z := 0xFFFD.

(** [Buffer.from(s)], that is [Buffer.from(s, 'utf8')]: the UTF-8 bytes
    of [s], an unpaired surrogate written as U+FFFD. *)
Definition utf8_encode (s : jsstring) : list Z :=
  List.concat
    (List.map (fun c => utf8_of_code_point
                          (match c with Some c => c | None => replacement_character end))
       (code_points s)).

Definition is_continuation (b : Z) : bool := (0x80 <=? b) && (b <=? 0xBF).

(** The range of the second byte of a three-byte and of a four-byte
    sequence, which depends on the first (no overlong forms, no
    surrogates, nothing above U+10FFFF). *)
Definition second_of_three (b0 b1 : Z) : bool :=
  if b0 =? 0xE0 then (0xA0 <=? b1) && (b1 <=? 0xBF)
  else if b0 =? 0xED then (0x80 <=? b1) && (b1 <=? 0x9F)
  else is_continuation b1.

Definition second_of_four (b0 b1 : Z) : bool :=
  if b0 =? 0xF0 then (0x90 <=? b1) && (b1 <=? 0xBF)
  else if b0 =? 0xF4 then (0x80 <=? b1) && (b1 <=? 0x8F)
  else is_continuation b1.

(** The code points of a byte sequence read as UTF-8; every maximal
    ill-formed part reads as one U+FFFD, and decoding resumes at the byte
    that broke the sequence. *)
Fixpoint utf8_code_points (bs : list Z) : list Z :=
  match bs with
  | [] => []
  | b0 :: r0 =>
      if b0 <? 0x80 then b0 :: utf8_code_points r0
      else if (0xC2 <=? b0) && (b0 <=? 0xDF) then
        match r0 with
        | [] => [replacement_character]
        | b1 :: r1 =>
            if is_continuation b1
            then ((b0 - 0xC0) * 0x40 + (b1 - 0x80)) :: utf8_code_points r1
            else replacement_character :: utf8_code_points r0
        end
      else if (0xE0 <=? b0) && (b0 <=? 0xEF) then
        match r0 with
        | [] => [replacement_character]
        | b1 :: r1 =>
            if second_of_three b0 b1 then
              match r1 with
              | [] => [replacement_character]
              | b2 :: r2 =>
                  if is_continuation b2
                  then ((b0 - 0xE0) * 0x1000 + (b1 - 0x80) * 0x40 + (b2 - 0x80))
                         :: utf8_code_points r2
                  else replacement_character :: utf8_code_points r1
              end
            else replacement_character :: utf8_code_points r0
        end
      else if (0xF0 <=? b0) && (b0 <=? 0xF4) then
        match r0 with
        | [] => [replacement_character]
        | b1 :: r1 =>
            if second_of_four b0 b1 then
              match r1 with
              | [] => [replacement_character]
              | b2 :: r2 =>
                  if is_continuation b2 then
                    match r2 with
                    | [] => [replacement_character]
                    | b3 :: r3 =>
                        if is_continuation b3
                        then ((b0 - 0xF0) * 0x40000 + (b1 - 0x80) * 0x1000
                              + (b2 - 0x80) * 0x40 + (b3 - 0x80))
                               :: utf8_code_points r3
                        else replacement_character :: utf8_code_points r2
                    end
                  else replacement_character :: utf8_code_points r1
              end
            else replacement_character :: utf8_code_points r0
        end
      else replacement_character :: utf8_code_points r0
  end.

Definition utf16_of_code_point (c : Z) : jsstring :=
  if c <? 0x10000 then [c]
  else [0xD800 + (c - 0x10000) / 0x400; 0xDC00 + (c - 0x10000) mod 0x400].

(** [buf.toString('utf-8')] *)
Definition utf8_decode (bs : list Z) : jsstring :=
  List.concat (List.map utf16_of_code_point (utf8_code_points bs)).

(** *** Base64 *)

Definition b64_char (i : Z) : Z :=
  if i <? 26 then 65 + i            (* A-Z *)
  else if i <? 52 then 71 + i       (* a-z *)
  else if i <? 62 then i - 4        (* 0-9 *)
  else if i =? 62 then 43           (* + *)
  else 47.                          (* / *)

Definition b64_pad : Z := 61.       (* = *)

(** The six bits a character stands for; the URL-safe [-] and [_] are
    accepted as well. *)
Definition b64_value (c : Z) : option Z :=
  if (65 <=? c) && (c <=? 90) then Some (c - 65)
  else if (97 <=? c) && (c <=? 122) then Some (c - 71)
  else if (48 <=? c) && (c <=? 57) then Some (c + 4)
  else if (c =? 43) || (c =? 45) then Some 62
  else if (c =? 47) || (c =? 95) then Some 63
  else None.

(** [buf.toString('base64')] *)
Fixpoint base64_encode (bs : list Z) : jsstring :=
  match bs with
  | [] => []
  | [a] => [b64_char (a / 4); b64_char ((a mod 4) * 16); b64_pad; b64_pad]
  | [a; b] =>
      [b64_char (a / 4); b64_char ((a mod 4) * 16 + b / 16);
       b64_char ((b mod 16) * 4); b64_pad]
  | a :: b :: c :: rest =>
      b64_char (a / 4) :: b64_char ((a mod 4) * 16 + b / 16)
        :: b64_char ((b mod 16) * 4 + c / 64) :: b64_char (c mod 64)
        :: base64_encode rest
  end.

(** The decoder is lenient: it stops at the first padding character and
    skips every character outside the alphabet (line breaks, blanks).
    It reads a code unit by its low byte. *)
Fixpoint b64_sextets (s : jsstring) : list Z :=
  match s with
  | [] => []
  | c :: rest =>
      let b := c mod 256 in
      if b =? b64_pad then []
      else match b64_value b with
           | Some v => v :: b64_sextets rest
           | None => b64_sextets rest
           end
  end.

Fixpoint b64_bytes (vs : list Z) : list Z :=
  match vs with
  | a :: b :: c :: d :: rest =>
      (a * 4 + b / 16) :: ((b mod 16) * 16 + c / 4) :: ((c mod 4) * 64 + d)
        :: b64_bytes rest
  | [a; b; c] => [a * 4 + b / 16; (b mod 16) * 16 + c / 4]
  | [a; b] => [a * 4 + b / 16]
  | _ => []
  end.

(** [Buffer.from(s, 'base64')] for a string [s] *)
Definition base64_decode (s : jsstring) : list Z := b64_bytes (b64_sextets s).

(** *** encodeURIComponent *)

Definition uri_unreserved (c : Z) : bool :=
  ((65 <=? c) && (c <=? 90)) || ((97 <=? c) && (c <=? 122))
  || ((48 <=? c) && (c <=? 57))
  || existsb (Z.eqb c) [45; 95; 46; 33; 126; 42; 39; 40; 41]. (* - _ . ! ~ * ' ( ) *)

Definition hex_digit (d : Z) : Z := if d <? 10 then 48 + d else 55 + d.

Definition percent_byte (b : Z) : jsstring := [37; hex_digit (b / 16); hex_digit (b mod 16)].

Definition uri_escape (c : Z) : jsstring :=
  if uri_unreserved c then [c]
  else List.concat (List.map percent_byte (utf8_of_code_point c)).

Fixpoint uri_escape_all (cs : list (option Z)) : result jsstring :=
  match cs with
  | [] => Ok []
  | None :: _ => Throw {| kind := URIError; message := js "URI malformed" |}
  | Some c :: rest =>
      match uri_escape_all rest with
      | Ok t => Ok (uri_escape c ++ t)
      | Throw e => Throw e
      end
  end.

(** [encodeURIComponent(s)] throws a URIError on an unpaired surrogate. *)
Definition encodeURIComponent_string (s : jsstring) : result jsstring :=
  uri_escape_all (code_points s).

(** [encodeURIComponent(v)] converts its argument to a string first. *)
Definition encodeURIComponent (v : value) : result jsstring :=
  match ToString v with
  | Ok s => encodeURIComponent_string s
  | Throw e => Throw e
  end.

(** [JSON.stringify] of a tree, kept as the tree it writes: a property
    whose value is [undefined] is left out, an [undefined] array element
    is written as [null]. *)
Fixpoint json_image (v : value) : value :=
  match v with
  | VObj props =>
      VObj ((fix image_props (l : list (jsstring * value)) : list (jsstring * value) :=
               match l with
               | [] => []
               | (k, VUndefined) :: rest => image_props rest
               | (k, x) :: rest => (k, json_image x) :: image_props rest
               end) props)
  | VArr items =>
      VArr (List.map (fun x => match x with
                               | VUndefined => VNull
                               | _ => json_image x
                               end) items)
  | _ => v
  end.

(** ** Remote calls

    A [fetch] call as the handler issues it, and what comes back. *)

Inductive http_method := GET | PUT | POST.

Record fetch_request := {
  rq_url : jsstring;
  rq_method : http_method;
  rq_headers : list (jsstring * jsstring);
  rq_body : option value      (* the argument of JSON.stringify, as [json_image] *)
}.

Record fetch_response := {
  status : Z;
  text : jsstring;            (* what response.text() resolves to *)
  json : option value         (* what response.json() resolves to; None: not JSON *)
}.

(** [response.ok] *)
Definition ok (r : fetch_response) : bool := (200 <=? status r) && (status r <=? 299).

(** A [fetch] either resolves to a response (of any status) or rejects,
    as on a transport failure. *)
Inductive fetch_outcome :=
| Responded (r : fetch_response)
| Rejected (e : js_error).

(** ** The Express response object *)

Inductive payload :=
| NotSent
| Json (v : value)            (* res.json(v) *)
| Text (s : jsstring)         (* res.send(s) for a string *)
| Binary (bytes : list Z)     (* res.send(buf) for a Buffer *)
| Ended.                      (* res.end() *)

(** Status, the headers the handler sets itself with [res.setHeader] (the
    ones Express adds on its own are not recorded), and what was sent. *)
Record http_response := {
  statusCode : Z;
  headers : list (jsstring * jsstring);
  sent : payload
}.

Definition fresh_response : http_response :=
  {| statusCode := 200; headers := []; sent := NotSent |}.

(** ** The handler monad

    A handler runs against the state of the remote store; the world also
    keeps the calls made so far, in order, each with its outcome, and the
    response object. *)

Record world (R : Type) := {
  remote : R;
  calls : list (fetch_request * fetch_outcome);
  res : http_response
}.
Arguments remote {R} w.
Arguments calls {R} w.
Arguments res {R} w.

(** The calls issued, without their outcomes. *)
Definition issued {R} (w : world R) : list fetch_request := List.map fst (calls w).

Definition M (R A : Type) : Type := world R -> result A * world R.

Definition ret {R A} (a : A) : M R A := fun w => (Ok a, w).

Definition throw {R A} (e : js_error) : M R A := fun w => (Throw e, w).

Definition bind {R A B} (m : M R A) (k : A -> M R B) : M R B :=
  fun w =>
    match m w with
    | (Ok a, w') => k a w'
    | (Throw e, w') => (Throw e, w')
    end.

(** [try { m } catch (error) { h error }] *)
Definition try_catch {R} (m : M R unit) (h : js_error -> M R unit) : M R unit :=
  fun w =>
    match m w with
    | (Ok a, w') => (Ok a, w')
    | (Throw e, w') => h e w'
    end.

(** A computation of the runtime, which may throw, inside a handler. *)
Definition lift {R A} (r : result A) : M R A :=
  fun w =>
    match r with
    | Ok a => (Ok a, w)
    | Throw e => (Throw e, w)
    end.

Notation "x <- m ;; k" := (bind m (fun x => k))
  (at level 100, m at next level, right associativity).
Notation "m ;;; k" := (bind m (fun _ => k))
  (at level 100, right associativity).

Definition set_res {R} (f : http_response -> http_response) : M R unit :=
  fun w => (Ok tt, {| remote := remote w; calls := calls w; res := f (res w) |}).

(** [res.status(c)] *)
Definition res_status {R} (c : Z) : M R unit :=
  set_res (fun r => {| statusCode := c; headers := headers r; sent := sent r |}).

(** [res.setHeader(k, v)] *)
Definition res_setHeader {R} (k v : string) : M R unit :=
  set_res (fun r => {| statusCode := statusCode r;
                       headers := headers r ++ [(js k, js v)];
                       sent := sent r |}).

Definition res_deliver {R} (p : payload) : M R unit :=
  set_res (fun r => {| statusCode := statusCode r; headers := headers r; sent := p |}).

(** [res.json(v)] *)
Definition res_json {R} (v : value) : M R unit := res_deliver (Json (json_image v)).

(** [res.send(s)] and [res.send(buf)] *)
Definition res_send {R} (s : jsstring) : M R unit := res_deliver (Text s).
Definition res_send_buffer {R} (bytes : list Z) : M R unit := res_deliver (Binary bytes).

(** Reading any property of [undefined] or [null] throws. *)
Definition deref {R} (v : value) : M R unit :=
  if nullish v
  then throw (type_error "Cannot read properties of undefined")
  else ret tt.

(** [v.k] *)
Definition get {R} (v : value) (k : string) : M R value :=
  deref v ;;; ret (member v (js k)).

(** [const { ... } = v]: destructuring [undefined] or [null] throws. *)
Definition destructure {R} (v : value) : M R unit :=
  if nullish v
  then throw (type_error "Cannot destructure property of undefined")
  else ret tt.

(** [${v}] inside a template literal *)
Definition str {R} (v : value) : M R jsstring := lift (ToString v).

(** [await response.json()] *)
Definition response_json {R} (r : fetch_response) : M R value :=
  lift (match json r with
        | Some v => Ok v
        | None => Throw {| kind := SyntaxError; message := js "Unexpected token in JSON" |}
        end).

(** [await response.text()] *)
Definition response_text {R} (r : fetch_response) : M R jsstring := ret (text r).

(** [{ error: error.message }] and [{ success: s }] *)
Definition error_envelope (msg : jsstring) : value := VObj [(js "error", VStr msg)].
Definition success_envelope (msg : jsstring) : value := VObj [(js "success", VStr msg)].

(** The fixed addresses and header values of the source. *)
Definition repo_api : jsstring := js "https://api.github.com/repos/compusophy/world-world".
Definition accept_v3 : jsstring * jsstring := (js "Accept", js "application/vnd.github.v3+json").
Definition content_type_json : jsstring * jsstring := (js "Content-Type", js "application/json").
Definition authorization (t : jsstring) : jsstring * jsstring :=
  (js "Authorization", js "token " ++ t).

(** [{ 'Authorization': ..., 'Accept': ... }], with ['Content-Type'] when
    the call carries a body. *)
Definition read_headers (t : jsstring) : list (jsstring * jsstring) :=
  [authorization t; accept_v3].
Definition write_headers (t : jsstring) : list (jsstring * jsstring) :=
  [authorization t; accept_v3; content_type_json].

Definition double_quote : jsstring := [34].

(** The two icon literals of line 301, code unit by code unit. *)
Definition icon_dir : jsstring := [0xF8FF; 0xFC; 0xEC; 0xC5].
Definition icon_file : jsstring := [0xF8FF; 0xFC; 0xEC; 0xD1].

(** [a === 'literal'] *)
Definition is_string (v : value) (lit : string) : bool :=
  match v with
  | VStr s => str_eqb s (js lit)
  | _ => false
  end.

(** ** The route handlers

    [serve] is the remote store: given its state and a call, the outcome
    of the call and the next state. [buffer_from_object] is what
    [Buffer.from] makes of an array or an object (its array-like
    conversion), which this development leaves open. Each handler takes
    the process environment and the request; the two handlers that read
    the clock take [now], the value of [Date.now()]. *)

Section Gateway.
Context {R : Type}.
Variable serve : R -> fetch_request -> fetch_outcome * R.
Variable buffer_from_object : value -> result (list Z).

(** [await fetch(url, options)] *)
Definition fetch (rq : fetch_request) : M R fetch_response :=
  fun w =>
    let (o, r') := serve (remote w) rq in
    let w' := {| remote := r'; calls := calls w ++ [(rq, o)]; res := res w |} in
    match o with
    | Responded r => (Ok r, w')
    | Rejected e => (Throw e, w')
    end.

Inductive encoding := utf8 | base64.

(** [Buffer.from(v)] and [Buffer.from(v, 'base64')] *)
Definition Buffer_from (v : value) (enc : encoding) : result (list Z) :=
  match v with
  | VStr s => Ok (match enc with
                  | utf8 => utf8_encode s
                  | base64 => base64_decode s
                  end)
  | VObj _ | VArr _ => buffer_from_object v
  | _ => Throw (type_error "The first argument must be of type string or an instance of Buffer, ArrayBuffer, or Array or an Array-like Object.")
  end.

Definition contents_url (p : jsstring) : jsstring := repo_api ++ js "/contents/" ++ p.

Definition catch_as_json (error : js_error) : M R unit :=
  res_json (error_envelope (message error)).

(** POST /auth (lines 33-41) *)
Definition post_auth (env : process_env) (req : request) : M R unit :=
  let token := getAuthToken env req in
  if truthy token
  then res_json (success_envelope
                   (js "Connected via " ++
                    (if truthy (env_value (GITHUB_TOKEN env))
                     then js "Environment Variable" else js "Session")))
  else res_json (error_envelope (js "No token found. Set GITHUB_TOKEN in Vercel.")).

(** POST /test-token (lines 43-64) *)
Definition post_test_token (env : process_env) (req : request) : M R unit :=
  try_catch
    (let token := getAuthToken env req in
     if negb (truthy token) then res_json (error_envelope (js "No token set."))
     else
       t <- str token ;;
       testResponse <- fetch {| rq_url := js "https://api.github.com/user";
                                rq_method := GET;
                                rq_headers := read_headers t;
                                rq_body := None |} ;;
       if negb (ok testResponse) then
         errorText <- response_text testResponse ;;
         res_json (error_envelope
                     (js "Token test failed: " ++ number_to_string (status testResponse)
                      ++ js " - " ++ errorText))
       else
         user <- response_json testResponse ;;
         login <- get user "login" ;;
         l <- str login ;;
         res_json (success_envelope (js "Logged in as: " ++ l)))
    catch_as_json.

(** GET /og-image.png (lines 67-107) *)
Definition get_og_image (env : process_env) (req : request) : M R unit :=
  try_catch
    (let token := getAuthToken env req in
     if negb (truthy token) then
       res_status 401 ;;; res_send (js "Missing GITHUB_TOKEN env var")
     else
       name <- get (query req) "name" ;;
       let filename := js_or name (VStr (js "og-image.png")) in
       f <- str filename ;;
       let filePath := js "images/" ++ f in
       t <- str token ;;
       response <- fetch {| rq_url := contents_url filePath;
                            rq_method := GET;
                            rq_headers := read_headers t;
                            rq_body := None |} ;;
       if negb (ok response) then
         res_status 404 ;;; res_send (js "Image not found")
       else
         data <- response_json response ;;
         content <- get data "content" ;;
         imgBuffer <- lift (Buffer_from content base64) ;;
         res_setHeader "Content-Type" "image/png" ;;;
         res_setHeader "Cache-Control" "no-cache, no-store, must-revalidate" ;;;
         res_setHeader "Pragma" "no-cache" ;;;
         res_setHeader "Expires" "0" ;;;
         res_send_buffer imgBuffer)
    (fun error => res_status 500 ;;; res_send (message error)).

(** The [try] block of POST /upload-image (lines 111-163). *)
Definition try_upload_image (env : process_env) (now : Z) (req : request) : M R unit :=
  (destructure (body req) ;;;
   let content := member (body req) (js "content") in
   let filename := member (body req) (js "filename") in
   let token := getAuthToken env req in
   if negb (truthy token) then res_json (error_envelope (js "GitHub not authenticated"))
   else
     f <- str filename ;;
     let filePath := js "images/" ++ f in
     t <- str token ;;
     getResponse <- fetch {| rq_url := contents_url filePath;
                             rq_method := GET;
                             rq_headers := read_headers t;
                             rq_body := None |} ;;
     sha <- (if ok getResponse then
               currentFile <- response_json getResponse ;;
               get currentFile "sha"
             else ret VUndefined) ;;
     let requestBody :=
       VObj [(js "message", VStr (js "Upload image " ++ f));
             (js "content", content);
             (js "sha", js_or sha VUndefined)] in
     updateResponse <- fetch {| rq_url := contents_url filePath;
                                rq_method := PUT;
                                rq_headers := write_headers t;
                                rq_body := Some (json_image requestBody) |} ;;
     if negb (ok updateResponse) then
       errorText <- response_text updateResponse ;;
       throw {| kind := PlainError; message := js "GitHub upload failed: " ++ errorText |}
     else
       let proxyUrl := js "https://world-world.vercel.app/og-image.png?name=" ++ f
                       ++ js "&t=" ++ number_to_string now in
       res_json (VObj [(js "success", VStr (js "Image uploaded!"));
                       (js "url", VStr proxyUrl)])).

(** POST /upload-image (lines 110-168) *)
Definition post_upload_image (env : process_env) (now : Z) (req : request) : M R unit :=
  try_catch (try_upload_image env now req) catch_as_json.

(** The [try] block of POST /commit (lines 172-205). *)
Definition try_commit (env : process_env) (req : request) : M R unit :=
  (destructure (body req) ;;;
   let content := member (body req) (js "content") in
   let filePath := member (body req) (js "filePath") in
   let sha := member (body req) (js "sha") in
   let token := getAuthToken env req in
   if negb (truthy token) then res_json (error_envelope (js "GitHub not authenticated"))
   else
     currentSha <-
       (if negb (truthy sha) then
          p <- lift (encodeURIComponent (js_or filePath (VStr (js "index.html")))) ;;
          t <- str token ;;
          getResponse <- fetch {| rq_url := contents_url p;
                                  rq_method := GET;
                                  rq_headers := read_headers t;
                                  rq_body := None |} ;;
          if ok getResponse then
            f <- response_json getResponse ;;
            get f "sha"
          else ret sha
        else ret sha) ;;
     p <- lift (encodeURIComponent (js_or filePath (VStr (js "index.html")))) ;;
     t <- str token ;;
     fp <- str filePath ;;
     buf <- lift (Buffer_from content utf8) ;;
     updateResponse <-
       fetch {| rq_url := contents_url p;
                rq_method := PUT;
                rq_headers := write_headers t;
                rq_body := Some (json_image
                  (VObj [(js "message", VStr (js "Update " ++ fp ++ js " from web editor"));
                         (js "content", VStr (base64_encode buf));
                         (js "sha", currentSha)])) |} ;;
     if negb (ok updateResponse) then
       errorText <- response_text updateResponse ;;
       throw {| kind := PlainError; message := errorText |}
     else res_json (success_envelope (js "Committed successfully!"))).

(** POST /commit (lines 171-209) *)
Definition post_commit (env : process_env) (req : request) : M R unit :=
  try_catch (try_commit env req) catch_as_json.

(** [`web-editor-${Date.now()}`] (line 218) *)
Definition branch_name (now : Z) : jsstring := js "web-editor-" ++ number_to_string now.

(** The [try] block of POST /create-pr (lines 213-260). *)
Definition try_create_pr (env : process_env) (now : Z) (req : request) : M R unit :=
  (destructure (body req) ;;;
   let title := member (body req) (js "title") in
   let body_ := member (body req) (js "body") in
   let content := member (body req) (js "content") in
   let filePath := member (body req) (js "filePath") in
   let token := getAuthToken env req in
   if negb (truthy token) then res_json (error_envelope (js "GitHub not authenticated"))
   else
     let branchName := branch_name now in
     (* Get Main Branch *)
     t <- str token ;;
     mainBranchResponse <- fetch {| rq_url := repo_api ++ js "/git/ref/heads/main";
                                    rq_method := GET;
                                    rq_headers := read_headers t;
                                    rq_body := None |} ;;
     mainBranch <- response_json mainBranchResponse ;;
     (* Create Branch *)
     object <- get mainBranch "object" ;;
     base <- get object "sha" ;;
     _ <- fetch {| rq_url := repo_api ++ js "/git/refs";
                   rq_method := POST;
                   rq_headers := write_headers t;
                   rq_body := Some (json_image
                     (VObj [(js "ref", VStr (js "refs/heads/" ++ branchName));
                            (js "sha", base)])) |} ;;
     (* Get File SHA *)
     p <- lift (encodeURIComponent (js_or filePath (VStr (js "index.html")))) ;;
     getFile <- fetch {| rq_url := contents_url p;
                         rq_method := GET;
                         rq_headers := read_headers t;
                         rq_body := None |} ;;
     currentFile <- (if ok getFile then response_json getFile else ret (VObj [])) ;;
     (* Commit *)
     buf <- lift (Buffer_from content utf8) ;;
     sha <- get currentFile "sha" ;;
     _ <- fetch {| rq_url := contents_url p;
                   rq_method := PUT;
                   rq_headers := write_headers t;
                   rq_body := Some (json_image
                     (VObj [(js "message", VStr (js "Update from web editor"));
                            (js "content", VStr (base64_encode buf));
                            (js "sha", sha);
                            (js "branch", VStr branchName)])) |} ;;
     (* PR *)
     prResponse <- fetch {| rq_url := repo_api ++ js "/pulls";
                            rq_method := POST;
                            rq_headers := write_headers t;
                            rq_body := Some (json_image
                              (VObj [(js "title", js_or title (VStr (js "Update")));
                                     (js "body", js_or body_ (VStr []));
                                     (js "head", VStr branchName);
                                     (js "base", VStr (js "main"))])) |} ;;
     pr <- response_json prResponse ;;
     html_url <- get pr "html_url" ;;
     u <- str html_url ;;
     res_json (success_envelope (js "PR created: " ++ u))).

(** POST /create-pr (lines 212-264) *)
Definition post_create_pr (env : process_env) (now : Z) (req : request) : M R unit :=
  try_catch (try_create_pr env now req) catch_as_json.

(** The [try] block of POST /merge-pr (lines 268-281). *)
Definition try_merge_pr (env : process_env) (req : request) : M R unit :=
  (destructure (body req) ;;;
   let prNumber := member (body req) (js "prNumber") in
   let token := getAuthToken env req in
   if negb (truthy token) then res_json (error_envelope (js "GitHub not authenticated"))
   else
     n <- str prNumber ;;
     t <- str token ;;
     mergeResponse <-
       fetch {| rq_url := repo_api ++ js "/pulls/" ++ n ++ js "/merge";
                rq_method := PUT;
                rq_headers := write_headers t;
                rq_body := Some (json_image
                  (VObj [(js "commit_title", VStr (js "Merge PR #" ++ n));
                         (js "merge_method", VStr (js "merge"))])) |} ;;
     if negb (ok mergeResponse) then
       errorText <- response_text mergeResponse ;;
       throw {| kind := PlainError; message := errorText |}
     else res_json (success_envelope (js "PR #" ++ n ++ js " merged!"))).

(** POST /merge-pr (lines 267-284) *)
Definition post_merge_pr (env : process_env) (req : request) : M R unit :=
  try_catch (try_merge_pr env req) catch_as_json.

Definition catch_as_html (error : js_error) : M R unit :=
  res_send (js "<p>Error: " ++ message error ++ js "</p>").

(** [list.forEach(item => { html += ... })]: only an array has the
    method. *)
Fixpoint append_each (render : value -> M R jsstring) (items : list value)
    (html : jsstring) : M R jsstring :=
  match items with
  | [] => ret html
  | item :: rest =>
      piece <- render item ;;
      append_each render rest (html ++ piece)
  end.

Definition forEach (render : value -> M R jsstring) (list : value)
    (html : jsstring) : M R jsstring :=
  match list with
  | VArr items => append_each render items html
  | VUndefined | VNull => throw (type_error "Cannot read properties of undefined")
  | _ => throw (type_error "forEach is not a function")
  end.

(** The body of the callback of lines 300-307. *)
Definition render_file (file : value) : M R jsstring :=
  type <- get file "type" ;;
  let icon := if is_string type "dir" then icon_dir else icon_file in
  if is_string type "file" then
    path <- str (member file (js "path")) ;;
    name <- str (member file (js "name")) ;;
    ret (js "<div style=" ++ double_quote ++ js "margin:5px;" ++ double_quote
         ++ js "><a href=" ++ double_quote ++ js "#" ++ double_quote
         ++ js " onclick=" ++ double_quote ++ js "loadFile('" ++ path
         ++ js "'); return false;" ++ double_quote ++ js ">"
         ++ icon ++ js " " ++ name ++ js "</a></div>")
  else
    name <- str (member file (js "name")) ;;
    ret (js "<div style=" ++ double_quote ++ js "margin:5px;" ++ double_quote
         ++ js ">" ++ icon ++ js " " ++ name ++ js "/</div>").

(** GET /files (lines 287-312) *)
Definition get_files (env : process_env) (req : request) : M R unit :=
  try_catch
    (let token := getAuthToken env req in
     if negb (truthy token) then res_send (js "<p>Set GITHUB_TOKEN env var</p>")
     else
       t <- str token ;;
       filesResponse <- fetch {| rq_url := repo_api ++ js "/contents";
                                 rq_method := GET;
                                 rq_headers := read_headers t;
                                 rq_body := None |} ;;
       if negb (ok filesResponse) then
         res_send (js "<p>Error: " ++ number_to_string (status filesResponse) ++ js "</p>")
       else
         files <- response_json filesResponse ;;
         html <- forEach render_file files (js "<h3>Repository Files</h3>") ;;
         res_send html)
    catch_as_html.

(** GET /file/* (lines 315-336) *)
Definition get_file (env : process_env) (req : request) : M R unit :=
  try_catch
    (let filePath := params0 req in
     let token := getAuthToken env req in
     if negb (truthy token) then res_json (error_envelope (js "GitHub not authenticated"))
     else
       p <- lift (encodeURIComponent_string filePath) ;;
       t <- str token ;;
       fileResponse <- fetch {| rq_url := contents_url p;
                                rq_method := GET;
                                rq_headers := read_headers t;
                                rq_body := None |} ;;
       if negb (ok fileResponse) then res_json (error_envelope (js "File not found"))
       else
         fileData <- response_json fileResponse ;;
         content <- get fileData "content" ;;
         buf <- lift (Buffer_from content base64) ;;
         res_json (VObj [(js "content", VStr (utf8_decode buf));
                         (js "path", VStr filePath);
                         (js "sha", member fileData (js "sha"))]))
    catch_as_json.

Definition newline : jsstring := [10].
Definition spaces (n : nat) : jsstring := List.repeat 32 n.

(** [prs.length === 0] *)
Definition length_is_zero (v : value) : bool :=
  match v with
  | VArr [] => true
  | VStr [] => true
  | VObj props => match own_prop props (js "length") with
                  | VNum 0 => true
                  | _ => false
                  end
  | _ => false
  end.

(** The body of the callback of lines 352-361. *)
Definition render_pr (pr : value) : M R jsstring :=
  number <- get pr "number" ;;
  n <- str number ;;
  title <- str (member pr (js "title")) ;;
  ret (newline ++ spaces 16
       ++ js "<div style=" ++ double_quote
       ++ js "border:1px solid #ccc; margin:10px; padding:10px;" ++ double_quote ++ js ">"
       ++ newline ++ spaces 20
       ++ js "<h4>PR #" ++ n ++ js ": " ++ title ++ js "</h4>"
       ++ newline ++ spaces 20
       ++ js "<form hx-post=" ++ double_quote ++ js "/merge-pr" ++ double_quote
       ++ js " hx-target=" ++ double_quote ++ js "#status" ++ double_quote
       ++ js " hx-swap=" ++ double_quote ++ js "innerHTML" ++ double_quote ++ js ">"
       ++ newline ++ spaces 24
       ++ js "<input type=" ++ double_quote ++ js "hidden" ++ double_quote
       ++ js " name=" ++ double_quote ++ js "prNumber" ++ double_quote
       ++ js " value=" ++ double_quote ++ n ++ double_quote ++ js ">"
       ++ newline ++ spaces 24
       ++ js "<button type=" ++ double_quote ++ js "submit" ++ double_quote
       ++ js ">merge pr</button>"
       ++ newline ++ spaces 20 ++ js "</form>"
       ++ newline ++ spaces 16 ++ js "</div>").

(** GET /prs (lines 339-366) *)
Definition get_prs (env : process_env) (req : request) : M R unit :=
  try_catch
    (let token := getAuthToken env req in
     if negb (truthy token) then res_send (js "<p>Set GITHUB_TOKEN env var</p>")
     else
       t <- str token ;;
       prsResponse <- fetch {| rq_url := repo_api ++ js "/pulls?state=open";
                               rq_method := GET;
                               rq_headers := read_headers t;
                               rq_body := None |} ;;
       prs <- response_json prsResponse ;;
       deref prs ;;;
       if length_is_zero prs then res_send (js "<p>No open PRs</p>")
       else
         html <- forEach render_pr prs (js "<h3>Open PRs</h3>") ;;
         res_send html)
    catch_as_html.

(** The routes that reach the remote store or resolve a credential. *)
Inductive endpoint :=
| Auth | TestToken | OgImage | UploadImage | Commit | CreatePr | MergePr
| Files | FileAt | Prs.

Definition handler (ep : endpoint) (env : process_env) (now : Z) (req : request)
    : M R unit :=
  match ep with
  | Auth => post_auth env req
  | TestToken => post_test_token env req
  | OgImage => get_og_image env req
  | UploadImage => post_upload_image env now req
  | Commit => post_commit env req
  | CreatePr => post_create_pr env now req
  | MergePr => post_merge_pr env req
  | Files => get_files env req
  | FileAt => get_file env req
  | Prs => get_prs env req
  end.

(** The [try] block of a route that changes the remote store. *)
Definition try_block (ep : endpoint) (env : process_env) (now : Z) (req : request)
    : M R unit :=
  match ep with
  | UploadImage => try_upload_image env now req
  | Commit => try_commit env req
  | CreatePr => try_create_pr env now req
  | MergePr => try_merge_pr env req
  | _ => ret tt
  end.

(** One request served against the store in state [s]. *)
Definition serve_request (ep : endpoint) (env : process_env) (now : Z)
    (req : request) (s : R) : result unit * world R :=
  handler ep env now req {| remote := s; calls := []; res := fresh_response |}.

End Gateway.

(** ** The remote content store

    The store is a service outside this repository. The handlers are
    proved against any store (the parameter [serve] above); what follows
    is a reference store, written after the specification's account of
    the protocol the handlers consume (section 6) and of its data
    (section 3), on which whole scenarios can be run. *)

(** Modelled from the spec: [RemoteFile], the bytes of a file and its
    version token; the token changes on every successful write and has
    to be named by the next write to the same path. *)
Record remote_file := {
  file_bytes : list Z;
  file_version : jsstring
}.

(** Modelled from the spec: [Branch], created pointing at an existing
    commit, which it remembers, and advancing on its own afterwards. *)
Record branch := {
  tip : nat;               (* the commit the branch points at *)
  base_commit : nat        (* the commit it was created at *)
}.

(** Modelled from the spec: [PullRequest], open until it is merged. *)
Record pull_request := {
  pr_head : jsstring;
  pr_base : jsstring;
  pr_merged : bool
}.

(** Modelled from the spec: the state of the remote store. Commits are
    numbered in the order they were made, and commit [n] keeps the files
    as they were after it; pull request [n + 1] is the [n]-th opened. *)
Record store := {
  credentials : list jsstring;
  commits : list (gmap (list Z) remote_file);
  branches : gmap (list Z) branch;
  pulls : list pull_request
}.

(** The token that names commit [n], also used as the version of the
    files that commit wrote. *)
Definition commit_token (n : nat) : jsstring := number_to_string (Z.of_nat n).

Definition find_commit (sha : jsstring) (s : store) : option nat :=
  List.find (fun n => str_eqb (commit_token n) sha) (List.seq 0 (List.length (commits s))).

Fixpoint strip_prefix (prefix s : jsstring) : option jsstring :=
  match prefix, s with
  | [], _ => Some s
  | p :: prefix', c :: s' => if p =? c then strip_prefix prefix' s' else None
  | _ :: _, [] => None
  end.

Definition strip_suffix (suffix s : jsstring) : option jsstring :=
  match strip_prefix (List.rev suffix) (List.rev s) with
  | Some r => Some (List.rev r)
  | None => None
  end.

Definition hex_value (c : Z) : option Z :=
  if (48 <=? c) && (c <=? 57) then Some (c - 48)
  else if (65 <=? c) && (c <=? 70) then Some (c - 55)
  else if (97 <=? c) && (c <=? 102) then Some (c - 87)
  else None.

Fixpoint percent_decode (bs : list Z) : list Z :=
  match bs with
  | [] => []
  | c :: rest =>
      match rest with
      | h :: l :: rest' =>
          match (if c =? 37 then hex_value h else None), hex_value l with
          | Some a, Some b => (a * 16 + b) :: percent_decode rest'
          | _, _ => c :: percent_decode rest
          end
      | _ => c :: percent_decode rest
      end
  end.

Fixpoint before_query (s : jsstring) : jsstring :=
  match s with
  | [] => []
  | c :: rest => if (c =? 63) || (c =? 35) then [] else c :: before_query rest
  end.

(** The file a path segment of a URL names: what precedes [?] or [#],
    as bytes, percent escapes undone. *)
Definition path_key (p : jsstring) : list Z :=
  percent_decode (utf8_encode (before_query p)).

(** JSON text of a tree, for [response.text()]. *)
Definition json_string_text (s : jsstring) : jsstring :=
  double_quote
  ++ List.concat (List.map (fun c =>
       if (c =? 34) || (c =? 92) then [92; c]
       else if c <? 32 then js "\u00" ++ [hex_digit (c / 16); hex_digit (c mod 16)]
       else [c]) s)
  ++ double_quote.

Fixpoint json_text (v : value) : jsstring :=
  match v with
  | VUndefined | VNull => js "null"
  | VBool true => js "true"
  | VBool false => js "false"
  | VNum n => number_to_string n
  | VStr s => json_string_text s
  | VObj props =>
      js "{"
      ++ (fix members (l : list (jsstring * value)) : jsstring :=
            match l with
            | [] => []
            | (k, x) :: rest =>
                json_string_text k ++ js ":" ++ json_text x
                ++ match rest with
                   | [] => []
                   | _ :: _ => js "," ++ members rest
                   end
            end) props
      ++ js "}"
  | VArr items =>
      js "["
      ++ (fix elements (l : list value) : jsstring :=
            match l with
            | [] => []
            | x :: rest =>
                json_text x
                ++ match rest with
                   | [] => []
                   | _ :: _ => js "," ++ elements rest
                   end
            end) items
      ++ js "]"
  end.

Definition answer (code : Z) (v : value) : fetch_outcome :=
  Responded {| status := code; text := json_text v; json := Some v |}.

Definition refusal (code : Z) (msg : string) : fetch_outcome :=
  answer code (VObj [(js "message", VStr (js msg))]).

Definition header (rq : fetch_request) (k : string) : option jsstring :=
  match List.find (fun h => str_eqb (fst h) (js k)) (rq_headers rq) with
  | Some h => Some (snd h)
  | None => None
  end.

Definition authorized (s : store) (rq : fetch_request) : bool :=
  match header rq "Authorization" with
  | Some v => existsb (fun c => str_eqb (js "token " ++ c) v) (credentials s)
  | None => false
  end.

Definition default_branch : jsstring := js "main".

Definition file_json (f : remote_file) : value :=
  VObj [(js "content", VStr (base64_encode (file_bytes f)));
        (js "encoding", VStr (js "base64"));
        (js "sha", VStr (file_version f))].

(** Modelled from the spec: [readFile], GET by path on the default
    branch; it answers [{content: base64, sha: version}] or 404. *)
Definition store_read (s : store) (p : jsstring) : fetch_outcome * store :=
  match branches s !! default_branch with
  | None => (refusal 404 "Not Found", s)
  | Some b =>
      match commits s !! tip b with
      | None => (refusal 404 "Not Found", s)
      | Some files =>
          match files !! path_key p with
          | Some f => (answer 200 (file_json f), s)
          | None => (refusal 404 "Not Found", s)
          end
      end
  end.

(** The version a write names: [sha] left out, or a token. *)
Definition named_version (body : value) : option (option jsstring) :=
  match member body (js "sha") with
  | VUndefined => Some None
  | VStr v => Some (Some v)
  | _ => None
  end.

Definition same_version (current : option remote_file) (named : option jsstring) : bool :=
  match current, named with
  | None, None => true
  | Some f, Some v => str_eqb (file_version f) v
  | _, _ => false
  end.

(** Modelled from the spec: [writeFile] and [writeFileOnBranch], PUT by
    path with [{message, content, sha?, branch?}]; the content is base64
    text. A write that does not name the current version is a
    conflict. *)
Definition store_write (s : store) (p : jsstring) (body : value) : fetch_outcome * store :=
  let name := match member body (js "branch") with
              | VStr b => b
              | _ => default_branch
              end in
  match member body (js "content"), named_version body, branches s !! name with
  | VStr text, Some named, Some b =>
      match commits s !! tip b with
      | None => (refusal 404 "Not Found", s)
      | Some files =>
          if same_version (files !! path_key p) named then
            let n := List.length (commits s) in
            let f := {| file_bytes := base64_decode text;
                        file_version := commit_token n |} in
            (answer (match files !! path_key p with Some _ => 200 | None => 201 end)
               (VObj [(js "content", file_json f);
                      (js "commit", VObj [(js "sha", VStr (commit_token n))])]),
             {| credentials := credentials s;
                commits := commits s ++ [<[path_key p := f]> files];
                branches := <[name := {| tip := n; base_commit := base_commit b |}]>
                              (branches s);
                pulls := pulls s |})
          else (refusal 409 "is at a different version", s)
      end
  | VStr _, Some _, None => (refusal 404 "Branch not found", s)
  | _, _, _ => (refusal 422 "Invalid request", s)
  end.

(** Modelled from the spec: the read of a branch's tip, GET ref. *)
Definition store_ref (s : store) (name : jsstring) : fetch_outcome * store :=
  match branches s !! name with
  | Some b =>
      (answer 200 (VObj [(js "ref", VStr (js "refs/heads/" ++ name));
                         (js "object", VObj [(js "sha", VStr (commit_token (tip b)))])]),
       s)
  | None => (refusal 404 "Not Found", s)
  end.

(** Modelled from the spec: [createBranch], POST refs with
    [{ref: "refs/heads/<name>", sha}]; it fails if the name is taken. *)
Definition store_create_branch (s : store) (body : value) : fetch_outcome * store :=
  match member body (js "ref"), member body (js "sha") with
  | VStr ref, VStr sha =>
      match strip_prefix (js "refs/heads/") ref, find_commit sha s with
      | Some name, Some n =>
          match branches s !! name with
          | Some _ => (refusal 422 "Reference already exists", s)
          | None =>
              (answer 201 (VObj [(js "ref", VStr ref);
                                 (js "object", VObj [(js "sha", VStr sha)])]),
               {| credentials := credentials s;
                  commits := commits s;
                  branches := <[name := {| tip := n; base_commit := n |}]> (branches s);
                  pulls := pulls s |})
          end
      | _, _ => (refusal 422 "Invalid request", s)
      end
  | _, _ => (refusal 422 "Invalid request", s)
  end.

Definition pull_url (n : nat) : jsstring :=
  js "https://github.com/compusophy/world-world/pull/" ++ number_to_string (Z.of_nat n).

(** Modelled from the spec: [openPullRequest], POST pulls with
    [{title, body, head, base}]; it answers [{number, html_url}]. *)
Definition store_open_pull (s : store) (body : value) : fetch_outcome * store :=
  match member body (js "head"), member body (js "base") with
  | VStr head, VStr base =>
      match branches s !! head, branches s !! base with
      | Some _, Some _ =>
          let n := S (List.length (pulls s)) in
          (answer 201 (VObj [(js "number", VNum (Z.of_nat n));
                             (js "html_url", VStr (pull_url n))]),
           {| credentials := credentials s;
              commits := commits s;
              branches := branches s;
              pulls := pulls s ++ [{| pr_head := head; pr_base := base;
                                      pr_merged := false |}] |})
      | _, _ => (refusal 422 "Validation Failed", s)
      end
  | _, _ => (refusal 422 "Validation Failed", s)
  end.

Definition find_pull (number : jsstring) (s : store) : option nat :=
  List.find (fun n => str_eqb (number_to_string (Z.of_nat (S n))) number)
    (List.seq 0 (List.length (pulls s))).

(** Modelled from the spec: [mergePullRequest], PUT pulls/<number>/merge;
    the base branch takes the head's tip, and a merged pull request
    cannot be merged again. *)
Definition store_merge (s : store) (number : jsstring) : fetch_outcome * store :=
  match find_pull number s with
  | None => (refusal 404 "Not Found", s)
  | Some i =>
      match pulls s !! i with
      | None => (refusal 404 "Not Found", s)
      | Some pr =>
          if pr_merged pr then (refusal 405 "Pull Request is not mergeable", s)
          else
            match branches s !! pr_head pr, branches s !! pr_base pr with
            | Some h, Some b =>
                (answer 200 (VObj [(js "merged", VBool true)]),
                 {| credentials := credentials s;
                    commits := commits s;
                    branches := <[pr_base pr := {| tip := tip h;
                                                   base_commit := base_commit b |}]>
                                  (branches s);
                    pulls := <[i := {| pr_head := pr_head pr; pr_base := pr_base pr;
                                       pr_merged := true |}]> (pulls s) |})
            | _, _ => (refusal 405 "Pull Request is not mergeable", s)
            end
      end
  end.

(** Modelled from the spec: one call served. Every operation requires a
    credential: a call without an accepted one is refused before
    anything else is looked at. *)
Definition store_serve (s : store) (rq : fetch_request) : fetch_outcome * store :=
  if negb (authorized s rq) then (refusal 401 "Bad credentials", s)
  else
    match strip_prefix repo_api (rq_url rq) with
    | None => (refusal 404 "Not Found", s)
    | Some route =>
        match strip_prefix (js "/contents/") route, rq_method rq, rq_body rq with
        | Some p, GET, _ => store_read s p
        | Some p, PUT, Some body => store_write s p body
        | Some _, _, _ => (refusal 404 "Not Found", s)
        | None, _, _ =>
            match strip_prefix (js "/git/ref/heads/") route, rq_method rq with
            | Some name, GET => store_ref s name
            | Some _, _ => (refusal 404 "Not Found", s)
            | None, _ =>
                if str_eqb route (js "/git/refs") then
                  match rq_method rq, rq_body rq with
                  | POST, Some body => store_create_branch s body
                  | _, _ => (refusal 404 "Not Found", s)
                  end
                else if str_eqb route (js "/pulls") then
                  match rq_method rq, rq_body rq with
                  | POST, Some body => store_open_pull s body
                  | _, _ => (refusal 404 "Not Found", s)
                  end
                else
                  match strip_prefix (js "/pulls/") route, rq_method rq with
                  | Some rest, PUT =>
                      match strip_suffix (js "/merge") rest with
                      | Some number => store_merge s number
                      | None => (refusal 404 "Not Found", s)
                      end
                  | _, _ => (refusal 404 "Not Found", s)
                  end
            end
        end
    end.

(** A store that accepts one credential and holds one empty commit on
    its default branch. *)
Definition new_store (credential : jsstring) : store :=
  {| credentials := [credential];
     commits := [∅];
     branches := {[ default_branch := {| tip := 0%nat; base_commit := 0%nat |} ]};
     pulls := [] |}.

(** ** Notions the theorems are stated with *)

(** A string of code units in range in which every surrogate has its
    partner: well-formed Unicode text. *)
Definition is_code_unit (u : Z) : bool := (0 <=? u) && (u <=? 0xFFFF).

Definition paired (c : option Z) : bool :=
  match c with
  | Some _ => true
  | None => false
  end.

Definition well_formed_text (s : jsstring) : bool :=
  forallb is_code_unit s && forallb paired (code_points s).

(** [Buffer.from] of a plain object that is not array-like: a TypeError.
    It stands for the open part of [Buffer.from] where a closed example
    needs one; the examples pass strings only. *)
Definition rejects_objects (v : value) : result (list Z) :=
  Throw (type_error "The first argument must be of type string or an instance of Buffer, ArrayBuffer, or Array or an Array-like Object.").

(** A response with status 200 and a JSON body, as [res.json] leaves it. *)
Definition json_response (v : value) : http_response :=
  {| statusCode := 200; headers := []; sent := Json v |}.

Definition text_response (code : Z) (s : jsstring) : http_response :=
  {| statusCode := code; headers := []; sent := Text s |}.

(** What each route answers when it finds no credential. *)
Definition unauthenticated (ep : endpoint) : http_response :=
  match ep with
  | Auth => json_response (error_envelope (js "No token found. Set GITHUB_TOKEN in Vercel."))
  | TestToken => json_response (error_envelope (js "No token set."))
  | OgImage => text_response 401 (js "Missing GITHUB_TOKEN env var")
  | UploadImage | Commit | CreatePr | MergePr | FileAt =>
      json_response (error_envelope (js "GitHub not authenticated"))
  | Files | Prs => text_response 200 (js "<p>Set GITHUB_TOKEN env var</p>")
  end.

(** The headers of lines 96-99. *)
Definition no_cache_headers : list (jsstring * jsstring) :=
  [(js "Content-Type", js "image/png");
   (js "Cache-Control", js "no-cache, no-store, must-revalidate");
   (js "Pragma", js "no-cache");
   (js "Expires", js "0")].

(** The call of lines 79-84: the read of [images/<name>]. *)
Definition image_read (t name : jsstring) : fetch_request :=
  {| rq_url := contents_url (js "images/" ++ name);
     rq_method := GET;
     rq_headers := read_headers t;
     rq_body := None |}.

Definition is_byte (b : Z) : Prop := 0 <= b < 256.

(** A Unicode scalar value: a code point that is not a surrogate. *)
Definition is_scalar (c : Z) : Prop :=
  (0 <= c < 0xD800) \/ (0xE000 <= c <= 0x10FFFF).

(** What holds after a computation, given what has to hold after it
    returns ([Q]) and after it throws ([E]). *)
Definition wp {R A} (m : M R A) (Q : A -> world R -> Prop)
    (E : js_error -> world R -> Prop) (w : world R) : Prop :=
  match m w with
  | (Ok a, w') => Q a w'
  | (Throw e, w') => E e w'
  end.

(** The uniform outcome envelope: [{error: message}], or an object whose
    first field is [success]. *)
Definition enveloped (v : value) : Prop :=
  (exists msg, v = error_envelope msg) \/
  (exists msg rest, v = VObj ((js "success", VStr msg) :: rest)).

(** The endpoints that change the remote store. *)
Definition mutating (ep : endpoint) : bool :=
  match ep with
  | UploadImage | Commit | CreatePr | MergePr => true
  | _ => false
  end.

(** The message an endpoint makes of the body of a refused write
    (lines 152, 202 and 279). *)
Definition refusal_message (ep : endpoint) (raw : jsstring) : jsstring :=
  match ep with
  | UploadImage => js "GitHub upload failed: " ++ raw
  | _ => raw
  end.

(** The two calls of /commit: the read of lines 179-181 and the write of
    lines 188-200, for the credential [t], the escaped path [p], the
    printed [filePath] [fp], the content [c] and the version [sha]. *)
Definition commit_read (t p : jsstring) : fetch_request :=
  {| rq_url := contents_url p;
     rq_method := GET;
     rq_headers := read_headers t;
     rq_body := None |}.

Definition commit_write (t p fp c : jsstring) (sha : value) : fetch_request :=
  {| rq_url := contents_url p;
     rq_method := PUT;
     rq_headers := write_headers t;
     rq_body := Some (json_image
       (VObj [(js "message", VStr (js "Update " ++ fp ++ js " from web editor"));
              (js "content", VStr (base64_encode (utf8_encode c)));
              (js "sha", sha)])) |}.

(** A write that names no version: its body has no [sha]. *)
Definition unconstrained (rq : fetch_request) : Prop :=
  exists props, rq_body rq = Some (VObj props) /\ has_own props (js "sha") = false.

(** The version /commit resolves from the answer to its read: none when
    the read is not ok, the [sha] of the JSON body when it is. [None]
    stands for a body that cannot be read that way. *)
Definition resolved_version (r : fetch_response) : option value :=
  if ok r then
    match json r with
    | Some f => if nullish f then None else Some (member f (js "sha"))
    | None => None
    end
  else Some VUndefined.

(** The read of GET /file/* (lines 321-323). *)
Definition file_read (t p : jsstring) : fetch_request := commit_read t p.

(** The calls of /create-pr, in order: the read of the default branch's
    tip (line 221), the creation of the branch (lines 227-231), the read
    of the file (lines 234-236), the write on the branch (lines 240-249)
    and the opening of the pull request (lines 252-256). *)
Definition tip_read (t : jsstring) : fetch_request :=
  {| rq_url := repo_api ++ js "/git/ref/heads/main";
     rq_method := GET;
     rq_headers := read_headers t;
     rq_body := None |}.

Definition branch_create (t : jsstring) (now : Z) (base : value) : fetch_request :=
  {| rq_url := repo_api ++ js "/git/refs";
     rq_method := POST;
     rq_headers := write_headers t;
     rq_body := Some (json_image
       (VObj [(js "ref", VStr (js "refs/heads/" ++ branch_name now));
              (js "sha", base)])) |}.

Definition branch_write (t p c : jsstring) (sha : value) (now : Z) : fetch_request :=
  {| rq_url := contents_url p;
     rq_method := PUT;
     rq_headers := write_headers t;
     rq_body := Some (json_image
       (VObj [(js "message", VStr (js "Update from web editor"));
              (js "content", VStr (base64_encode (utf8_encode c)));
              (js "sha", sha);
              (js "branch", VStr (branch_name now))])) |}.

Definition pull_open (t : jsstring) (title body_ : value) (now : Z) : fetch_request :=
  {| rq_url := repo_api ++ js "/pulls";
     rq_method := POST;
     rq_headers := write_headers t;
     rq_body := Some (json_image
       (VObj [(js "title", js_or title (VStr (js "Update")));
              (js "body", js_or body_ (VStr []));
              (js "head", VStr (branch_name now));
              (js "base", VStr (js "main"))])) |}.

(** [getFile.ok ? await getFile.json() : {}] (line 237) *)
Definition current_file (r : fetch_response) : option value :=
  if ok r then json r else Some (VObj []).

(** A request that carries a text and the path to write it at; the same
    path is the wildcard of GET /file/*. *)
Definition text_request (path content : jsstring) : request :=
  {| body := VObj [(js "content", VStr content); (js "filePath", VStr path)];
     query := VObj [];
     params0 := path |}.

(** The store after a write of [bytes] under [key] on the branch [name],
    which pointed at the files [files]. *)
Definition store_after_write (s : store) (name : jsstring) (b : branch)
    (files : gmap (list Z) remote_file) (key bytes : list Z) : store :=
  {| credentials := credentials s;
     commits := commits s
                ++ [<[key := {| file_bytes := bytes;
                                file_version := commit_token (List.length (commits s)) |}]>
                      files];
     branches := <[name := {| tip := List.length (commits s);
                              base_commit := base_commit b |}]> (branches s);
     pulls := pulls s |}.

(** What GET /file/<path> sends right after POST /commit wrote [content]
    at [path], on the store [s] with the process-wide credential [t]. *)
Definition read_back (t path content : jsstring) (s : store) : payload :=
  let env := {| GITHUB_TOKEN := Some t |} in
  let rq := text_request path content in
  let s' := remote (snd (serve_request store_serve rejects_objects Commit env 0 rq s)) in
  sent (res (snd (serve_request store_serve rejects_objects FileAt env 0 rq s'))).

(** The store after one /create-pr: the branch [name] created at the tip
    of the default branch [b], one commit on it that writes [bytes]
    under [key], and a pull request from it. *)
Definition store_after_pr (s : store) (name : jsstring) (b : branch)
    (files : gmap (list Z) remote_file) (key bytes : list Z) : store :=
  {| credentials := credentials s;
     commits := commits s
                ++ [<[key := {| file_bytes := bytes;
                                file_version := commit_token (List.length (commits s)) |}]>
                      files];
     branches := <[name := {| tip := List.length (commits s); base_commit := tip b |}]>
                   (branches s);
     pulls := pulls s ++ [{| pr_head := name; pr_base := js "main"; pr_merged := false |}] |}.

(** The store after POST /create-pr at time [now] with credential [t]. *)
Definition after_create_pr (t : jsstring) (now : Z) (path content : jsstring)
    (s : store) : store :=
  remote (snd (serve_request store_serve rejects_objects CreatePr
                 {| GITHUB_TOKEN := Some t |} now (text_request path content) s)).

(** The bytes of the file under [key] on the branch [name], and the
    commit that branch was created at. *)
Definition file_on (s : store) (name : jsstring) (key : list Z) : option (list Z) :=
  match branches s !! name with
  | Some b =>
      match commits s !! tip b with
      | Some files =>
          match files !! key with
          | Some f => Some (file_bytes f)
          | None => None
          end
      | None => None
      end
  | None => None
  end.

Definition forked_from (s : store) (name : jsstring) : option nat :=
  match branches s !! name with
  | Some b => Some (base_commit b)
  | None => None
  end.

(** ** Concrete scenarios on the reference store *)

Definition with_token : process_env := {| GITHUB_TOKEN := Some (js "tok") |}.
Definition without_token : process_env := {| GITHUB_TOKEN := None |}.
Definition wrong_token : process_env := {| GITHUB_TOKEN := Some (js "bad") |}.

(** One request served by the reference store. *)
Definition on_store (ep : endpoint) (env : process_env) (now : Z) (req : request)
    (s : store) : result unit * world store :=
  serve_request store_serve rejects_objects ep env now req s.

Definition outcome_status (o : fetch_outcome) : option Z :=
  match o with
  | Responded r => Some (status r)
  | Rejected _ => None
  end.

(** Method, address and answered status of each call, in order. *)
Definition call_summary (w : world store) : list (http_method * jsstring * option Z) :=
  List.map (fun c => (rq_method (fst c), rq_url (fst c), outcome_status (snd c))) (calls w).

(** A store on which the branch [web-editor-5] exists already: one
    /create-pr was served at time 5. *)
Definition taken_store : store :=
  after_create_pr (js "tok") 5 (js "index.html") (js "one") (new_store (js "tok")).

(** An upload of the one byte 0xFF as [images/og-image.png], and the
    store after it. *)
Definition upload_request : request :=
  {| body := VObj [(js "content", VStr (js "/w==")); (js "filename", VStr (js "og-image.png"))];
     query := VObj [];
     params0 := [] |}.

Definition pictured_store : store :=
  remote (snd (on_store UploadImage with_token 0 upload_request (new_store (js "tok")))).

Definition bare_request : request :=
  {| body := VObj []; query := VObj []; params0 := [] |}.

(** ** The rest of the application, and the notions its facts need *)

(** [res.end()] *)
Definition res_end {R} : M R unit := res_deliver Ended.

(** GET /favicon.ico (lines 15-17): the handler reads nothing of the
    request. *)
Definition get_favicon {R} (req : request) : M R unit :=
  res_status 204 ;;; res_end.

(** The call of POST /test-token (lines 48-53). *)
Definition user_read (t : jsstring) : fetch_request :=
  {| rq_url := js "https://api.github.com/user";
     rq_method := GET;
     rq_headers := read_headers t;
     rq_body := None |}.

(** The call of GET /files (lines 292-294). *)
Definition files_read (t : jsstring) : fetch_request :=
  {| rq_url := repo_api ++ js "/contents";
     rq_method := GET;
     rq_headers := read_headers t;
     rq_body := None |}.

(** The call of GET /prs (lines 344-346). *)
Definition prs_read (t : jsstring) : fetch_request :=
  {| rq_url := repo_api ++ js "/pulls?state=open";
     rq_method := GET;
     rq_headers := read_headers t;
     rq_body := None |}.

(** [Number.isSafeInteger]: the integers a number holds exactly; they
    print digit by digit. *)
Definition is_safe_integer (n : Z) : bool := Z.abs n <=? 9007199254740991.

(** A value whose numbers, as far as ToString prints them, are safe
    integers: it prints as [ToString] says. A larger number prints
    rounded, or with an exponent from 1e21 up. *)
Fixpoint safe_numbers (v : value) : bool :=
  match v with
  | VNum n => is_safe_integer n
  | VArr items => forallb safe_numbers items
  | _ => true
  end.

(** The call of POST /merge-pr (lines 273-277), for the printed
    [prNumber] [n]. *)
Definition merge_call (t n : jsstring) : fetch_request :=
  {| rq_url := repo_api ++ js "/pulls/" ++ n ++ js "/merge";
     rq_method := PUT;
     rq_headers := write_headers t;
     rq_body := Some (json_image
       (VObj [(js "commit_title", VStr (js "Merge PR #" ++ n));
              (js "merge_method", VStr (js "merge"))])) |}.

(** The write of POST /upload-image (lines 134-148), for the printed
    [filename] [f]; its read is [image_read t f]. *)
Definition image_write (t f : jsstring) (content sha : value) : fetch_request :=
  {| rq_url := contents_url (js "images/" ++ f);
     rq_method := PUT;
     rq_headers := write_headers t;
     rq_body := Some (json_image
       (VObj [(js "message", VStr (js "Upload image " ++ f));
              (js "content", content);
              (js "sha", js_or sha VUndefined)])) |}.

(** [proxyUrl] (line 157) *)
Definition proxy_url (f : jsstring) (now : Z) : jsstring :=
  js "https://world-world.vercel.app/og-image.png?name=" ++ f
  ++ js "&t=" ++ number_to_string now.

(** What POST /upload-image sends on success (lines 159-162). *)
Definition uploaded (u : jsstring) : payload :=
  Json (VObj [(js "success", VStr (js "Image uploaded!")); (js "url", VStr u)]).

(** The two kinds of address the handlers call. *)
Definition well_addressed (rq : fetch_request) : Prop :=
  rq_url rq = js "https://api.github.com/user" \/ exists rest, rq_url rq = repo_api ++ rest.

(** The headers and the body of a call, by its method, for the printed
    credential [t]. *)
Definition well_headed (t : jsstring) (rq : fetch_request) : Prop :=
  match rq_method rq with
  | GET => rq_headers rq = read_headers t /\ rq_body rq = None
  | PUT | POST => rq_headers rq = write_headers t /\ exists b, rq_body rq = Some b
  end.

(** The methods of the calls of a route, in the order of the source. *)
Definition call_plan (ep : endpoint) (req : request) : list http_method :=
  match ep with
  | Auth => []
  | TestToken | OgImage | Files | FileAt | Prs => [GET]
  | UploadImage => [GET; PUT]
  | Commit => if truthy (member (body req) (js "sha")) then [PUT] else [GET; PUT]
  | CreatePr => [GET; POST; GET; PUT; POST]
  | MergePr => [PUT]
  end.

(** A call that was answered, with whatever status. *)
Definition answered (c : fetch_request * fetch_outcome) : Prop :=
  exists r, snd c = Responded r.

(** What kind of answer a route gives. *)
Definition answer_shape (ep : endpoint) (r : http_response) : Prop :=
  match ep with
  | OgImage => (exists bytes, sent r = Binary bytes) \/ (exists msg, sent r = Text msg)
  | Files | Prs => statusCode r = 200 /\ headers r = [] /\ exists html, sent r = Text html
  | _ => statusCode r = 200 /\ headers r = [] /\ exists v, sent r = Json v
  end.

(** The escaped path a route puts in the address of its file calls
    (lines 179, 188, 234, 240 and 321). *)
Definition requested_path (ep : endpoint) (req : request) : result jsstring :=
  match ep with
  | FileAt => encodeURIComponent_string (params0 req)
  | _ => encodeURIComponent (js_or (member (body req) (js "filePath"))
                               (VStr (js "index.html")))
  end.

(** A call that opens a pull request. *)
Definition opens_pull (rq : fetch_request) : Prop := rq_url rq = repo_api ++ js "/pulls".

(** A character the base64 decoder passes over: not the padding
    character and not of the alphabet. *)
Definition b64_skipped (c : Z) : bool :=
  negb (c =? b64_pad) && match b64_value c with Some _ => false | None => true end.

(** A string without the characters the decoder passes over. *)
Definition b64_significant (s : jsstring) : jsstring :=
  List.filter (fun c => negb (b64_skipped c)) s.

(** A code unit of one byte, as in the text of a JSON answer that is
    base64 with line breaks. *)
Definition is_latin1 (c : Z) : Prop := 0 <= c < 256.

(** What [encodeURIComponent] writes: unreserved characters and [%]. *)
Definition uri_safe (u : Z) : Prop := uri_unreserved u = true \/ u = 37.

Definition in_unicode (c : option Z) : Prop :=
  match c with
  | Some c => 0 <= c <= 0x10FFFF
  | None => True
  end.

(** [s.toWellFormed()]: every surrogate without its partner replaced by
    U+FFFD, the rest as it is. *)
Fixpoint toWellFormed (s : jsstring) : jsstring :=
  match s with
  | [] => []
  | u :: rest =>
      if is_high_surrogate u then
        match rest with
        | l :: rest' =>
            if is_low_surrogate l
            then u :: l :: toWellFormed rest'
            else replacement_character :: toWellFormed rest
        | [] => [replacement_character]
        end
      else if is_low_surrogate u then replacement_character :: toWellFormed rest
      else u :: toWellFormed rest
  end.

(** ** Concrete scenarios on a scripted remote *)

(** A remote that answers from a script: each call takes the next
    outcome, whatever the call is; when the script is over, the call
    fails in transit. *)
Definition scripted (script : list fetch_outcome) (rq : fetch_request)
    : fetch_outcome * list fetch_outcome :=
  match script with
  | o :: rest => (o, rest)
  | [] => (Rejected {| kind := PlainError; message := js "fetch failed" |}, [])
  end.

(** One request served by a scripted remote. *)
Definition on_script (ep : endpoint) (env : process_env) (now : Z) (req : request)
    (script : list fetch_outcome) : result unit * world (list fetch_outcome) :=
  serve_request scripted rejects_objects ep env now req script.


(** A file as the store answers a read of it: the base64 text of
    "hello", broken into lines. *)
Definition hello_file : value :=
  VObj [(js "content", VStr (js "aGVs" ++ newline ++ js "bG8=" ++ newline));
        (js "encoding", VStr (js "base64"));
        (js "sha", VStr (js "abc"))].

(** A /commit that names the version it replaces. *)
Definition versioned_request : request :=
  {| body := VObj [(js "content", VStr (js "hello"));
                   (js "filePath", VStr (js "a.txt"));
                   (js "sha", VStr (js "abc"))];
     query := VObj [];
     params0 := js "a.txt" |}.

(** A request that carries a content and nothing else. *)
Definition content_request : request :=
  {| body := VObj [(js "content", VStr (js "hi"))]; query := VObj []; params0 := [] |}.

(** A request that names a path and carries no content. *)
Definition path_request : request :=
  {| body := VObj [(js "filePath", VStr (js "a.txt"))];
     query := VObj [];
     params0 := js "a.txt" |}.

(** A request for the file whose path is one unpaired surrogate. *)
Definition surrogate_request : request :=
  {| body := VObj []; query := VObj []; params0 := [0xD800] |}.

(** The merge of pull request 1. *)
Definition merge_request : request :=
  {| body := VObj [(js "prNumber", VNum 1)]; query := VObj []; params0 := [] |}.

(** * Facts about the runtime model *)

(** Settles the comparisons of a goal whose truth [lia] can see. *)
Ltac decide_test :=
  match goal with
  | |- context [?a <? ?b] =>
      first [ replace (a <? b) with true by (symmetry; apply Z.ltb_lt; lia)
            | replace (a <? b) with false by (symmetry; apply Z.ltb_ge; lia) ]
  | |- context [?a <=? ?b] =>
      first [ replace (a <=? b) with true by (symmetry; apply Z.leb_le; lia)
            | replace (a <=? b) with false by (symmetry; apply Z.leb_gt; lia) ]
  | |- context [?a =? ?b] =>
      first [ replace (a =? b) with true by (symmetry; apply Z.eqb_eq; lia)
            | replace (a =? b) with false by (symmetry; apply Z.eqb_neq; lia) ]
  end.

Ltac decide_tests := repeat (decide_test; cbn [andb orb negb]).

Lemma str_eqb_refl (a : jsstring) : str_eqb a a = true.
Proof.
  induction a as [|x a IH]; [reflexivity |].
  cbn. now rewrite Z.eqb_refl, IH.
Qed.

Lemma str_eqb_eq (a b : jsstring) : str_eqb a b = true <-> a = b.
Proof.
  split; [| intros ->; apply str_eqb_refl].
  revert b. induction a as [|x a IH]; intros [|y b] H; cbn in H; try discriminate.
  - reflexivity.
  - apply andb_true_iff in H as [Hx Hr].
    apply Z.eqb_eq in Hx. subst y. f_equal. now apply IH.
Qed.

Lemma js_inj (s t : string) : js s = js t -> s = t.
Proof.
  unfold js. intros H.
  rewrite <- (string_of_list_ascii_of_string s), <- (string_of_list_ascii_of_string t).
  f_equal.
  revert H. generalize (list_ascii_of_string s) (list_ascii_of_string t).
  intros l. induction l as [|a l IH]; intros [|b m] H; cbn in H; try discriminate.
  - reflexivity.
  - injection H as Hab Hlm.
    apply N2Z.inj in Hab.
    rewrite <- (ascii_N_embedding a), <- (ascii_N_embedding b), Hab.
    f_equal. now apply IH.
Qed.

Lemma to_int_nonnil (n : Z) :
  Z.to_int n <> Decimal.Pos Decimal.Nil /\ Z.to_int n <> Decimal.Neg Decimal.Nil.
Proof.
  destruct n as [|p|p]; cbn; split; try discriminate;
    intros H; injection H as H; now apply DecimalPos.Unsigned.to_uint_nonnil in H.
Qed.

(** Two numbers that print alike are equal. *)
Lemma number_to_string_inj (n m : Z) :
  number_to_string n = number_to_string m -> n = m.
Proof.
  unfold number_to_string. intros H. apply js_inj in H.
  destruct (to_int_nonnil n) as [Hn1 Hn2], (to_int_nonnil m) as [Hm1 Hm2].
  pose proof (NilZero.isi _ Hn1 Hn2) as En.
  pose proof (NilZero.isi _ Hm1 Hm2) as Em.
  rewrite H in En. rewrite En in Em. injection Em as Em.
  rewrite <- (DecimalZ.of_to n), <- (DecimalZ.of_to m). now rewrite Em.
Qed.

(** *** Base64 *)

Lemma b64_value_char (i : Z) :
  0 <= i < 64 -> b64_value (b64_char i) = Some i /\ (b64_char i =? b64_pad) = false.
Proof.
  intros Hi. unfold b64_value, b64_char, b64_pad.
  destruct (Z.ltb_spec i 26); [decide_tests; split; [f_equal; lia | reflexivity] |].
  destruct (Z.ltb_spec i 52); [decide_tests; split; [f_equal; lia | reflexivity] |].
  destruct (Z.ltb_spec i 62); [decide_tests; split; [f_equal; lia | reflexivity] |].
  destruct (Z.eqb_spec i 62); [decide_tests; split; [f_equal; lia | reflexivity] |].
  decide_tests. split; [f_equal; lia | reflexivity].
Qed.

Lemma b64_char_low_byte (i : Z) : 0 <= i < 64 -> b64_char i mod 256 = b64_char i.
Proof.
  intros Hi. apply Z.mod_small. unfold b64_char.
  destruct (Z.ltb_spec i 26); [lia |].
  destruct (Z.ltb_spec i 52); [lia |].
  destruct (Z.ltb_spec i 62); [lia |].
  destruct (Z.eqb_spec i 62); lia.
Qed.

Lemma b64_sextets_char (i : Z) (rest : jsstring) :
  0 <= i < 64 -> b64_sextets (b64_char i :: rest) = i :: b64_sextets rest.
Proof.
  intros Hi. destruct (b64_value_char i Hi) as [Hv Hp].
  cbn [b64_sextets]. cbv zeta. now rewrite (b64_char_low_byte i Hi), Hp, Hv.
Qed.

Lemma b64_sextets_pad (rest : jsstring) : b64_sextets (b64_pad :: rest) = [].
Proof. reflexivity. Qed.

Ltac sextet_range := Z.div_mod_to_equations; lia.

(** Decoding the base64 text of a byte sequence gives the sequence back. *)
Lemma base64_round_trip_upto (n : nat) :
  forall bs, (List.length bs <= n)%nat -> Forall is_byte bs ->
    base64_decode (base64_encode bs) = bs.
Proof.
  unfold base64_decode.
  induction n as [|n IH]; intros bs Hlen Hb.
  { destruct bs; [reflexivity | cbn in Hlen; lia]. }
  destruct bs as [|a [|b [|c rest]]].
  - reflexivity.
  - apply Forall_cons_iff in Hb as [Ha _]. unfold is_byte in Ha.
    cbn [base64_encode].
    rewrite !b64_sextets_char, b64_sextets_pad by sextet_range.
    cbn [b64_bytes]. f_equal. sextet_range.
  - apply Forall_cons_iff in Hb as [Ha Hb].
    apply Forall_cons_iff in Hb as [Hb _]. unfold is_byte in Ha, Hb.
    cbn [base64_encode].
    rewrite !b64_sextets_char, b64_sextets_pad by sextet_range.
    cbn [b64_bytes]. f_equal; [| f_equal]; sextet_range.
  - apply Forall_cons_iff in Hb as [Ha Hb].
    apply Forall_cons_iff in Hb as [Hb Hc].
    apply Forall_cons_iff in Hc as [Hc Hrest]. unfold is_byte in Ha, Hb, Hc.
    cbn [base64_encode].
    rewrite !b64_sextets_char by sextet_range.
    cbn [b64_bytes].
    rewrite IH; [| cbn in Hlen; lia | exact Hrest].
    f_equal; [| f_equal; [| f_equal]]; sextet_range.
Qed.

Lemma base64_round_trip (bs : list Z) :
  Forall is_byte bs -> base64_decode (base64_encode bs) = bs.
Proof. apply (base64_round_trip_upto (List.length bs)). lia. Qed.

(** *** UTF-8 *)

Lemma utf8_of_code_point_bytes (c : Z) :
  0 <= c <= 0x10FFFF -> Forall is_byte (utf8_of_code_point c).
Proof.
  intros Hc. unfold utf8_of_code_point, is_byte.
  destruct (Z.ltb_spec c 0x80); [| destruct (Z.ltb_spec c 0x800);
    [| destruct (Z.ltb_spec c 0x10000)]];
    repeat (constructor; [Z.div_mod_to_equations; lia |]); constructor.
Qed.

(** Reading back the UTF-8 form of a scalar value gives that value, and
    decoding goes on with what follows. *)
Lemma utf8_code_points_encoded (c : Z) (rest : list Z) :
  is_scalar c ->
  utf8_code_points (utf8_of_code_point c ++ rest) = c :: utf8_code_points rest.
Proof.
  intros Hc. unfold is_scalar in Hc. unfold utf8_of_code_point.
  destruct (Z.ltb_spec c 0x80) as [H1|H1].
  { cbn [app utf8_code_points]. decide_tests. reflexivity. }
  destruct (Z.ltb_spec c 0x800) as [H2|H2].
  { assert (Hb0 : 0xC2 <= 0xC0 + c / 0x40 <= 0xDF) by (Z.div_mod_to_equations; lia).
    assert (Hb1 : 0x80 <= 0x80 + c mod 0x40 <= 0xBF) by (Z.div_mod_to_equations; lia).
    assert (Hv : (0xC0 + c / 0x40 - 0xC0) * 0x40 + (0x80 + c mod 0x40 - 0x80) = c)
      by (Z.div_mod_to_equations; lia).
    revert Hb0 Hb1 Hv.
    generalize (0xC0 + c / 0x40) (0x80 + c mod 0x40). intros b0 b1 Hb0 Hb1 Hv.
    cbn [app utf8_code_points]. unfold is_continuation.
    decide_tests. now rewrite Hv. }
  destruct (Z.ltb_spec c 0x10000) as [H3|H3].
  { assert (Hb0 : 0xE0 <= 0xE0 + c / 0x1000 <= 0xEF) by (Z.div_mod_to_equations; lia).
    assert (Hb1 : 0x80 <= 0x80 + (c / 0x40) mod 0x40 <= 0xBF)
      by (Z.div_mod_to_equations; lia).
    assert (Hb2 : 0x80 <= 0x80 + c mod 0x40 <= 0xBF) by (Z.div_mod_to_equations; lia).
    assert (HE0 : 0xE0 + c / 0x1000 = 0xE0 -> 0xA0 <= 0x80 + (c / 0x40) mod 0x40)
      by (Z.div_mod_to_equations; lia).
    assert (HED : 0xE0 + c / 0x1000 = 0xED -> 0x80 + (c / 0x40) mod 0x40 <= 0x9F)
      by (Z.div_mod_to_equations; lia).
    assert (Hv : (0xE0 + c / 0x1000 - 0xE0) * 0x1000
                 + (0x80 + (c / 0x40) mod 0x40 - 0x80) * 0x40
                 + (0x80 + c mod 0x40 - 0x80) = c)
      by (Z.div_mod_to_equations; lia).
    revert Hb0 Hb1 Hb2 HE0 HED Hv.
    generalize (0xE0 + c / 0x1000) (0x80 + (c / 0x40) mod 0x40) (0x80 + c mod 0x40).
    intros b0 b1 b2 Hb0 Hb1 Hb2 HE0 HED Hv.
    cbn [app utf8_code_points]. unfold second_of_three, is_continuation.
    decide_tests.
    destruct (Z.eqb_spec b0 0xE0) as [E|E].
    - specialize (HE0 E). decide_tests. now rewrite Hv.
    - destruct (Z.eqb_spec b0 0xED) as [E'|E'].
      + specialize (HED E'). decide_tests. now rewrite Hv.
      + decide_tests. now rewrite Hv. }
  assert (Hb0 : 0xF0 <= 0xF0 + c / 0x40000 <= 0xF4) by (Z.div_mod_to_equations; lia).
  assert (Hb1 : 0x80 <= 0x80 + (c / 0x1000) mod 0x40 <= 0xBF)
    by (Z.div_mod_to_equations; lia).
  assert (Hb2 : 0x80 <= 0x80 + (c / 0x40) mod 0x40 <= 0xBF)
    by (Z.div_mod_to_equations; lia).
  assert (Hb3 : 0x80 <= 0x80 + c mod 0x40 <= 0xBF) by (Z.div_mod_to_equations; lia).
  assert (HF0 : 0xF0 + c / 0x40000 = 0xF0 -> 0x90 <= 0x80 + (c / 0x1000) mod 0x40)
    by (Z.div_mod_to_equations; lia).
  assert (HF4 : 0xF0 + c / 0x40000 = 0xF4 -> 0x80 + (c / 0x1000) mod 0x40 <= 0x8F)
    by (Z.div_mod_to_equations; lia).
  assert (Hv : (0xF0 + c / 0x40000 - 0xF0) * 0x40000
               + (0x80 + (c / 0x1000) mod 0x40 - 0x80) * 0x1000
               + (0x80 + (c / 0x40) mod 0x40 - 0x80) * 0x40
               + (0x80 + c mod 0x40 - 0x80) = c)
    by (Z.div_mod_to_equations; lia).
  revert Hb0 Hb1 Hb2 Hb3 HF0 HF4 Hv.
  generalize (0xF0 + c / 0x40000) (0x80 + (c / 0x1000) mod 0x40)
    (0x80 + (c / 0x40) mod 0x40) (0x80 + c mod 0x40).
  intros b0 b1 b2 b3 Hb0 Hb1 Hb2 Hb3 HF0 HF4 Hv.
  cbn [app utf8_code_points]. unfold second_of_four, is_continuation.
  decide_tests.
  destruct (Z.eqb_spec b0 0xF0) as [E|E].
  - specialize (HF0 E). decide_tests. now rewrite Hv.
  - destruct (Z.eqb_spec b0 0xF4) as [E'|E'].
    + specialize (HF4 E'). decide_tests. now rewrite Hv.
    + decide_tests. now rewrite Hv.
Qed.

Lemma utf8_encode_cons (c : option Z) (s : jsstring) (rest : list (option Z)) :
  code_points s = c :: rest ->
  utf8_encode s =
    utf8_of_code_point (match c with Some c => c | None => replacement_character end)
    ++ List.concat
         (List.map (fun c => utf8_of_code_point
                               (match c with Some c => c | None => replacement_character end))
            rest).
Proof. unfold utf8_encode. intros ->. reflexivity. Qed.

(** The three shapes of well-formed text. *)
Lemma well_formed_text_cases (s : jsstring) :
  well_formed_text s = true ->
  s = [] \/
  (exists u rest, s = u :: rest /\ code_points s = Some u :: code_points rest /\
     is_scalar u /\ u < 0x10000 /\ well_formed_text rest = true) \/
  (exists u l rest, s = u :: l :: rest /\
     code_points s = Some (0x10000 + (u - 0xD800) * 0x400 + (l - 0xDC00)) :: code_points rest /\
     0xD800 <= u <= 0xDBFF /\ 0xDC00 <= l <= 0xDFFF /\ well_formed_text rest = true).
Proof.
  unfold well_formed_text. intros H. apply andb_true_iff in H as [Hu Hp].
  destruct s as [|u rest]; [now left | right].
  cbn [forallb] in Hu. apply andb_true_iff in Hu as [Hu Hrest].
  unfold is_code_unit in Hu. apply andb_true_iff in Hu as [Hu0 Hu1].
  apply Z.leb_le in Hu0, Hu1.
  cbn [code_points] in Hp |- *.
  unfold is_high_surrogate, is_low_surrogate in *.
  destruct ((0xD800 <=? u) && (u <=? 0xDBFF)) eqn:Hhigh.
  - right. apply andb_true_iff in Hhigh as [Hh0 Hh1].
    apply Z.leb_le in Hh0, Hh1.
    destruct rest as [|l rest']; [discriminate Hp |].
    cbn [forallb] in Hrest. apply andb_true_iff in Hrest as [Hl Hrest'].
    destruct ((0xDC00 <=? l) && (l <=? 0xDFFF)) eqn:Hlow; [| discriminate Hp].
    apply andb_true_iff in Hlow as [Hl0 Hl1]. apply Z.leb_le in Hl0, Hl1.
    cbn [forallb paired] in Hp.
    exists u, l, rest'. repeat split; try lia.
    now rewrite Hrest', Hp.
  - left. destruct ((0xDC00 <=? u) && (u <=? 0xDFFF)) eqn:Hlow; [discriminate Hp |].
    cbn [forallb paired] in Hp.
    exists u, rest. repeat split; try lia.
    + apply andb_false_iff in Hhigh. apply andb_false_iff in Hlow.
      unfold is_scalar.
      destruct Hhigh as [Hh|Hh]; [apply Z.leb_gt in Hh; lia |].
      destruct Hlow as [Hl|Hl]; apply Z.leb_gt in Hh, Hl; lia.
    + now rewrite Hrest, Hp.
Qed.

Lemma utf8_round_trip_upto (n : nat) :
  forall s, (List.length s <= n)%nat -> well_formed_text s = true ->
    utf8_decode (utf8_encode s) = s.
Proof.
  unfold utf8_decode.
  induction n as [|n IH]; intros s Hlen Hwf.
  { destruct s; [reflexivity | cbn in Hlen; lia]. }
  destruct (well_formed_text_cases s Hwf)
    as [-> | [(u & rest & -> & Hcp & Hs & Hu & Hrest)
           | (u & l & rest & -> & Hcp & Hu & Hl & Hrest)]].
  - reflexivity.
  - rewrite (utf8_encode_cons _ _ _ Hcp).
    fold (utf8_encode rest).
    rewrite utf8_code_points_encoded by exact Hs.
    cbn [List.map List.concat].
    rewrite IH; [| cbn in Hlen; lia | exact Hrest].
    unfold utf16_of_code_point. decide_tests. reflexivity.
  - rewrite (utf8_encode_cons _ _ _ Hcp).
    fold (utf8_encode rest).
    rewrite utf8_code_points_encoded by (unfold is_scalar; lia).
    cbn [List.map List.concat].
    rewrite IH; [| cbn in Hlen; lia | exact Hrest].
    unfold utf16_of_code_point. decide_tests. cbn [app].
    f_equal; [| f_equal]; Z.div_mod_to_equations; lia.
Qed.

(** Well-formed text survives being written as UTF-8 and read back. *)
Lemma utf8_round_trip (s : jsstring) :
  well_formed_text s = true -> utf8_decode (utf8_encode s) = s.
Proof. apply (utf8_round_trip_upto (List.length s)). lia. Qed.

Lemma utf8_encode_bytes_upto (n : nat) :
  forall s, (List.length s <= n)%nat -> forallb is_code_unit s = true ->
    Forall is_byte (utf8_encode s).
Proof.
  induction n as [|n IH]; intros s Hlen Hu.
  { destruct s; [constructor | cbn in Hlen; lia]. }
  destruct s as [|u rest]; [constructor |].
  cbn [forallb] in Hu. apply andb_true_iff in Hu as [Hu Hrest].
  unfold is_code_unit in Hu. apply andb_true_iff in Hu as [Hu0 Hu1].
  apply Z.leb_le in Hu0, Hu1.
  unfold utf8_encode. cbn [code_points].
  destruct (is_high_surrogate u) eqn:Hhigh.
  - unfold is_high_surrogate in Hhigh. apply andb_true_iff in Hhigh as [Hh0 Hh1].
    apply Z.leb_le in Hh0, Hh1.
    destruct rest as [|l rest'].
    + cbn [List.map List.concat]. rewrite app_nil_r.
      apply utf8_of_code_point_bytes. unfold replacement_character. lia.
    + destruct (is_low_surrogate l) eqn:Hlow.
      * unfold is_low_surrogate in Hlow. apply andb_true_iff in Hlow as [Hl0 Hl1].
        apply Z.leb_le in Hl0, Hl1.
        cbn [List.map List.concat]. apply Forall_app. split.
        -- apply utf8_of_code_point_bytes. lia.
        -- cbn [forallb] in Hrest. apply andb_true_iff in Hrest as [_ Hrest'].
           apply (IH rest'); [cbn in Hlen; lia | exact Hrest'].
      * cbn [List.map List.concat]. apply Forall_app. split.
        -- apply utf8_of_code_point_bytes. unfold replacement_character. lia.
        -- apply (IH (l :: rest')); [cbn in Hlen |- *; lia | exact Hrest].
  - cbn [List.map List.concat].
    destruct (is_low_surrogate u); cbn [List.map List.concat];
      (apply Forall_app; split;
       [ apply utf8_of_code_point_bytes; unfold replacement_character; lia
       | apply (IH rest); [cbn in Hlen; lia | exact Hrest] ]).
Qed.

(** The UTF-8 form of a string is a sequence of bytes. *)
Lemma utf8_encode_bytes (s : jsstring) :
  forallb is_code_unit s = true -> Forall is_byte (utf8_encode s).
Proof. apply (utf8_encode_bytes_upto (List.length s)). lia. Qed.

(** From here on the runtime functions are used through the facts above
    and are not unfolded by simplification. *)
Arguments js : simpl never.
Arguments number_to_string : simpl never.
Arguments base64_encode : simpl never.
Arguments base64_decode : simpl never.
Arguments utf8_encode : simpl never.
Arguments utf8_decode : simpl never.
Arguments ToString : simpl never.
Arguments encodeURIComponent : simpl never.
Arguments encodeURIComponent_string : simpl never.

(** ** Rules for running a handler step by step *)

Section Rules.
Context {R : Type}.
Variable serve : R -> fetch_request -> fetch_outcome * R.

Lemma wp_ret {A} (a : A) Q E (w : world R) : Q a w -> wp (ret a) Q E w.
Proof. exact (fun H => H). Qed.

Lemma wp_throw {A} (e : js_error) (Q : A -> world R -> Prop) E (w : world R) :
  E e w -> wp (throw e) Q E w.
Proof. exact (fun H => H). Qed.

Lemma wp_bind {A B} (m : M R A) (k : A -> M R B) Q E (w : world R) :
  wp m (fun a w' => wp (k a) Q E w') E w -> wp (bind m k) Q E w.
Proof.
  unfold wp, bind. destruct (m w) as [[a|e] w']; exact (fun H => H).
Qed.

Lemma wp_try_catch (m : M R unit) (h : js_error -> M R unit) Q E (w : world R) :
  wp m Q (fun e w' => wp (h e) Q E w') w -> wp (try_catch m h) Q E w.
Proof.
  unfold wp, try_catch. destruct (m w) as [[a|e] w']; exact (fun H => H).
Qed.

Lemma wp_lift {A} (r : result A) Q E (w : world R) :
  (forall a, r = Ok a -> Q a w) -> (forall e, r = Throw e -> E e w) ->
  wp (lift r) Q E w.
Proof.
  unfold wp, lift. intros HQ HE. destruct r as [a|e]; [now apply HQ | now apply HE].
Qed.

Lemma wp_set_res (f : http_response -> http_response) Q E (w : world R) :
  Q tt {| remote := remote w; calls := calls w; res := f (res w) |} ->
  wp (set_res f) Q E w.
Proof. exact (fun H => H). Qed.

Lemma wp_fetch (rq : fetch_request) Q E (w : world R) :
  (forall r s', serve (remote w) rq = (Responded r, s') ->
     Q r {| remote := s'; calls := calls w ++ [(rq, Responded r)]; res := res w |}) ->
  (forall e s', serve (remote w) rq = (Rejected e, s') ->
     E e {| remote := s'; calls := calls w ++ [(rq, Rejected e)]; res := res w |}) ->
  wp (fetch serve rq) Q E w.
Proof.
  unfold wp, fetch. intros HQ HE.
  destruct (serve (remote w) rq) as [[r|e] s']; [now apply HQ | now apply HE].
Qed.

Lemma wp_response_json (r : fetch_response) Q E (w : world R) :
  (forall v, json r = Some v -> Q v w) ->
  (json r = None ->
   E {| kind := SyntaxError; message := js "Unexpected token in JSON" |} w) ->
  wp (response_json r) Q E w.
Proof.
  unfold response_json. intros HQ HE. apply wp_lift.
  - intros a Ha. destruct (json r); [injection Ha as ->; now apply HQ | discriminate].
  - intros e He. destruct (json r); [discriminate | injection He as <-; now apply HE].
Qed.

(** What a whole run ends in, from what holds of its steps. *)
Lemma wp_of_run (m : M R unit) (w : world R) (Q : result unit -> world R -> Prop) :
  wp m (fun a w' => Q (Ok a) w') (fun e w' => Q (Throw e) w') w ->
  Q (fst (m w)) (snd (m w)).
Proof. unfold wp. destruct (m w) as [[a|e] w']; exact (fun H => H). Qed.

End Rules.

Ltac wp_unfold_head :=
  unfold catch_as_json, catch_as_html, str, get, response_text,
    destructure, deref, res_json, res_send, res_send_buffer, res_status,
    res_setHeader, res_deliver.

(** One step of a run. Every case analysis leaves its equation in the
    context. *)
Ltac wp_step :=
  cbv beta iota zeta;
  cbn [remote calls res statusCode headers sent app];
  lazymatch goal with
  | |- wp (bind _ _) _ _ _ => apply wp_bind
  | |- wp (ret _) _ _ _ => apply wp_ret
  | |- wp (throw _) _ _ _ => apply wp_throw
  | |- wp (try_catch _ _) _ _ _ => apply wp_try_catch
  | |- wp (lift _) _ _ _ => apply wp_lift; intros ? ?
  | |- wp (set_res _) _ _ _ => apply wp_set_res
  | |- wp (fetch _ _) _ _ _ => apply wp_fetch; intros ? ? ?
  | |- wp (response_json _) _ _ _ => apply wp_response_json; [intros ? ? | intros ?]
  | |- wp (if ?b then _ else _) _ _ _ => destruct b eqn:?
  | |- wp _ _ _ _ => progress wp_unfold_head
  end.

Ltac run_handler :=
  repeat wp_step;
  cbv beta iota zeta;
  cbn [remote calls res statusCode headers sent app json_image error_envelope
       success_envelope message type_error].

(** The same by plain computation, for the short handlers: case analysis
    on the test of the outermost conditional, or else on what the
    innermost pending computation yields. *)
Ltac run_step :=
  match goal with
  | |- context [if ?b then _ else _] => destruct b eqn:?
  | |- context [match ?x with _ => _ end] =>
      lazymatch x with
      | context [match _ with _ => _ end] => fail
      | _ => destruct x eqn:?
      end
  end; cbn.

Ltac unfold_monad :=
  unfold catch_as_json, catch_as_html, str, get, response_json, response_text,
    destructure, deref, res_json, res_send, res_send_buffer, res_status,
    res_setHeader, res_deliver, set_res, fetch, try_catch, lift, bind, ret, throw in *.

(** * The credential helper *)

Lemma truthy_not_null (v : value) : truthy v = true -> as_credential v = Some v.
Proof. destruct v; simpl; intros H; try reflexivity; discriminate H. Qed.

(** C3. Credential resolution returns the first present of the
    process-wide credential, the body credential and the query
    credential, in this order, and nothing when none is present; with
    non-empty [E], [B] and [Q] all there it returns [E], with only [B]
    and [Q] it returns [B], and with none of them it returns [null]. *)
Theorem getAuthToken_precedence :
  (forall env req, as_credential (getAuthToken env req) = resolve_spec env req) /\
  (forall E B Q b q, E <> [] -> B <> [] -> Q <> [] ->
     getAuthToken {| GITHUB_TOKEN := Some E |} (request_with b q) = VStr E /\
     getAuthToken {| GITHUB_TOKEN := None |} (request_with (Some B) q) = VStr B /\
     getAuthToken {| GITHUB_TOKEN := None |} (request_with None (Some Q)) = VStr Q) /\
  getAuthToken {| GITHUB_TOKEN := None |} (request_with None None) = VNull.
Proof.
  split; [| split].
  - intros env req.
    unfold resolve_spec, getAuthToken, first_present,
      env_credential, body_credential, query_credential.
    destruct (truthy (env_value (GITHUB_TOKEN env))) eqn:He.
    { now apply truthy_not_null. }
    destruct (truthy (body req)) eqn:Hb; simpl.
    + destruct (truthy (member (body req) (js "token"))) eqn:Hbt.
      { now apply truthy_not_null. }
      destruct (truthy (query req)) eqn:Hq; simpl.
      * destruct (truthy (member (query req) (js "token"))) eqn:Hqt;
          [now apply truthy_not_null | reflexivity].
      * reflexivity.
    + destruct (truthy (query req)) eqn:Hq; simpl.
      * destruct (truthy (member (query req) (js "token"))) eqn:Hqt;
          [now apply truthy_not_null | reflexivity].
      * reflexivity.
  - intros E B Q b q HE HB HQ.
    destruct E as [|e E']; [congruence |].
    destruct B as [|b0 B']; [congruence |].
    destruct Q as [|q0 Q']; [congruence |].
    repeat split; reflexivity.
  - reflexivity.
Qed.

(** The precedence at concrete credentials. *)
Lemma getAuthToken_precedence_witness :
  getAuthToken {| GITHUB_TOKEN := Some (js "E") |}
    (request_with (Some (js "B")) (Some (js "Q"))) = VStr (js "E") /\
  getAuthToken {| GITHUB_TOKEN := None |}
    (request_with (Some (js "B")) (Some (js "Q"))) = VStr (js "B").
Proof.
  destruct getAuthToken_precedence as [_ [H _]].
  destruct (H (js "E") (js "B") (js "Q") (Some (js "B")) (Some (js "Q")))
    as [H1 [H2 _]]; try (vm_compute; discriminate).
  split; [exact H1 | exact H2].
Defined.

(** * The handlers against any remote store *)

Section GatewayFacts.
Context {R : Type}.
Variable serve : R -> fetch_request -> fetch_outcome * R.
Variable buffer_from_object : value -> result (list Z).

Local Abbreviation run := (serve_request serve buffer_from_object).

(** C5. A request from which no credential resolves is answered with
    the route's authentication error and no call to the remote store is
    issued. (A route that destructures [req.body] answers a request
    that has no body at all with the error envelope of that failure,
    again without any call.) *)
Theorem no_credential_no_remote_call
    (ep : endpoint) (env : process_env) (now : Z) (req : request) (s : R) :
  getAuthToken env req = VNull ->
  fst (run ep env now req s) = Ok tt /\
  issued (snd (run ep env now req s)) = [] /\
  remote (snd (run ep env now req s)) = s /\
  (res (snd (run ep env now req s)) = unauthenticated ep \/
   (nullish (body req) = true /\
    exists msg, res (snd (run ep env now req s)) = json_response (error_envelope msg))).
Proof.
  intros Hnone.
  destruct ep; unfold serve_request, handler, post_auth, post_test_token, get_og_image,
    post_upload_image, post_commit, post_create_pr, post_merge_pr,
    try_upload_image, try_commit, try_create_pr, try_merge_pr, get_files, get_file,
    get_prs, try_catch, bind, destructure; rewrite Hnone; cbn;
    try (repeat split; now left);
    destruct (nullish (body req)) eqn:Hbody; cbn;
    (repeat split; try reflexivity; (now left) || (right; split; [reflexivity | eauto])).
Qed.

Lemma getAuthToken_falsy (env : process_env) (req : request) :
  truthy (getAuthToken env req) = false <-> getAuthToken env req = VNull.
Proof.
  unfold getAuthToken.
  destruct (truthy (env_value (GITHUB_TOKEN env))) eqn:He;
    [rewrite He; split; [discriminate | intros E; rewrite E in He; discriminate] |].
  destruct (truthy (body req) && truthy (member (body req) (js "token"))) eqn:Hb.
  { apply andb_true_iff in Hb as [_ Hb]. rewrite Hb.
    split; [discriminate | intros E; rewrite E in Hb; discriminate]. }
  destruct (truthy (query req) && truthy (member (query req) (js "token"))) eqn:Hq.
  { apply andb_true_iff in Hq as [_ Hq]. rewrite Hq.
    split; [discriminate | intros E; rewrite E in Hq; discriminate]. }
  split; reflexivity.
Qed.

Lemma string_credential_truthy (env : process_env) (req : request) (t : jsstring) :
  getAuthToken env req = VStr t -> truthy (getAuthToken env req) = true.
Proof.
  intros Ht. destruct (truthy (getAuthToken env req)) eqn:E; [reflexivity |].
  apply getAuthToken_falsy in E. rewrite Ht in E. discriminate E.
Qed.

Lemma ToString_string (s : jsstring) : ToString (VStr s) = Ok s.
Proof. reflexivity. Qed.

(** C8, as the code has it. Whenever the image proxy serves image bytes,
    whatever they are, the response has status 200 and carries
    [Cache-Control: no-cache, no-store, must-revalidate] with the other
    three headers of lines 96-99; its text answers (401, 404, 500) carry
    no header of the handler's. *)
Theorem og_image_no_cache_when_served
    (env : process_env) (now : Z) (req : request) (s : R) :
  (forall bytes,
     sent (res (snd (run OgImage env now req s))) = Binary bytes ->
     statusCode (res (snd (run OgImage env now req s))) = 200 /\
     headers (res (snd (run OgImage env now req s))) = no_cache_headers /\
     In (js "Cache-Control", js "no-cache, no-store, must-revalidate")
        (headers (res (snd (run OgImage env now req s))))) /\
  (forall msg,
     sent (res (snd (run OgImage env now req s))) = Text msg ->
     headers (res (snd (run OgImage env now req s))) = [] /\
     (statusCode (res (snd (run OgImage env now req s))) = 401 \/
      statusCode (res (snd (run OgImage env now req s))) = 404 \/
      statusCode (res (snd (run OgImage env now req s))) = 500)).
Proof.
  unfold serve_request, handler, get_og_image. unfold_monad. cbn.
  repeat run_step;
    (split; [intros bytes Hsent | intros msg Hsent]); try discriminate Hsent;
    cbn; auto 6.
Qed.



Ltac solve_in_calls :=
  let Hin := fresh "Hin" in
  intros ? ? Hin; cbn [In] in Hin;
  repeat (destruct Hin as [Hin|Hin];
          [try discriminate Hin; injection Hin as <- <-; reflexivity |]);
  contradiction.

(** C6, as the code has it. Every mutating endpoint answers with status
    200 and one envelope, whatever happens: nothing thrown escapes the
    handler, whatever its [try] block throws is reported as
    [{error: message}], and so is a call that fails in transit. A write
    or merge that the store refuses is reported by /commit and /merge-pr
    with the store's raw body as the message, and by /upload-image with
    that body after the words [GitHub upload failed: ]. *)
Theorem mutating_endpoints_envelope
    (ep : endpoint) (env : process_env) (now : Z) (req : request) (s : R) :
  mutating ep = true ->
  fst (run ep env now req s) = Ok tt /\
  statusCode (res (snd (run ep env now req s))) = 200 /\
  (exists v, sent (res (snd (run ep env now req s))) = Json v /\ enveloped v) /\
  (forall e w',
     try_block serve buffer_from_object ep env now req
       {| remote := s; calls := []; res := fresh_response |} = (Throw e, w') ->
     sent (res (snd (run ep env now req s))) = Json (error_envelope (message e))) /\
  (forall rq e,
     In (rq, Rejected e) (calls (snd (run ep env now req s))) ->
     sent (res (snd (run ep env now req s))) = Json (error_envelope (message e))) /\
  (forall rq r,
     ep <> CreatePr ->
     last (calls (snd (run ep env now req s))) = Some (rq, Responded r) ->
     rq_method rq = PUT -> ok r = false ->
     sent (res (snd (run ep env now req s)))
     = Json (error_envelope (refusal_message ep (text r)))).
Proof.
  intros Hm.
  assert (Hthrown : forall e w',
    try_block serve buffer_from_object ep env now req
      {| remote := s; calls := []; res := fresh_response |} = (Throw e, w') ->
    sent (res (snd (run ep env now req s))) = Json (error_envelope (message e))).
  { intros e w' Hthrow.
    destruct ep; try discriminate Hm; cbn [try_block] in Hthrow;
      unfold serve_request, handler, post_upload_image, post_commit, post_create_pr,
        post_merge_pr, try_catch;
      rewrite Hthrow; reflexivity. }
  assert (Hrun :
    fst (run ep env now req s) = Ok tt /\
    statusCode (res (snd (run ep env now req s))) = 200 /\
    (exists v, sent (res (snd (run ep env now req s))) = Json v /\ enveloped v) /\
    (forall rq e,
       In (rq, Rejected e) (calls (snd (run ep env now req s))) ->
       sent (res (snd (run ep env now req s))) = Json (error_envelope (message e))) /\
    (forall rq r,
       ep <> CreatePr ->
       last (calls (snd (run ep env now req s))) = Some (rq, Responded r) ->
       rq_method rq = PUT -> ok r = false ->
       sent (res (snd (run ep env now req s)))
       = Json (error_envelope (refusal_message ep (text r))))).
  { unfold serve_request.
    apply (wp_of_run _ _ (fun r w =>
      r = Ok tt /\ statusCode (res w) = 200 /\
      (exists v, sent (res w) = Json v /\ enveloped v) /\
      (forall rq e, In (rq, Rejected e) (calls w) ->
         sent (res w) = Json (error_envelope (message e))) /\
      (forall rq r, ep <> CreatePr ->
         last (calls w) = Some (rq, Responded r) ->
         rq_method rq = PUT -> ok r = false ->
         sent (res w) = Json (error_envelope (refusal_message ep (text r)))))).
    unfold enveloped.
    destruct ep; try discriminate Hm; clear Hm Hthrown;
      unfold handler, post_upload_image, post_commit, post_create_pr, post_merge_pr,
        try_upload_image, try_commit, try_create_pr, try_merge_pr;
      run_handler.
    all: split; [reflexivity |]; split; [reflexivity |].
    all: split; [eexists; split;
                   [reflexivity
                   | (left; eexists; reflexivity) || (right; do 2 eexists; reflexivity)] |].
    all: split; [solve_in_calls |].
    all: intros ? ? Hep Hlast Hput Hrefused; try congruence.
    all: cbn in Hlast; try discriminate Hlast.
    all: injection Hlast as <- <-; try discriminate Hput; try congruence.
    all: try (rewrite negb_true_iff in *; reflexivity).
    all: try (rewrite negb_false_iff in *; congruence). }
  destruct Hrun as (H1 & H2 & H3 & H4 & H5).
  repeat split; assumption.
Qed.

Lemma encode_index_html :
  encodeURIComponent (VStr (js "index.html")) = Ok (js "index.html").
Proof. vm_compute. reflexivity. Qed.

Lemma default_path (filePath : value) (p : jsstring) :
  truthy filePath = false ->
  encodeURIComponent (js_or filePath (VStr (js "index.html"))) = Ok p ->
  p = js "index.html".
Proof.
  unfold js_or. intros -> H. rewrite encode_index_html in H. now injection H.
Qed.

Lemma same_path (v : value) (p q : jsstring) :
  encodeURIComponent v = Ok p -> encodeURIComponent v = Ok q -> p = q.
Proof. intros Hp Hq. rewrite Hp in Hq. now injection Hq. Qed.

Lemma not_a_file_call (route : string) (p : jsstring) :
  strip_prefix (js "/contents/") (js route) = None ->
  repo_api ++ js route <> contents_url p.
Proof.
  unfold contents_url. intros Hroute Heq. apply app_inv_head in Heq.
  rewrite Heq in Hroute. clear Heq.
  vm_compute in Hroute. discriminate Hroute.
Qed.

(** C10. When [filePath] is omitted (or is otherwise falsy), the path
    of the invocation is [index.html]: /commit calls nothing but
    [contents/index.html], and every call of /create-pr that addresses a
    file addresses [contents/index.html]; and whatever [filePath] is,
    all the file calls of one invocation of either endpoint address one
    and the same path. The calls are made: a /commit that names no [sha]
    and whose read is answered issues the read and then the write, both
    at the path, and a /create-pr whose first three calls are answered
    issues its read and then its write, both at the path. *)
Theorem default_file_path
    (ep : endpoint) (env : process_env) (now : Z) (req : request) (s : R) :
  ep = Commit \/ ep = CreatePr ->
  (truthy (member (body req) (js "filePath")) = false ->
   forall rq, In rq (issued (snd (run ep env now req s))) ->
     rq_url rq = contents_url (js "index.html") \/
     (ep = CreatePr /\ forall p, rq_url rq <> contents_url p)) /\
  (forall rq1 rq2 p1 p2,
     In rq1 (issued (snd (run ep env now req s))) ->
     In rq2 (issued (snd (run ep env now req s))) ->
     rq_url rq1 = contents_url p1 -> rq_url rq2 = contents_url p2 ->
     rq_url rq1 = rq_url rq2) /\
  (truthy (member (body req) (js "filePath")) = false ->
   encodeURIComponent (js_or (member (body req) (js "filePath")) (VStr (js "index.html")))
   = Ok (js "index.html")) /\
  (forall t c p fp r1 s1 sha,
     ep = Commit ->
     nullish (body req) = false ->
     getAuthToken env req = VStr t ->
     member (body req) (js "sha") = VUndefined ->
     member (body req) (js "content") = VStr c ->
     encodeURIComponent (js_or (member (body req) (js "filePath")) (VStr (js "index.html")))
       = Ok p ->
     ToString (member (body req) (js "filePath")) = Ok fp ->
     serve s (commit_read t p) = (Responded r1, s1) ->
     resolved_version r1 = Some sha ->
     calls (snd (run ep env now req s))
     = [(commit_read t p, Responded r1);
        (commit_write t p fp c sha, fst (serve s1 (commit_write t p fp c sha)))]) /\
  (forall t c p r1 r2 r3 s1 s2 s3 mainBranch currentFile,
     ep = CreatePr ->
     nullish (body req) = false ->
     getAuthToken env req = VStr t ->
     member (body req) (js "content") = VStr c ->
     encodeURIComponent (js_or (member (body req) (js "filePath")) (VStr (js "index.html")))
       = Ok p ->
     serve s (tip_read t) = (Responded r1, s1) ->
     json r1 = Some mainBranch -> nullish mainBranch = false ->
     nullish (member mainBranch (js "object")) = false ->
     serve s1 (branch_create t now (member (member mainBranch (js "object")) (js "sha")))
       = (Responded r2, s2) ->
     serve s2 (commit_read t p) = (Responded r3, s3) ->
     current_file r3 = Some currentFile -> nullish currentFile = false ->
     firstn 4 (calls (snd (run ep env now req s)))
     = [(tip_read t, Responded r1);
        (branch_create t now (member (member mainBranch (js "object")) (js "sha")),
         Responded r2);
        (commit_read t p, Responded r3);
        (branch_write t p c (member currentFile (js "sha")) now,
         fst (serve s3 (branch_write t p c (member currentFile (js "sha")) now)))]).
Proof.
  intros Hep.
  assert (Hpaths :
    (truthy (member (body req) (js "filePath")) = false ->
     forall rq, In rq (issued (snd (run ep env now req s))) ->
       rq_url rq = contents_url (js "index.html") \/
       (ep = CreatePr /\ forall p, rq_url rq <> contents_url p)) /\
    (forall rq1 rq2 p1 p2,
       In rq1 (issued (snd (run ep env now req s))) ->
       In rq2 (issued (snd (run ep env now req s))) ->
       rq_url rq1 = contents_url p1 -> rq_url rq2 = contents_url p2 ->
       rq_url rq1 = rq_url rq2)).
  { unfold serve_request.
    apply (wp_of_run _ _ (fun _ w =>
      (truthy (member (body req) (js "filePath")) = false ->
       forall rq, In rq (issued w) ->
         rq_url rq = contents_url (js "index.html") \/
         (ep = CreatePr /\ forall p, rq_url rq <> contents_url p)) /\
      (forall rq1 rq2 p1 p2,
         In rq1 (issued w) -> In rq2 (issued w) ->
         rq_url rq1 = contents_url p1 -> rq_url rq2 = contents_url p2 ->
         rq_url rq1 = rq_url rq2))).
    destruct Hep as [-> | ->];
      unfold handler, post_commit, post_create_pr, try_commit, try_create_pr; run_handler.
    all: unfold issued; cbn [calls List.map fst In].
    all: repeat match goal with
                | H1 : encodeURIComponent ?v = Ok ?p, H2 : encodeURIComponent ?v = Ok ?q |- _ =>
                    pose proof (same_path _ _ _ H1 H2); subst q; clear H2
                end.
    all: split;
      [ intros Hfalsy rq Hin;
        repeat match goal with
               | H : encodeURIComponent (js_or _ _) = Ok ?p |- _ =>
                   apply (default_path _ _ Hfalsy) in H; subst p
               end;
        repeat (destruct Hin as [Hin|Hin]; [subst rq; cbn [rq_url] |]); try contradiction;
        first [ left; reflexivity
              | right; split; [reflexivity |];
                intros p Hp; first [ exact (not_a_file_call "/git/ref/heads/main" _ eq_refl Hp)
                                   | exact (not_a_file_call "/git/refs" _ eq_refl Hp)
                                   | exact (not_a_file_call "/pulls" _ eq_refl Hp) ] ]
      | intros rq1 rq2 p1 p2 Hin1 Hin2 Hu1 Hu2;
        repeat (destruct Hin1 as [Hin1|Hin1]; [subst rq1; cbn [rq_url] in * |]);
        try contradiction;
        repeat (destruct Hin2 as [Hin2|Hin2]; [subst rq2; cbn [rq_url] in * |]);
        try contradiction;
        try reflexivity;
        exfalso;
        first [ exact (not_a_file_call "/git/ref/heads/main" _ eq_refl Hu1)
              | exact (not_a_file_call "/git/refs" _ eq_refl Hu1)
              | exact (not_a_file_call "/pulls" _ eq_refl Hu1)
              | exact (not_a_file_call "/git/ref/heads/main" _ eq_refl Hu2)
              | exact (not_a_file_call "/git/refs" _ eq_refl Hu2)
              | exact (not_a_file_call "/pulls" _ eq_refl Hu2) ] ]. }
  destruct Hpaths as [Hdefault Hsame].
  split; [exact Hdefault |]. split; [exact Hsame |].
  split; [| split].
  - intros Hfalsy. unfold js_or. rewrite Hfalsy. exact encode_index_html.
  - intros t c p fp r1 s1 sha -> Hbody Ht Hsha Hc Hp Hfp Hread Hres.
    unfold serve_request, handler, post_commit, try_commit, commit_read, commit_write in *.
    unfold_monad. cbn.
    rewrite Hbody. cbn.
    rewrite (string_credential_truthy _ _ _ Ht), Ht, Hsha, Hc. cbn.
    rewrite Hp, ToString_string, Hfp. cbn.
    rewrite Hread. cbn.
    unfold resolved_version in Hres.
    destruct (ok r1); cbn.
    + destruct (json r1) as [f|]; [| discriminate Hres]. cbn.
      destruct (nullish f); [discriminate Hres |]. cbn.
      injection Hres as <-.
      destruct (serve s1 _) as [[r2|e2] s2]; cbn; [destruct (ok r2) |]; reflexivity.
    + injection Hres as <-.
      destruct (serve s1 _) as [[r2|e2] s2]; cbn; [destruct (ok r2) |]; reflexivity.
  - intros t c p r1 r2 r3 s1 s2 s3 mainBranch currentFile ->
      Hbody Ht Hc Hp H1 Hj1 Hn1 Hn1' H2 H3 Hcur Hncur.
    unfold serve_request, handler, post_create_pr, try_create_pr.
    unfold tip_read, branch_create, commit_read, branch_write in *.
    unfold_monad. cbn. cbn in H2.
    rewrite Hbody. cbn.
    rewrite (string_credential_truthy _ _ _ Ht), Ht, Hc. cbn.
    rewrite ToString_string. cbn.
    rewrite H1. cbn. rewrite Hj1. cbn. rewrite Hn1. cbn. rewrite Hn1'. cbn.
    rewrite H2. cbn. rewrite Hp. cbn. rewrite H3. cbn.
    unfold current_file in Hcur.
    destruct (ok r3); cbn.
    + rewrite Hcur. cbn. rewrite Hncur. cbn.
      destruct (serve s3 _) as [[r4|e4] s4]; cbn; [| reflexivity].
      destruct (serve s4 _) as [[r5|e5] s5]; cbn; [| reflexivity].
      destruct (json r5) as [pr|]; cbn; [| reflexivity].
      destruct (nullish pr); cbn; [reflexivity |].
      destruct (ToString (member pr (js "html_url"))); reflexivity.
    + injection Hcur as <-. cbn.
      destruct (serve s3 _) as [[r4|e4] s4]; cbn; [| reflexivity].
      destruct (serve s4 _) as [[r5|e5] s5]; cbn; [| reflexivity].
      destruct (json r5) as [pr|]; cbn; [| reflexivity].
      destruct (nullish pr); cbn; [reflexivity |].
      destruct (ToString (member pr (js "html_url"))); reflexivity.
Qed.


(** The run of /commit when both of its calls are answered and the
    write is accepted. *)
Lemma commit_run
    (env : process_env) (now : Z) (req : request) (s : R) (t c p fp : jsstring)
    (r1 r2 : fetch_response) (s1 s2 : R) (sha : value) :
  nullish (body req) = false ->
  getAuthToken env req = VStr t ->
  member (body req) (js "sha") = VUndefined ->
  member (body req) (js "content") = VStr c ->
  encodeURIComponent (js_or (member (body req) (js "filePath")) (VStr (js "index.html")))
    = Ok p ->
  ToString (member (body req) (js "filePath")) = Ok fp ->
  serve s (commit_read t p) = (Responded r1, s1) ->
  resolved_version r1 = Some sha ->
  serve s1 (commit_write t p fp c sha) = (Responded r2, s2) ->
  ok r2 = true ->
  run Commit env now req s
  = (Ok tt,
     {| remote := s2;
        calls := [(commit_read t p, Responded r1);
                  (commit_write t p fp c sha, Responded r2)];
        res := json_response (success_envelope (js "Committed successfully!")) |}).
Proof.
  intros Hbody Ht Hsha Hc Hp Hfp Hread Hres Hwrite Hok.
  unfold serve_request, handler, post_commit, try_commit.
  unfold commit_read, commit_write in *.
  unfold_monad. cbn. cbn in Hwrite.
  rewrite Hbody. cbn.
  rewrite (string_credential_truthy _ _ _ Ht), Ht, Hsha, Hc. cbn.
  rewrite Hp, ToString_string, Hfp. cbn.
  rewrite Hread. cbn.
  unfold resolved_version in Hres.
  destruct (ok r1); cbn.
  - destruct (json r1) as [f|]; [| discriminate Hres]. cbn.
    destruct (nullish f); [discriminate Hres |]. cbn.
    injection Hres as <-. rewrite Hwrite. cbn. rewrite Hok. reflexivity.
  - injection Hres as <-. rewrite Hwrite. cbn. rewrite Hok. reflexivity.
Qed.

(** The run of GET /file/* when the store has the file. *)
Lemma get_file_run
    (env : process_env) (now : Z) (req : request) (s : R) (t p c64 : jsstring)
    (r : fetch_response) (s' : R) (data : value) :
  getAuthToken env req = VStr t ->
  encodeURIComponent_string (params0 req) = Ok p ->
  serve s (file_read t p) = (Responded r, s') ->
  ok r = true -> json r = Some data -> member data (js "content") = VStr c64 ->
  run FileAt env now req s
  = (Ok tt,
     {| remote := s';
        calls := [(file_read t p, Responded r)];
        res := json_response
                 (json_image (VObj [(js "content", VStr (utf8_decode (base64_decode c64)));
                                    (js "path", VStr (params0 req));
                                    (js "sha", member data (js "sha"))])) |}).
Proof.
  intros Ht Hp Hread Hok Hjson Hc.
  unfold serve_request, handler, get_file.
  unfold file_read, commit_read in *.
  unfold_monad. cbn.
  rewrite (string_credential_truthy _ _ _ Ht), Ht. cbn.
  rewrite Hp, ToString_string. cbn.
  rewrite Hread. cbn. rewrite Hok, Hjson. cbn.
  assert (Hn : nullish data = false).
  { destruct data; try reflexivity; discriminate Hc. }
  rewrite Hn. cbn. rewrite Hc. reflexivity.
Qed.

(** The run of /create-pr when each of its five calls is answered, with
    whatever status: no answer is looked at for success. *)
Lemma create_pr_run
    (env : process_env) (now : Z) (req : request) (s : R) (t c p u : jsstring)
    (r1 r2 r3 r4 r5 : fetch_response) (s1 s2 s3 s4 s5 : R)
    (mainBranch currentFile pr : value) :
  nullish (body req) = false ->
  getAuthToken env req = VStr t ->
  member (body req) (js "content") = VStr c ->
  encodeURIComponent (js_or (member (body req) (js "filePath")) (VStr (js "index.html")))
    = Ok p ->
  serve s (tip_read t) = (Responded r1, s1) ->
  json r1 = Some mainBranch -> nullish mainBranch = false ->
  nullish (member mainBranch (js "object")) = false ->
  serve s1 (branch_create t now (member (member mainBranch (js "object")) (js "sha")))
    = (Responded r2, s2) ->
  serve s2 (commit_read t p) = (Responded r3, s3) ->
  current_file r3 = Some currentFile -> nullish currentFile = false ->
  serve s3 (branch_write t p c (member currentFile (js "sha")) now) = (Responded r4, s4) ->
  serve s4 (pull_open t (member (body req) (js "title")) (member (body req) (js "body")) now)
    = (Responded r5, s5) ->
  json r5 = Some pr -> nullish pr = false ->
  ToString (member pr (js "html_url")) = Ok u ->
  run CreatePr env now req s
  = (Ok tt,
     {| remote := s5;
        calls := [(tip_read t, Responded r1);
                  (branch_create t now (member (member mainBranch (js "object")) (js "sha")),
                   Responded r2);
                  (commit_read t p, Responded r3);
                  (branch_write t p c (member currentFile (js "sha")) now, Responded r4);
                  (pull_open t (member (body req) (js "title"))
                     (member (body req) (js "body")) now, Responded r5)];
        res := json_response (success_envelope (js "PR created: " ++ u)) |}).
Proof.
  intros Hbody Ht Hc Hp H1 Hj1 Hn1 Hn1' H2 H3 Hcur Hncur H4 H5 Hj5 Hn5 Hu.
  unfold serve_request, handler, post_create_pr, try_create_pr.
  unfold tip_read, branch_create, commit_read, branch_write, pull_open in *.
  unfold_monad. cbn. cbn in H2, H4, H5.
  rewrite Hbody. cbn.
  rewrite (string_credential_truthy _ _ _ Ht), Ht, Hc. cbn.
  rewrite ToString_string. cbn.
  rewrite H1. cbn. rewrite Hj1. cbn. rewrite Hn1. cbn. rewrite Hn1'. cbn.
  rewrite H2. cbn. rewrite Hp. cbn. rewrite H3. cbn.
  unfold current_file in Hcur.
  destruct (ok r3); cbn.
  - rewrite Hcur. cbn. rewrite Hncur. cbn. rewrite H4. cbn. rewrite H5. cbn.
    rewrite Hj5. cbn. rewrite Hn5. cbn. rewrite Hu. reflexivity.
  - injection Hcur as <-. cbn. cbn in H4. rewrite H4. cbn. rewrite H5. cbn.
    rewrite Hj5. cbn. rewrite Hn5. cbn. rewrite Hu. reflexivity.
Qed.

Lemma unconstrained_write (t p fp c : jsstring) :
  unconstrained (commit_write t p fp c VUndefined).
Proof.
  unfold unconstrained, commit_write. cbn [rq_body json_image].
  eexists. split; [reflexivity |]. vm_compute. reflexivity.
Qed.

(** C1. A /commit that names no [sha] first reads the target path. If
    the store has no such file (the read is not ok), the write that
    follows names no version, and when the store accepts it the answer is
    [{success: "Committed successfully!"}]; if the store has the file,
    the write names the version the read returned. *)
Theorem commit_resolves_version
    (env : process_env) (now : Z) (req : request) (s : R) (t c p fp : jsstring) :
  nullish (body req) = false ->
  getAuthToken env req = VStr t ->
  member (body req) (js "sha") = VUndefined ->
  member (body req) (js "content") = VStr c ->
  encodeURIComponent (js_or (member (body req) (js "filePath")) (VStr (js "index.html")))
    = Ok p ->
  ToString (member (body req) (js "filePath")) = Ok fp ->
  (exists o rest, calls (snd (run Commit env now req s)) = (commit_read t p, o) :: rest) /\
  (forall r1 s1 r2 s2,
     serve s (commit_read t p) = (Responded r1, s1) -> ok r1 = false ->
     serve s1 (commit_write t p fp c VUndefined) = (Responded r2, s2) -> ok r2 = true ->
     calls (snd (run Commit env now req s))
     = [(commit_read t p, Responded r1);
        (commit_write t p fp c VUndefined, Responded r2)] /\
     unconstrained (commit_write t p fp c VUndefined) /\
     res (snd (run Commit env now req s))
     = json_response (success_envelope (js "Committed successfully!")) /\
     remote (snd (run Commit env now req s)) = s2) /\
  (forall r1 s1 f,
     serve s (commit_read t p) = (Responded r1, s1) -> ok r1 = true ->
     json r1 = Some f -> nullish f = false ->
     exists o,
       calls (snd (run Commit env now req s))
       = [(commit_read t p, Responded r1);
          (commit_write t p fp c (member f (js "sha")), o)]).
Proof.
  intros Hbody Ht Hsha Hc Hp Hfp.
  unfold serve_request, handler, post_commit, try_commit, commit_read, commit_write.
  unfold_monad. cbn.
  rewrite Hbody. cbn.
  rewrite (string_credential_truthy _ _ _ Ht), Ht, Hsha, Hc. cbn.
  rewrite Hp, ToString_string, Hfp. cbn.
  split; [| split].
  - destruct (serve s _) as [[r1|e1] s1] eqn:Hread; cbn.
    + eexists. destruct (ok r1) eqn:Hok; cbn.
      * destruct (json r1) as [f|]; cbn; [| eexists; reflexivity].
        destruct (nullish f); cbn; [eexists; reflexivity |].
        destruct (serve s1 _) as [[r2|e2] s2]; cbn; [| eexists; reflexivity].
        destruct (ok r2); cbn; eexists; reflexivity.
      * destruct (serve s1 _) as [[r2|e2] s2]; cbn; [| eexists; reflexivity].
        destruct (ok r2); cbn; eexists; reflexivity.
    + do 2 eexists. reflexivity.
  - intros r1 s1 r2 s2 Hread Hok1 Hwrite Hok2.
    rewrite Hread. cbn. rewrite Hok1. cbn.
    cbn in Hwrite. rewrite Hwrite. cbn. rewrite Hok2. cbn.
    repeat split. apply unconstrained_write.
  - intros r1 s1 f Hread Hok1 Hjson Hf.
    rewrite Hread. cbn. rewrite Hok1, Hjson. cbn. rewrite Hf. cbn.
    destruct (serve s1 _) as [[r2|e2] s2]; cbn; [| eexists; reflexivity].
    destruct (ok r2); cbn; eexists; reflexivity.
Qed.

End GatewayFacts.

(** * The handlers against the reference store *)

Arguments store_serve : simpl never.
Arguments store_read : simpl never.
Arguments store_write : simpl never.

(** Decides the comparison of two literal keys. *)
Ltac eval_keys :=
  repeat match goal with
         | |- context [str_eqb (js ?a) (js ?b)] =>
             let r := eval vm_compute in (str_eqb (js a) (js b)) in
             change (str_eqb (js a) (js b)) with r
         end.

Lemma strip_prefix_app (a b : jsstring) : strip_prefix a (a ++ b) = Some b.
Proof.
  induction a as [|x a IH]; [reflexivity |].
  cbn. now rewrite Z.eqb_refl.
Qed.

Lemma authorized_call (s : store) (t : jsstring) (rq : fetch_request) :
  In t (credentials s) ->
  (rq_headers rq = read_headers t \/ rq_headers rq = write_headers t) ->
  authorized s rq = true.
Proof.
  intros Hin Hh. unfold authorized, header.
  assert (Hfind : List.find (fun h => str_eqb (fst h) (js "Authorization")) (rq_headers rq)
                  = Some (authorization t)).
  { destruct Hh as [-> | ->]; unfold read_headers, write_headers, authorization;
      cbn [List.find fst]; eval_keys; reflexivity. }
  rewrite Hfind. cbn [snd authorization].
  apply existsb_exists. exists t. split; [exact Hin | apply str_eqb_refl].
Qed.

Lemma store_serve_contents (s : store) (t p : jsstring) (rq : fetch_request) :
  In t (credentials s) ->
  (rq_headers rq = read_headers t \/ rq_headers rq = write_headers t) ->
  rq_url rq = contents_url p ->
  store_serve s rq =
    match rq_method rq, rq_body rq with
    | GET, _ => store_read s p
    | PUT, Some body => store_write s p body
    | _, _ => (refusal 404 "Not Found", s)
    end.
Proof.
  intros Hin Hh Hu. unfold store_serve.
  rewrite (authorized_call s t rq Hin Hh). cbn [negb].
  rewrite Hu. unfold contents_url.
  rewrite strip_prefix_app, strip_prefix_app.
  destruct (rq_method rq), (rq_body rq); reflexivity.
Qed.

Lemma store_read_at (s : store) (b : branch) (files : gmap (list Z) remote_file)
    (p : jsstring) :
  branches s !! default_branch = Some b -> commits s !! tip b = Some files ->
  store_read s p =
    match files !! path_key p with
    | Some f => (answer 200 (file_json f), s)
    | None => (refusal 404 "Not Found", s)
    end.
Proof. intros Hb Hf. unfold store_read. now rewrite Hb, Hf. Qed.

Lemma resolved_version_of_read (o : option remote_file) (r : fetch_response) (s s' : store) :
  match o with
  | Some f => (answer 200 (file_json f), s)
  | None => (refusal 404 "Not Found", s)
  end = (Responded r, s') ->
  s' = s /\
  resolved_version r
  = Some (match o with Some f => VStr (file_version f) | None => VUndefined end).
Proof.
  destruct o as [f|]; intros H; injection H as <- <-; split; reflexivity.
Qed.

(** A write on the default branch that names the version the store has
    is accepted. *)
Lemma store_write_main (s : store) (b : branch) (files : gmap (list Z) remote_file)
    (p m text : jsstring) (sha : value) :
  branches s !! default_branch = Some b -> commits s !! tip b = Some files ->
  sha = match files !! path_key p with
        | Some f => VStr (file_version f)
        | None => VUndefined
        end ->
  exists r,
    store_write s p (json_image (VObj [(js "message", VStr m);
                                       (js "content", VStr text);
                                       (js "sha", sha)]))
    = (Responded r, store_after_write s default_branch b files (path_key p)
                      (base64_decode text))
    /\ ok r = true.
Proof.
  intros Hb Hf ->. unfold store_write, named_version.
  destruct (files !! path_key p) as [f|] eqn:Hfile;
    cbn [json_image member own_prop]; eval_keys; cbv iota;
    rewrite Hb, Hf, Hfile; cbn [same_version]; rewrite ?str_eqb_refl;
    eexists; (split; [reflexivity | reflexivity]).
Qed.

Lemma string_token (t : jsstring) (req : request) :
  t <> [] -> getAuthToken {| GITHUB_TOKEN := Some t |} req = VStr t.
Proof. destruct t; [congruence | reflexivity]. Qed.

Lemma escaped_path (path p : jsstring) :
  path <> [] -> encodeURIComponent_string path = Ok p ->
  encodeURIComponent (js_or (VStr path) (VStr (js "index.html"))) = Ok p.
Proof. destruct path; [congruence | intros _ H; exact H]. Qed.

Section OnTheStore.
Variable buffer_from_object : value -> result (list Z).

Local Abbreviation run := (serve_request store_serve buffer_from_object).

(** /commit of a text on a store that accepts the credential and has its
    default branch: the write is made and reported. *)
Lemma commit_on_store (s : store) (b : branch) (files : gmap (list Z) remote_file)
    (t path content p : jsstring) (now : Z) :
  t <> [] -> path <> [] ->
  In t (credentials s) ->
  branches s !! default_branch = Some b -> commits s !! tip b = Some files ->
  encodeURIComponent_string path = Ok p ->
  res (snd (run Commit {| GITHUB_TOKEN := Some t |} now (text_request path content) s))
  = json_response (success_envelope (js "Committed successfully!")) /\
  remote (snd (run Commit {| GITHUB_TOKEN := Some t |} now (text_request path content) s))
  = store_after_write s default_branch b files (path_key p)
      (base64_decode (base64_encode (utf8_encode content))).
Proof.
  intros Ht Hpath Hin Hb Hf Hp.
  destruct (store_serve s (commit_read t p)) as [o1 s1] eqn:Hread.
  pose proof Hread as Hread'.
  rewrite (store_serve_contents s t p) in Hread'
    by (try exact Hin; try (left; reflexivity); reflexivity).
  cbn [commit_read rq_method rq_body] in Hread'.
  rewrite (store_read_at s b files p Hb Hf) in Hread'.
  assert (Ho : exists r1, o1 = Responded r1).
  { destruct (files !! path_key p); injection Hread' as <- _; eexists; reflexivity. }
  destruct Ho as [r1 ->].
  destruct (resolved_version_of_read _ _ _ _ Hread') as [-> Hres].
  destruct (store_write_main s b files p (js "Update " ++ path ++ js " from web editor")
              (base64_encode (utf8_encode content)) _ Hb Hf eq_refl) as [r2 [Hwrite Hok]].
  erewrite commit_run; [ split; reflexivity | .. ]; try eassumption; try reflexivity.
  - now apply string_token.
  - now apply escaped_path.
  - rewrite (store_serve_contents s t p)
      by (try exact Hin; try (right; reflexivity); reflexivity).
    exact Hwrite.
Qed.


(** GET /file/* of a file the store has: the bytes read as UTF-8. *)
Lemma file_on_store (s : store) (b : branch) (files : gmap (list Z) remote_file)
    (f : remote_file) (t path content p : jsstring) (now : Z) :
  t <> [] ->
  In t (credentials s) ->
  branches s !! default_branch = Some b -> commits s !! tip b = Some files ->
  files !! path_key p = Some f ->
  encodeURIComponent_string path = Ok p ->
  sent (res (snd (run FileAt {| GITHUB_TOKEN := Some t |} now (text_request path content) s)))
  = Json (VObj [(js "content",
                 VStr (utf8_decode (base64_decode (base64_encode (file_bytes f)))));
                (js "path", VStr path);
                (js "sha", VStr (file_version f))]).
Proof.
  intros Ht Hin Hb Hf Hfile Hp.
  assert (Hread : store_serve s (file_read t p) = (answer 200 (file_json f), s)).
  { rewrite (store_serve_contents s t p)
      by (try exact Hin; try (left; reflexivity); reflexivity).
    cbn [file_read commit_read rq_method rq_body].
    rewrite (store_read_at s b files p Hb Hf), Hfile. reflexivity. }
  erewrite get_file_run; try exact Hread; try reflexivity.
  - cbn [snd res sent json_response params0 text_request json_image]. reflexivity.
  - now apply string_token.
  - exact Hp.
Qed.

End OnTheStore.

Lemma store_after_write_has (s : store) (name : jsstring) (b : branch)
    (files : gmap (list Z) remote_file) (key bytes : list Z) :
  let s' := store_after_write s name b files key bytes in
  credentials s' = credentials s /\
  branches s' !! name = Some {| tip := List.length (commits s);
                                base_commit := base_commit b |} /\
  commits s' !! List.length (commits s)
  = Some (<[key := {| file_bytes := bytes;
                      file_version := commit_token (List.length (commits s)) |}]> files).
Proof.
  cbv zeta. unfold store_after_write. cbn [credentials branches commits].
  split; [reflexivity |]. split.
  - apply lookup_insert_eq.
  - apply list_lookup_middle. reflexivity.
Qed.

Lemma well_formed_units (s : jsstring) :
  well_formed_text s = true -> forallb is_code_unit s = true.
Proof. unfold well_formed_text. intros H. now apply andb_true_iff in H as [H _]. Qed.

(** C4, as the code has it. The base64 step loses nothing, whatever the
    bytes: decoding the base64 text of a byte sequence gives the
    sequence back. The transform of the write (line 197) followed by the
    transform of the read (line 329) gives back every text that is
    well-formed Unicode (no unpaired surrogate). And such a text,
    committed at a path and read right after through GET /file/<path>,
    comes back exactly; what /file returns is the stored bytes read as
    UTF-8. *)
Theorem content_round_trip :
  (forall bytes, Forall is_byte bytes -> base64_decode (base64_encode bytes) = bytes) /\
  (forall content,
     well_formed_text content = true ->
     utf8_decode (base64_decode (base64_encode (utf8_encode content))) = content) /\
  (forall (s : store) (b : branch) (files : gmap (list Z) remote_file)
          (t path content p : jsstring),
     t <> [] -> path <> [] ->
     In t (credentials s) ->
     branches s !! default_branch = Some b -> commits s !! tip b = Some files ->
     encodeURIComponent_string path = Ok p ->
     well_formed_text content = true ->
     read_back t path content s
     = Json (VObj [(js "content", VStr content);
                   (js "path", VStr path);
                   (js "sha", VStr (commit_token (List.length (commits s))))])).
Proof.
  split; [exact base64_round_trip |].
  split.
  { intros content Hwf.
    rewrite base64_round_trip by (apply utf8_encode_bytes, well_formed_units, Hwf).
    now apply utf8_round_trip. }
  intros s b files t path content p Ht Hpath Hin Hb Hf Hp Hwf.
  unfold read_back. cbv zeta.
  destruct (commit_on_store rejects_objects s b files t path content p 0
              Ht Hpath Hin Hb Hf Hp) as [_ ->].
  destruct (store_after_write_has s default_branch b files (path_key p)
              (base64_decode (base64_encode (utf8_encode content)))) as [Hc [Hb' Hf']].
  rewrite <- Hc in Hin.
  rewrite (file_on_store rejects_objects _ _ _ _ t path content p 0
             Ht Hin Hb' Hf' (lookup_insert_eq _ _ _) Hp).
  cbn [file_bytes file_version].
  rewrite !(base64_round_trip (utf8_encode content))
    by (apply utf8_encode_bytes, well_formed_units, Hwf).
  rewrite utf8_round_trip by exact Hwf. reflexivity.
Qed.

(** The round trip at a concrete text. *)
Lemma content_round_trip_witness :
  base64_decode (base64_encode [255; 0; 128]) = [255; 0; 128] /\
  utf8_decode (base64_decode (base64_encode (utf8_encode (js "hello")))) = js "hello" /\
  read_back (js "tok") (js "a.txt") (js "hello") (new_store (js "tok"))
  = Json (VObj [(js "content", VStr (js "hello"));
                (js "path", VStr (js "a.txt"));
                (js "sha", VStr (commit_token 1))]).
Proof.
  destruct content_round_trip as [Hbytes [Hcodec Htext]].
  split; [| split].
  - apply Hbytes. repeat constructor; unfold is_byte; lia.
  - apply Hcodec. vm_compute. reflexivity.
  - apply (Htext (new_store (js "tok")) {| tip := 0%nat; base_commit := 0%nat |} ∅
             (js "tok") (js "a.txt") (js "hello") (js "a.txt")).
    + vm_compute. discriminate.
    + vm_compute. discriminate.
    + left. reflexivity.
    + reflexivity.
    + reflexivity.
    + vm_compute. reflexivity.
    + vm_compute. reflexivity.
Defined.

(** A text with an unpaired surrogate does not come back: committed as
    the single code unit U+D800, it is read back as U+FFFD. *)
Lemma content_round_trip_fails :
  read_back (js "tok") (js "a.txt") [0xD800] (new_store (js "tok"))
  = Json (VObj [(js "content", VStr [0xFFFD]);
                (js "path", VStr (js "a.txt"));
                (js "sha", VStr (commit_token 1))]) /\
  read_back (js "tok") (js "a.txt") [0xD800] (new_store (js "tok"))
  <> Json (VObj [(js "content", VStr [0xD800]);
                 (js "path", VStr (js "a.txt"));
                 (js "sha", VStr (commit_token 1))]).
Proof. split; [vm_compute; reflexivity | vm_compute; discriminate]. Qed.

Arguments store_create_branch : simpl never.
Arguments store_open_pull : simpl never.
Arguments store_ref : simpl never.

Lemma store_serve_fixed (s : store) (t : jsstring) (rq : fetch_request) (route : string) :
  In t (credentials s) ->
  (rq_headers rq = read_headers t \/ rq_headers rq = write_headers t) ->
  rq_url rq = repo_api ++ js route ->
  strip_prefix (js "/contents/") (js route) = None ->
  store_serve s rq =
    match strip_prefix (js "/git/ref/heads/") (js route), rq_method rq with
    | Some name, GET => store_ref s name
    | Some _, _ => (refusal 404 "Not Found", s)
    | None, _ =>
        if str_eqb (js route) (js "/git/refs") then
          match rq_method rq, rq_body rq with
          | POST, Some body => store_create_branch s body
          | _, _ => (refusal 404 "Not Found", s)
          end
        else if str_eqb (js route) (js "/pulls") then
          match rq_method rq, rq_body rq with
          | POST, Some body => store_open_pull s body
          | _, _ => (refusal 404 "Not Found", s)
          end
        else
          match strip_prefix (js "/pulls/") (js route), rq_method rq with
          | Some rest, PUT =>
              match strip_suffix (js "/merge") rest with
              | Some number => store_merge s number
              | None => (refusal 404 "Not Found", s)
              end
          | _, _ => (refusal 404 "Not Found", s)
          end
    end.
Proof.
  intros Hin Hh Hu Hroute. unfold store_serve.
  rewrite (authorized_call s t rq Hin Hh). cbn [negb].
  rewrite Hu, strip_prefix_app, Hroute.
  destruct (rq_method rq), (rq_body rq); reflexivity.
Qed.

Lemma store_serve_tip (s : store) (t : jsstring) :
  In t (credentials s) -> store_serve s (tip_read t) = store_ref s default_branch.
Proof.
  intros Hin.
  rewrite (store_serve_fixed s t _ "/git/ref/heads/main" Hin)
    by (try (left; reflexivity); reflexivity).
  reflexivity.
Qed.

Lemma store_serve_refs (s : store) (t : jsstring) (now : Z) (base : value) :
  In t (credentials s) ->
  store_serve s (branch_create t now base)
  = store_create_branch s
      (json_image (VObj [(js "ref", VStr (js "refs/heads/" ++ branch_name now));
                         (js "sha", base)])).
Proof.
  intros Hin.
  rewrite (store_serve_fixed s t _ "/git/refs" Hin)
    by (try (right; reflexivity); reflexivity).
  reflexivity.
Qed.

Lemma store_serve_pulls (s : store) (t : jsstring) (title body_ : value) (now : Z) :
  In t (credentials s) ->
  store_serve s (pull_open t title body_ now)
  = store_open_pull s
      (json_image (VObj [(js "title", js_or title (VStr (js "Update")));
                         (js "body", js_or body_ (VStr []));
                         (js "head", VStr (branch_name now));
                         (js "base", VStr (js "main"))])).
Proof.
  intros Hin.
  rewrite (store_serve_fixed s t _ "/pulls" Hin)
    by (try (right; reflexivity); reflexivity).
  reflexivity.
Qed.

Lemma find_unique {A} (f : A -> bool) (l : list A) (n : A) :
  (forall x, In x l -> f x = true -> x = n) -> In n l -> f n = true ->
  List.find f l = Some n.
Proof.
  induction l as [|x l IH]; intros Huniq Hin Hf; [contradiction |].
  cbn [List.find]. destruct (f x) eqn:Hx.
  - f_equal. apply Huniq; [left; reflexivity | exact Hx].
  - destruct Hin as [-> | Hin]; [congruence |].
    apply IH; [| exact Hin | exact Hf].
    intros y Hy. apply Huniq. right. exact Hy.
Qed.

Lemma commit_token_inj (n m : nat) : commit_token n = commit_token m -> n = m.
Proof.
  unfold commit_token. intros H. apply number_to_string_inj in H. lia.
Qed.

Lemma find_commit_token (s : store) (n : nat) :
  (n < List.length (commits s))%nat -> find_commit (commit_token n) s = Some n.
Proof.
  intros Hn. unfold find_commit. apply find_unique.
  - intros x _ Hx. apply str_eqb_eq in Hx. now apply commit_token_inj.
  - apply in_seq. lia.
  - apply str_eqb_refl.
Qed.

Lemma branch_name_inj (n m : Z) : branch_name n = branch_name m -> n = m.
Proof.
  unfold branch_name. intros H. apply app_inv_head in H.
  now apply number_to_string_inj.
Qed.

Lemma branch_name_not_default (n : Z) : branch_name n <> default_branch.
Proof.
  unfold branch_name. intros H.
  assert (Hh : List.hd 0 (js "web-editor-" ++ number_to_string n) = List.hd 0 default_branch)
    by now rewrite H.
  vm_compute in Hh. discriminate Hh.
Qed.

Lemma store_ref_at (s : store) (b : branch) :
  branches s !! default_branch = Some b ->
  store_ref s default_branch
  = (answer 200 (VObj [(js "ref", VStr (js "refs/heads/" ++ default_branch));
                       (js "object", VObj [(js "sha", VStr (commit_token (tip b)))])]), s).
Proof. intros Hb. unfold store_ref. now rewrite Hb. Qed.

Lemma store_create_branch_new (s : store) (name : jsstring) (n : nat) :
  (n < List.length (commits s))%nat ->
  branches s !! name = None ->
  exists r,
    store_create_branch s
      (json_image (VObj [(js "ref", VStr (js "refs/heads/" ++ name));
                         (js "sha", VStr (commit_token n))]))
    = (Responded r,
       {| credentials := credentials s;
          commits := commits s;
          branches := <[name := {| tip := n; base_commit := n |}]> (branches s);
          pulls := pulls s |}).
Proof.
  intros Hn Hfree. unfold store_create_branch.
  cbn [json_image member own_prop]. eval_keys. cbv iota.
  rewrite strip_prefix_app, (find_commit_token s n Hn), Hfree.
  eexists. reflexivity.
Qed.

(** A write that names the version the branch has is accepted. *)
Lemma store_write_accepts (s : store) (name : jsstring) (b : branch)
    (files : gmap (list Z) remote_file) (p text : jsstring) (body : value)
    (named : option jsstring) :
  member body (js "content") = VStr text ->
  named_version body = Some named ->
  match member body (js "branch") with VStr n => n | _ => default_branch end = name ->
  branches s !! name = Some b -> commits s !! tip b = Some files ->
  same_version (files !! path_key p) named = true ->
  exists r,
    store_write s p body
    = (Responded r, store_after_write s name b files (path_key p) (base64_decode text))
    /\ ok r = true.
Proof.
  intros Hc Hv Hname Hb Hf Hsame. unfold store_write.
  rewrite Hc, Hv, Hname, Hb, Hf, Hsame.
  destruct (files !! path_key p); eexists; split; reflexivity.
Qed.

Lemma store_open_pull_new (s : store) (name : jsstring) (title body_ : value)
    (h b : branch) :
  branches s !! name = Some h -> branches s !! default_branch = Some b ->
  store_open_pull s
    (json_image (VObj [(js "title", js_or title (VStr (js "Update")));
                       (js "body", js_or body_ (VStr []));
                       (js "head", VStr name);
                       (js "base", VStr (js "main"))]))
  = (answer 201 (VObj [(js "number", VNum (Z.of_nat (S (List.length (pulls s)))));
                       (js "html_url", VStr (pull_url (S (List.length (pulls s)))))]),
     {| credentials := credentials s;
        commits := commits s;
        branches := branches s;
        pulls := pulls s ++ [{| pr_head := name; pr_base := js "main";
                                pr_merged := false |}] |}).
Proof.
  intros Hh Hb. unfold store_open_pull.
  assert (Hhead : forall x y, member (json_image (VObj [(js "title", x); (js "body", y);
             (js "head", VStr name); (js "base", VStr (js "main"))])) (js "head") = VStr name).
  { intros x y. destruct x, y; cbn [json_image member own_prop]; eval_keys; reflexivity. }
  assert (Hbase : forall x y, member (json_image (VObj [(js "title", x); (js "body", y);
             (js "head", VStr name); (js "base", VStr (js "main"))])) (js "base")
             = VStr (js "main")).
  { intros x y. destruct x, y; cbn [json_image member own_prop]; eval_keys; reflexivity. }
  rewrite Hhead, Hbase. change (js "main") with default_branch. rewrite Hh, Hb.
  reflexivity.
Qed.

Lemma create_pr_on_store (bfo : value -> result (list Z))
    (s : store) (b : branch) (files : gmap (list Z) remote_file)
    (t path content p : jsstring) (now : Z) :
  t <> [] -> path <> [] ->
  In t (credentials s) ->
  branches s !! default_branch = Some b -> commits s !! tip b = Some files ->
  branches s !! branch_name now = None ->
  encodeURIComponent_string path = Ok p ->
  res (snd (serve_request store_serve bfo CreatePr {| GITHUB_TOKEN := Some t |} now
              (text_request path content) s))
  = json_response (success_envelope
                     (js "PR created: " ++ pull_url (S (List.length (pulls s))))) /\
  remote (snd (serve_request store_serve bfo CreatePr {| GITHUB_TOKEN := Some t |} now
                 (text_request path content) s))
  = store_after_pr s (branch_name now) b files (path_key p)
      (base64_decode (base64_encode (utf8_encode content))).
Proof.
  intros Ht Hpath Hin Hb Hf Hfree Hp.
  assert (Htip : (tip b < List.length (commits s))%nat)
    by (apply lookup_lt_Some in Hf; exact Hf).
  destruct (store_create_branch_new s (branch_name now) (tip b) Htip Hfree) as [r2 H2].
  set (s1 := {| credentials := credentials s; commits := commits s;
                branches := <[branch_name now := {| tip := tip b; base_commit := tip b |}]>
                              (branches s);
                pulls := pulls s |}) in *.
  assert (Hb1 : branches s1 !! default_branch = Some b).
  { cbn [s1 branches]. rewrite lookup_insert_ne by apply branch_name_not_default. exact Hb. }
  assert (Hn1 : branches s1 !! branch_name now = Some {| tip := tip b; base_commit := tip b |}).
  { cbn [s1 branches]. apply lookup_insert_eq. }
  set (sha := match files !! path_key p with
              | Some f => VStr (file_version f)
              | None => VUndefined
              end).
  destruct (store_write_accepts s1 (branch_name now) {| tip := tip b; base_commit := tip b |}
              files p (base64_encode (utf8_encode content))
              (json_image (VObj [(js "message", VStr (js "Update from web editor"));
                                 (js "content", VStr (base64_encode (utf8_encode content)));
                                 (js "sha", sha);
                                 (js "branch", VStr (branch_name now))]))
              (match files !! path_key p with Some f => Some (file_version f) | None => None end))
    as [r4 [H4 Hok4]].
  { subst sha. destruct (files !! path_key p);
      cbn [json_image member own_prop]; eval_keys; reflexivity. }
  { subst sha. unfold named_version. destruct (files !! path_key p);
      cbn [json_image member own_prop]; eval_keys; reflexivity. }
  { subst sha. destruct (files !! path_key p);
      cbn [json_image member own_prop]; eval_keys; reflexivity. }
  { exact Hn1. }
  { exact Hf. }
  { destruct (files !! path_key p); cbn [same_version]; [apply str_eqb_refl | reflexivity]. }
  set (s2 := store_after_write s1 (branch_name now)
               {| tip := tip b; base_commit := tip b |} files (path_key p)
               (base64_decode (base64_encode (utf8_encode content)))) in *.
  assert (Hn2 : branches s2 !! branch_name now
                = Some {| tip := List.length (commits s); base_commit := tip b |}).
  { cbn [s2 store_after_write branches]. apply lookup_insert_eq. }
  assert (Hb2 : branches s2 !! default_branch = Some b).
  { cbn [s2 store_after_write branches].
    rewrite lookup_insert_ne by apply branch_name_not_default. exact Hb1. }
  pose proof (store_open_pull_new s2 (branch_name now)
                (member (body (text_request path content)) (js "title"))
                (member (body (text_request path content)) (js "body")) _ _ Hn2 Hb2) as H5.
  assert (Hin1 : In t (credentials s1)) by exact Hin.
  assert (Hin2 : In t (credentials s2)) by exact Hin.
  assert (H3 : exists r3, store_serve s1 (commit_read t p) = (Responded r3, s1)
                          /\ current_file r3 = Some (match files !! path_key p with
                                                     | Some f => file_json f
                                                     | None => VObj []
                                                     end)).
  { rewrite (store_serve_contents s1 t p)
      by (try exact Hin1; try (left; reflexivity); reflexivity).
    cbn [commit_read rq_method rq_body].
    rewrite (store_read_at s1 b files p Hb1 Hf).
    destruct (files !! path_key p); eexists; split; reflexivity. }
  destruct H3 as [r3 [H3 Hcur]].
  set (mainBranch := VObj [(js "ref", VStr (js "refs/heads/" ++ default_branch));
                            (js "object", VObj [(js "sha", VStr (commit_token (tip b)))])]).
  set (pr := VObj [(js "number", VNum (Z.of_nat (S (List.length (pulls s2)))));
                   (js "html_url", VStr (pull_url (S (List.length (pulls s2)))))]) in *.
  rewrite (create_pr_run store_serve bfo _ now _ s t content p
             (pull_url (S (List.length (pulls s))))
             {| status := 200; text := json_text mainBranch; json := Some mainBranch |}
             r2 r3 r4
             {| status := 201; text := json_text pr; json := Some pr |}
             s s1 s1 s2
             {| credentials := credentials s2; commits := commits s2;
                branches := branches s2;
                pulls := pulls s2 ++ [{| pr_head := branch_name now; pr_base := js "main";
                                         pr_merged := false |}] |}
             mainBranch
             (match files !! path_key p with
              | Some f => file_json f
              | None => VObj []
              end)
             pr).
  - split; [reflexivity |].
    cbn [snd remote]. unfold store_after_pr, s2, store_after_write, s1.
    cbn [credentials commits branches pulls]. f_equal. apply insert_insert_eq.
  - reflexivity.
  - now apply string_token.
  - reflexivity.
  - now apply escaped_path.
  - rewrite (store_serve_tip s t Hin). apply (store_ref_at s b Hb).
  - reflexivity.
  - reflexivity.
  - reflexivity.
  - rewrite (store_serve_refs s t now _ Hin). exact H2.
  - exact H3.
  - exact Hcur.
  - destruct (files !! path_key p); reflexivity.
  - rewrite (store_serve_contents s1 t p)
      by (try exact Hin1; try (right; reflexivity); reflexivity).
    cbn [branch_write rq_method rq_body].
    replace (member (match files !! path_key p with
                     | Some f => file_json f
                     | None => VObj []
                     end) (js "sha")) with sha
      by (subst sha; destruct (files !! path_key p); reflexivity).
    exact H4.
  - rewrite (store_serve_pulls s2 t _ _ now Hin2). exact H5.
  - reflexivity.
  - reflexivity.
  - reflexivity.
Qed.

Lemma store_after_pr_lookups (s : store) (name : jsstring) (b : branch)
    (files : gmap (list Z) remote_file) (key bytes : list Z) :
  name <> default_branch ->
  branches s !! default_branch = Some b -> commits s !! tip b = Some files ->
  let s' := store_after_pr s name b files key bytes in
  credentials s' = credentials s /\
  branches s' !! default_branch = Some b /\
  commits s' !! tip b = Some files /\
  (forall other, other <> name -> branches s' !! other = branches s !! other) /\
  (forall n c, commits s !! n = Some c -> commits s' !! n = Some c) /\
  forked_from s' name = Some (tip b) /\
  file_on s' name key = Some bytes /\
  (forall k, k <> key -> file_on s' name k = file_on s default_branch k) /\
  (forall other o k, other <> name -> branches s !! other = Some o ->
     (tip o < List.length (commits s))%nat -> file_on s' other k = file_on s other k) /\
  branches s' !! name = Some {| tip := List.length (commits s); base_commit := tip b |} /\
  List.length (commits s') = S (List.length (commits s)).
Proof.
  intros Hname Hb Hf. cbv zeta.
  assert (Hkeep : forall n c, commits s !! n = Some c ->
                    (commits s ++ [<[key := {| file_bytes := bytes;
                        file_version := commit_token (List.length (commits s)) |}]> files])
                    !! n = Some c).
  { intros n c Hn. rewrite lookup_app_l; [exact Hn | now apply lookup_lt_Some in Hn]. }
  unfold store_after_pr, forked_from, file_on.
  cbn [credentials branches commits].
  repeat split.
  - rewrite lookup_insert_ne by exact Hname. exact Hb.
  - now apply Hkeep.
  - intros other Ho. now rewrite lookup_insert_ne by congruence.
  - exact Hkeep.
  - now rewrite lookup_insert_eq.
  - rewrite lookup_insert_eq. cbn [tip].
    rewrite list_lookup_middle by reflexivity. now rewrite lookup_insert_eq.
  - intros k Hk. rewrite lookup_insert_eq. cbn [tip].
    rewrite list_lookup_middle by reflexivity.
    rewrite lookup_insert_ne by congruence. now rewrite Hb, Hf.
  - intros other o k Ho Hbo Hlt. rewrite (lookup_insert_ne (branches s)) by congruence.
    rewrite Hbo. now rewrite lookup_app_l by exact Hlt.
  - apply lookup_insert_eq.
  - rewrite length_app. cbn [List.length]. lia.
Qed.

Section Isolation.
Variables (s : store) (b : branch) (files : gmap (list Z) remote_file).
Variables (t path1 content1 p1 path2 content2 p2 : jsstring) (now1 now2 : Z).

(** C7. Two /create-pr invocations at distinct times, one after the
    other on a store that accepts the credential, has its default branch
    and has neither branch name yet: the two branches have distinct
    names and are created at the same commit, the tip of the default
    branch; each holds its own write and otherwise the files of the
    default branch, so neither sees the other's write; and the default
    branch is as it was. *)
Theorem pr_branches_isolated :
  t <> [] -> path1 <> [] -> path2 <> [] ->
  In t (credentials s) ->
  branches s !! default_branch = Some b -> commits s !! tip b = Some files ->
  branches s !! branch_name now1 = None -> branches s !! branch_name now2 = None ->
  encodeURIComponent_string path1 = Ok p1 -> encodeURIComponent_string path2 = Ok p2 ->
  forallb is_code_unit content1 = true -> forallb is_code_unit content2 = true ->
  now1 <> now2 ->
  let s2 := after_create_pr t now2 path2 content2
              (after_create_pr t now1 path1 content1 s) in
  branch_name now1 <> branch_name now2 /\
  forked_from s2 (branch_name now1) = Some (tip b) /\
  forked_from s2 (branch_name now2) = Some (tip b) /\
  file_on s2 (branch_name now1) (path_key p1) = Some (utf8_encode content1) /\
  file_on s2 (branch_name now2) (path_key p2) = Some (utf8_encode content2) /\
  (forall key, key <> path_key p1 ->
     file_on s2 (branch_name now1) key = file_on s default_branch key) /\
  (forall key, key <> path_key p2 ->
     file_on s2 (branch_name now2) key = file_on s default_branch key) /\
  (forall key, file_on s2 default_branch key = file_on s default_branch key).
Proof.
  intros Ht Hpath1 Hpath2 Hin Hb Hf Hfree1 Hfree2 Hp1 Hp2 Hu1 Hu2 Hnow.
  assert (Hnames : branch_name now1 <> branch_name now2)
    by (intros H; apply Hnow; now apply branch_name_inj).
  assert (Htip : (tip b < List.length (commits s))%nat)
    by (now apply lookup_lt_Some in Hf).
  cbv zeta. unfold after_create_pr.
  destruct (create_pr_on_store rejects_objects s b files t path1 content1 p1 now1
              Ht Hpath1 Hin Hb Hf Hfree1 Hp1) as [_ ->].
  rewrite (base64_round_trip (utf8_encode content1)) by now apply utf8_encode_bytes.
  set (s1 := store_after_pr s (branch_name now1) b files (path_key p1) (utf8_encode content1)).
  destruct (store_after_pr_lookups s (branch_name now1) b files (path_key p1)
              (utf8_encode content1) (branch_name_not_default now1) Hb Hf)
    as (Hc1 & Hb1 & Hf1 & Ho1 & _ & Hfork1 & Hfile1 & Hrest1 & Hkeep1 & Hbr1 & Hlen1).
  fold s1 in Hc1, Hb1, Hf1, Ho1, Hfork1, Hfile1, Hrest1, Hkeep1, Hbr1, Hlen1.
  assert (Hin1 : In t (credentials s1)) by now rewrite Hc1.
  assert (Hfree2' : branches s1 !! branch_name now2 = None)
    by (rewrite Ho1 by congruence; exact Hfree2).
  destruct (create_pr_on_store rejects_objects s1 b files t path2 content2 p2 now2
              Ht Hpath2 Hin1 Hb1 Hf1 Hfree2' Hp2) as [_ ->].
  rewrite (base64_round_trip (utf8_encode content2)) by now apply utf8_encode_bytes.
  set (s2 := store_after_pr s1 (branch_name now2) b files (path_key p2) (utf8_encode content2)).
  destruct (store_after_pr_lookups s1 (branch_name now2) b files (path_key p2)
              (utf8_encode content2) (branch_name_not_default now2) Hb1 Hf1)
    as (_ & _ & _ & Ho2 & _ & Hfork2 & Hfile2 & Hrest2 & Hkeep2 & _ & _).
  fold s2 in Ho2, Hfork2, Hfile2, Hrest2, Hkeep2.
  assert (Hmain1 : forall key, file_on s1 default_branch key = file_on s default_branch key).
  { intros key. apply (Hkeep1 default_branch b key); [| exact Hb | exact Htip].
    intros H. exact (branch_name_not_default now1 (eq_sym H)). }
  assert (Hold1 : forall key, file_on s2 (branch_name now1) key
                              = file_on s1 (branch_name now1) key).
  { intros key. apply (Hkeep2 _ _ key Hnames Hbr1). cbn [tip]. lia. }
  split; [exact Hnames |].
  split; [unfold forked_from in *; rewrite Ho2 by exact Hnames; exact Hfork1 |].
  split; [exact Hfork2 |].
  split; [rewrite Hold1; exact Hfile1 |].
  split; [exact Hfile2 |].
  split; [intros key Hkey; rewrite Hold1; now apply Hrest1 |].
  split; [intros key Hkey; rewrite (Hrest2 key Hkey); apply Hmain1 |].
  intros key. rewrite <- Hmain1.
  apply (Hkeep2 default_branch b key); [| exact Hb1 | rewrite Hlen1; lia].
  intros H. exact (branch_name_not_default now2 (eq_sym H)).
Qed.

End Isolation.

(** The isolation at two concrete invocations on a new store. *)
Lemma pr_branches_isolated_witness :
  let s2 := after_create_pr (js "tok") 2 (js "index.html") (js "two")
              (after_create_pr (js "tok") 1 (js "index.html") (js "one")
                 (new_store (js "tok"))) in
  branch_name 1 <> branch_name 2 /\
  forked_from s2 (branch_name 1) = Some 0%nat /\
  forked_from s2 (branch_name 2) = Some 0%nat /\
  file_on s2 (branch_name 1) (path_key (js "index.html")) = Some (utf8_encode (js "one")) /\
  file_on s2 (branch_name 2) (path_key (js "index.html")) = Some (utf8_encode (js "two")).
Proof.
  pose proof (pr_branches_isolated (new_store (js "tok"))
                {| tip := 0%nat; base_commit := 0%nat |} ∅
                (js "tok") (js "index.html") (js "one") (js "index.html")
                (js "index.html") (js "two") (js "index.html") 1 2) as H.
  assert (H1 : js "tok" <> []) by (vm_compute; discriminate).
  assert (H2 : js "index.html" <> []) by (vm_compute; discriminate).
  assert (H3 : In (js "tok") (credentials (new_store (js "tok")))) by (left; reflexivity).
  assert (H4 : branches (new_store (js "tok")) !! default_branch
               = Some {| tip := 0%nat; base_commit := 0%nat |}) by (vm_compute; reflexivity).
  assert (H5 : commits (new_store (js "tok")) !! tip {| tip := 0%nat; base_commit := 0%nat |}
               = Some (∅ : gmap (list Z) remote_file)) by reflexivity.
  assert (H6 : branches (new_store (js "tok")) !! branch_name 1 = None)
    by (vm_compute; reflexivity).
  assert (H7 : branches (new_store (js "tok")) !! branch_name 2 = None)
    by (vm_compute; reflexivity).
  assert (H8 : encodeURIComponent_string (js "index.html") = Ok (js "index.html"))
    by (vm_compute; reflexivity).
  assert (H9 : forallb is_code_unit (js "one") = true) by (vm_compute; reflexivity).
  assert (H10 : forallb is_code_unit (js "two") = true) by (vm_compute; reflexivity).
  assert (H11 : (1 : Z) <> 2) by discriminate.
  specialize (H H1 H2 H2 H3 H4 H5 H6 H7 H8 H8 H9 H10 H11).
  destruct H as (Ha & Hb & Hc & Hd & He & _).
  repeat split; assumption.
Defined.

(** * The handlers at concrete requests *)

(** Replaces the left-hand side of an equation by its value. *)
Ltac compute_lhs :=
  match goal with
  | |- ?l = _ => let v := eval vm_compute in l in change l with v
  end.

(** C2. A /create-pr at a time whose branch name is taken: the store
    refuses the creation of the branch (422) and then the write (409),
    yet the handler goes on through all five calls and answers with a
    success envelope. No answer of /create-pr is checked with
    [response.ok], as [create_pr_run] shows for any store. *)
Theorem create_pr_goes_on_after_refusals :
  call_summary (snd (on_store CreatePr with_token 5
                       (text_request (js "index.html") (js "two")) taken_store))
  = [(GET, repo_api ++ js "/git/ref/heads/main", Some 200);
     (POST, repo_api ++ js "/git/refs", Some 422);
     (GET, contents_url (js "index.html"), Some 404);
     (PUT, contents_url (js "index.html"), Some 409);
     (POST, repo_api ++ js "/pulls", Some 201)] /\
  res (snd (on_store CreatePr with_token 5
              (text_request (js "index.html") (js "two")) taken_store))
  = json_response (success_envelope (js "PR created: " ++ pull_url 2)).
Proof. split; vm_compute; reflexivity. Qed.

(** /commit of "hello" at a.txt, absent on a new store, no [sha]. *)
Lemma commit_resolves_version_witness :
  call_summary (snd (on_store Commit with_token 0
                       (text_request (js "a.txt") (js "hello")) (new_store (js "tok"))))
  = [(GET, contents_url (js "a.txt"), Some 404);
     (PUT, contents_url (js "a.txt"), Some 201)] /\
  unconstrained (commit_write (js "tok") (js "a.txt") (js "a.txt") (js "hello") VUndefined) /\
  res (snd (on_store Commit with_token 0
              (text_request (js "a.txt") (js "hello")) (new_store (js "tok"))))
  = json_response (success_envelope (js "Committed successfully!")).
Proof.
  destruct (commit_resolves_version store_serve rejects_objects with_token 0
              (text_request (js "a.txt") (js "hello")) (new_store (js "tok"))
              (js "tok") (js "hello") (js "a.txt") (js "a.txt"))
    as [_ [H _]]; try (vm_compute; reflexivity).
  edestruct H as (Hcalls & Hfree & Hres & _).
  - compute_lhs. reflexivity.
  - vm_compute. reflexivity.
  - compute_lhs. reflexivity.
  - vm_compute. reflexivity.
  - split; [| split; [exact Hfree | exact Hres]].
    unfold call_summary, on_store. rewrite Hcalls. vm_compute. reflexivity.
Defined.

(** /commit without any credential: no call. *)
Lemma no_credential_no_remote_call_witness :
  getAuthToken without_token (text_request (js "a.txt") (js "hello")) = VNull /\
  issued (snd (on_store Commit without_token 0
                 (text_request (js "a.txt") (js "hello")) (new_store (js "tok")))) = [] /\
  res (snd (on_store Commit without_token 0
              (text_request (js "a.txt") (js "hello")) (new_store (js "tok"))))
  = json_response (error_envelope (js "GitHub not authenticated")).
Proof.
  assert (Hnone : getAuthToken without_token (text_request (js "a.txt") (js "hello")) = VNull)
    by reflexivity.
  destruct (no_credential_no_remote_call store_serve rejects_objects Commit without_token 0
              (text_request (js "a.txt") (js "hello")) (new_store (js "tok")) Hnone)
    as (_ & Hcalls & _ & [Hres | [Hbody _]]).
  - split; [exact Hnone | split; [exact Hcalls | exact Hres]].
  - discriminate Hbody.
Defined.

(** /upload-image with a credential the store does not accept. *)
Lemma mutating_endpoints_envelope_witness :
  mutating UploadImage = true /\
  statusCode (res (snd (on_store UploadImage wrong_token 0 upload_request
                          (new_store (js "tok"))))) = 200.
Proof.
  split; [reflexivity |].
  apply (mutating_endpoints_envelope store_serve rejects_objects UploadImage wrong_token 0
           upload_request (new_store (js "tok")) eq_refl).
Defined.

(** The message of a refused upload is not the store's raw body: it has
    the words [GitHub upload failed: ] before it. *)
Lemma refused_upload_message_is_prefixed :
  exists rq r,
    last (calls (snd (on_store UploadImage wrong_token 0 upload_request
                        (new_store (js "tok"))))) = Some (rq, Responded r) /\
    rq_method rq = PUT /\ ok r = false /\
    sent (res (snd (on_store UploadImage wrong_token 0 upload_request
                      (new_store (js "tok")))))
    = Json (error_envelope (js "GitHub upload failed: " ++ text r)) /\
    sent (res (snd (on_store UploadImage wrong_token 0 upload_request
                      (new_store (js "tok")))))
    <> Json (error_envelope (text r)).
Proof.
  do 2 eexists. split; [compute_lhs; reflexivity |].
  split; [reflexivity |]. split; [reflexivity |].
  split; [vm_compute; reflexivity | vm_compute; discriminate].
Qed.

(** The image proxy without a credential: 401, and no header. *)
Lemma og_image_unauthenticated_has_no_header :
  statusCode (res (snd (on_store OgImage without_token 0 bare_request pictured_store))) = 401 /\
  ~ In (js "Cache-Control", js "no-cache, no-store, must-revalidate")
      (headers (res (snd (on_store OgImage without_token 0 bare_request pictured_store)))).
Proof. split; [reflexivity | vm_compute; intros H; exact H]. Qed.

(** The image proxy serving the uploaded byte. *)
Lemma og_image_no_cache_when_served_witness :
  sent (res (snd (on_store OgImage with_token 0 bare_request pictured_store))) = Binary [255] /\
  headers (res (snd (on_store OgImage with_token 0 bare_request pictured_store)))
  = no_cache_headers.
Proof.
  assert (Hsent : sent (res (snd (on_store OgImage with_token 0 bare_request pictured_store)))
                  = Binary [255]) by (vm_compute; reflexivity).
  destruct (og_image_no_cache_when_served store_serve rejects_objects with_token 0
              bare_request pictured_store) as [H _].
  destruct (H [255] Hsent) as (_ & Hheaders & _).
  split; [exact Hsent | exact Hheaders].
Defined.


(** /commit and /create-pr of "hi" with no [filePath], on a new store:
    each reads [contents/index.html] and then writes it; and a /commit
    at [a.txt] reads and writes one address. *)
Lemma default_file_path_witness :
  truthy (member (body content_request) (js "filePath")) = false /\
  call_summary (snd (on_store Commit with_token 0 content_request (new_store (js "tok"))))
  = [(GET, contents_url (js "index.html"), Some 404);
     (PUT, contents_url (js "index.html"), Some 201)] /\
  List.map (fun c => (rq_method (fst c), rq_url (fst c), outcome_status (snd c)))
    (firstn 4 (calls (snd (on_store CreatePr with_token 5 content_request
                             (new_store (js "tok"))))))
  = [(GET, repo_api ++ js "/git/ref/heads/main", Some 200);
     (POST, repo_api ++ js "/git/refs", Some 201);
     (GET, contents_url (js "index.html"), Some 404);
     (PUT, contents_url (js "index.html"), Some 201)] /\
  (forall rq, In rq (issued (snd (on_store Commit with_token 0 content_request
                                    (new_store (js "tok"))))) ->
     rq_url rq = contents_url (js "index.html")) /\
  rq_url (commit_read (js "tok") (js "a.txt"))
  = rq_url (commit_write (js "tok") (js "a.txt") (js "a.txt") (js "hello") VUndefined).
Proof.
  assert (Hfalsy : truthy (member (body content_request) (js "filePath")) = false)
    by reflexivity.
  destruct (default_file_path store_serve rejects_objects Commit with_token 0 content_request
              (new_store (js "tok")) (or_introl eq_refl))
    as (Hdefault & _ & Hpath & Hcommit & _).
  destruct (default_file_path store_serve rejects_objects CreatePr with_token 5
              content_request (new_store (js "tok")) (or_intror eq_refl))
    as (_ & _ & _ & _ & Hpr).
  destruct (default_file_path store_serve rejects_objects Commit with_token 0
              (text_request (js "a.txt") (js "hello")) (new_store (js "tok"))
              (or_introl eq_refl))
    as (_ & Hsame & _).
  split; [exact Hfalsy |]. split; [| split; [| split]].
  - unfold call_summary, on_store.
    erewrite Hcommit; cycle 1.
    + reflexivity.
    + reflexivity.
    + reflexivity.
    + reflexivity.
    + reflexivity.
    + exact (Hpath Hfalsy).
    + reflexivity.
    + compute_lhs. reflexivity.
    + vm_compute. reflexivity.
    + vm_compute. reflexivity.
  - unfold on_store.
    erewrite Hpr; cycle 1.
    + reflexivity.
    + reflexivity.
    + reflexivity.
    + reflexivity.
    + exact (Hpath Hfalsy).
    + compute_lhs. reflexivity.
    + reflexivity.
    + reflexivity.
    + reflexivity.
    + compute_lhs. reflexivity.
    + compute_lhs. reflexivity.
    + vm_compute. reflexivity.
    + reflexivity.
    + vm_compute. reflexivity.
  - intros rq Hin.
    destruct (Hdefault Hfalsy rq Hin) as [Hurl | [Hep _]]; [exact Hurl | discriminate Hep].
  - apply (Hsame _ _ (js "a.txt") (js "a.txt")).
    + vm_compute. left. reflexivity.
    + vm_compute. right. left. reflexivity.
    + reflexivity.
    + reflexivity.
Defined.

(** An image comes back byte for byte through the image proxy, and as
    U+FFFD through GET /file, which reads it as text. *)
Example image_read_as_text :
  sent (res (snd (on_store OgImage with_token 0 bare_request pictured_store))) = Binary [255] /\
  sent (res (snd (on_store FileAt with_token 0
                    {| body := VObj []; query := VObj [];
                       params0 := js "images/og-image.png" |} pictured_store)))
  = Json (VObj [(js "content", VStr [0xFFFD]);
                (js "path", VStr (js "images/og-image.png"));
                (js "sha", VStr (commit_token 1))]).
Proof. split; vm_compute; reflexivity. Qed.

(** * More facts about the runtime model *)



Lemma b64_sextets_significant (s : jsstring) :
  Forall is_latin1 s -> b64_sextets (b64_significant s) = b64_sextets s.
Proof.
  unfold b64_significant, b64_skipped.
  induction 1 as [|c rest Hc _ IH]; [reflexivity |].
  unfold is_latin1 in Hc.
  assert (Hlow : c mod 256 = c) by (apply Z.mod_small; lia).
  cbn [List.filter b64_sextets]. cbv zeta. rewrite Hlow.
  destruct (c =? b64_pad) eqn:Hpad; cbn [negb andb].
  { cbn [b64_sextets]. cbv zeta. now rewrite Hlow, Hpad. }
  destruct (b64_value c) as [v|] eqn:Hv; cbn [negb].
  - cbn [b64_sextets]. cbv zeta. now rewrite Hlow, Hpad, Hv, IH.
  - exact IH.
Qed.

(** X1. [Buffer.from(text, 'base64')] (lines 93 and 329) passes over
    line breaks and every other character outside the alphabet: a text
    that is the base64 form of a byte sequence once those characters are
    taken out decodes to that sequence. The store answers a read with
    base64 broken into lines. *)
Theorem base64_decode_passes_over_line_breaks (bs : list Z) (s : jsstring) :
  Forall is_byte bs ->
  Forall is_latin1 s ->
  b64_significant s = base64_encode bs ->
  base64_decode s = bs.
Proof.
  intros Hb Hlatin Hs. unfold base64_decode.
  rewrite <- (b64_sextets_significant s Hlatin), Hs.
  now apply base64_round_trip.
Qed.

Lemma code_points_in_unicode_upto (n : nat) :
  forall s, (List.length s <= n)%nat -> forallb is_code_unit s = true ->
    Forall in_unicode (code_points s).
Proof.
  induction n as [|n IH]; intros s Hlen Hu.
  { destruct s; [constructor | cbn in Hlen; lia]. }
  destruct s as [|u rest]; [constructor |].
  cbn [forallb] in Hu. apply andb_true_iff in Hu as [Hu Hrest].
  unfold is_code_unit in Hu. apply andb_true_iff in Hu as [Hu0 Hu1].
  apply Z.leb_le in Hu0, Hu1.
  cbn [code_points].
  destruct (is_high_surrogate u) eqn:Hhigh.
  - unfold is_high_surrogate in Hhigh. apply andb_true_iff in Hhigh as [Hh0 Hh1].
    apply Z.leb_le in Hh0, Hh1.
    destruct rest as [|l rest']; [repeat constructor |].
    destruct (is_low_surrogate l) eqn:Hlow.
    + unfold is_low_surrogate in Hlow. apply andb_true_iff in Hlow as [Hl0 Hl1].
      apply Z.leb_le in Hl0, Hl1.
      cbn [forallb] in Hrest. apply andb_true_iff in Hrest as [_ Hrest'].
      constructor; [cbn; lia | apply IH; [cbn in Hlen; lia | exact Hrest']].
    + constructor; [exact I | apply IH; [cbn in Hlen |- *; lia | exact Hrest]].
  - destruct (is_low_surrogate u);
      (constructor; [cbn; try lia; exact I | apply IH; [cbn in Hlen; lia | exact Hrest]]).
Qed.

Lemma hex_digit_unreserved (d : Z) : 0 <= d < 16 -> uri_unreserved (hex_digit d) = true.
Proof.
  intros Hd. unfold hex_digit, uri_unreserved.
  destruct (Z.ltb_spec d 10).
  - replace ((48 <=? 48 + d) && (48 + d <=? 57)) with true
      by (symmetry; apply andb_true_iff; split; apply Z.leb_le; lia).
    now rewrite orb_true_r.
  - replace ((65 <=? 55 + d) && (55 + d <=? 90)) with true
      by (symmetry; apply andb_true_iff; split; apply Z.leb_le; lia).
    reflexivity.
Qed.

Lemma percent_bytes_safe (bs : list Z) :
  Forall is_byte bs -> Forall uri_safe (List.concat (List.map percent_byte bs)).
Proof.
  induction 1 as [|b bs Hb _ IH]; [constructor |].
  cbn [List.map List.concat percent_byte app]. unfold is_byte in Hb.
  constructor; [now right |].
  constructor; [left; apply hex_digit_unreserved; Z.div_mod_to_equations; lia |].
  constructor; [left; apply hex_digit_unreserved; Z.div_mod_to_equations; lia |].
  exact IH.
Qed.

Lemma uri_escape_safe (c : Z) : 0 <= c <= 0x10FFFF -> Forall uri_safe (uri_escape c).
Proof.
  intros Hc. unfold uri_escape.
  destruct (uri_unreserved c) eqn:Hun.
  - constructor; [now left | constructor].
  - apply percent_bytes_safe. now apply utf8_of_code_point_bytes.
Qed.

Lemma uri_escape_all_outcome (cs : list (option Z)) :
  Forall in_unicode cs ->
  if forallb paired cs
  then exists p, uri_escape_all cs = Ok p /\ Forall uri_safe p
  else exists e, uri_escape_all cs = Throw e /\ kind e = URIError.
Proof.
  induction 1 as [|c cs Hc _ IH]; [exists []; split; [reflexivity | constructor] |].
  destruct c as [c|]; cbn [forallb paired andb uri_escape_all].
  - destruct (forallb paired cs).
    + destruct IH as (p & -> & Hp). eexists. split; [reflexivity |].
      apply Forall_app. split; [now apply uri_escape_safe | exact Hp].
    + destruct IH as (e & -> & He). exists e. split; [reflexivity | exact He].
  - eexists. split; reflexivity.
Qed.

Lemma uri_safe_not (u : Z) (p : jsstring) :
  uri_unreserved u = false -> u <> 37 -> Forall uri_safe p -> ~ In u p.
Proof.
  intros Hu H37 Hp Hin.
  rewrite List.Forall_forall in Hp. destruct (Hp u Hin) as [H | H]; congruence.
Qed.

(** X2. [encodeURIComponent] of a path (lines 179, 188, 234, 240 and
    321) either throws a URIError, exactly when the path has a surrogate
    without its partner, or yields a text of unreserved characters and
    [%] only: no [/], [?], [#] or [&], so that the path is one segment
    of the address and adds no query to it. *)
Theorem escaped_path_is_one_segment (s : jsstring) :
  forallb is_code_unit s = true ->
  if forallb paired (code_points s)
  then exists p, encodeURIComponent_string s = Ok p /\ Forall uri_safe p /\
                 ~ In 47 p /\ ~ In 63 p /\ ~ In 35 p /\ ~ In 38 p
  else exists e, encodeURIComponent_string s = Throw e /\ kind e = URIError.
Proof.
  intros Hu. unfold encodeURIComponent_string.
  pose proof (uri_escape_all_outcome (code_points s)
                (code_points_in_unicode_upto (List.length s) s (le_n _) Hu)) as H.
  destruct (forallb paired (code_points s)); [| exact H].
  destruct H as (p & Hp & Hsafe). exists p. split; [exact Hp |]. split; [exact Hsafe |].
  repeat split; apply uri_safe_not; try exact Hsafe; try reflexivity; discriminate.
Qed.



Lemma replacement_scalar : is_scalar replacement_character.
Proof. unfold is_scalar, replacement_character. lia. Qed.

Lemma utf8_encode_unfold (s : jsstring) :
  utf8_encode s =
  List.concat
    (List.map (fun c => utf8_of_code_point
                          (match c with Some c => c | None => replacement_character end))
       (code_points s)).
Proof. reflexivity. Qed.

Lemma utf8_decode_encoded (c : Z) (rest : list Z) :
  is_scalar c ->
  utf8_decode (utf8_of_code_point c ++ rest) = utf16_of_code_point c ++ utf8_decode rest.
Proof.
  intros Hc. unfold utf8_decode. now rewrite utf8_code_points_encoded.
Qed.

Lemma utf8_encode_step (s : jsstring) (c : option Z) (rest : jsstring) :
  code_points s = c :: code_points rest ->
  utf8_encode s =
  utf8_of_code_point (match c with Some c => c | None => replacement_character end)
  ++ utf8_encode rest.
Proof. intros H. rewrite !utf8_encode_unfold, H. reflexivity. Qed.

Lemma surrogate_tests (u : Z) :
  (is_high_surrogate u = true <-> 0xD800 <= u <= 0xDBFF) /\
  (is_low_surrogate u = true <-> 0xDC00 <= u <= 0xDFFF).
Proof.
  unfold is_high_surrogate, is_low_surrogate.
  rewrite !andb_true_iff, !Z.leb_le. tauto.
Qed.

Lemma surrogate_tests_false (u : Z) :
  (is_high_surrogate u = false <-> ~ 0xD800 <= u <= 0xDBFF) /\
  (is_low_surrogate u = false <-> ~ 0xDC00 <= u <= 0xDFFF).
Proof.
  destruct (surrogate_tests u) as [Hh Hl].
  split; (split; [intros E H; apply Hh in H || apply Hl in H; congruence |]).
  - intros H. destruct (is_high_surrogate u); [exfalso; apply H, Hh; reflexivity | reflexivity].
  - intros H. destruct (is_low_surrogate u); [exfalso; apply H, Hl; reflexivity | reflexivity].
Qed.

(** What the UTF-8 form of a string reads back as. *)
Lemma utf8_read_back_upto (n : nat) :
  forall s, (List.length s <= n)%nat -> forallb is_code_unit s = true ->
    utf8_decode (utf8_encode s) = toWellFormed s /\
    utf8_encode (toWellFormed s) = utf8_encode s /\
    well_formed_text (toWellFormed s) = true.
Proof.
  induction n as [|n IH]; intros s Hlen Hu.
  { destruct s; [repeat split | cbn in Hlen; lia]. }
  destruct s as [|u rest]; [repeat split |].
  cbn [forallb] in Hu. apply andb_true_iff in Hu as [Hu Hrest].
  pose proof Hu as Hunit.
  unfold is_code_unit in Hu. apply andb_true_iff in Hu as [Hu0 Hu1].
  apply Z.leb_le in Hu0, Hu1.
  assert (Hrep : utf16_of_code_point replacement_character = [replacement_character])
    by reflexivity.
  assert (Hrep_unit : is_code_unit replacement_character = true) by reflexivity.
  assert (Hrep_high : is_high_surrogate replacement_character = false) by reflexivity.
  assert (Hrep_low : is_low_surrogate replacement_character = false) by reflexivity.
  assert (Hcp' : forall x, code_points (replacement_character :: x)
                 = Some replacement_character :: code_points x).
  { intros x. cbn [code_points]. now rewrite Hrep_high, Hrep_low. }
  cbn [toWellFormed].
  destruct (is_high_surrogate u) eqn:Hhigh.
  - pose proof Hhigh as Hhigh'. apply surrogate_tests in Hhigh.
    destruct rest as [|l rest'].
    + assert (Hcp : code_points [u] = None :: code_points []).
      { cbn [code_points]. now rewrite Hhigh'. }
      split; [| split].
      * rewrite (utf8_encode_step _ _ _ Hcp).
        rewrite utf8_decode_encoded by exact replacement_scalar. reflexivity.
      * rewrite (utf8_encode_step _ _ _ (Hcp' [])), (utf8_encode_step _ _ _ Hcp).
        reflexivity.
      * reflexivity.
    + destruct (is_low_surrogate l) eqn:Hlow.
      * pose proof Hlow as Hlow'. apply surrogate_tests in Hlow.
        cbn [forallb] in Hrest. apply andb_true_iff in Hrest as [Hl Hrest'].
        destruct (IH rest') as (IH1 & IH2 & IH3); [cbn in Hlen; lia | exact Hrest' |].
        assert (Hcp : forall x, code_points (u :: l :: x)
                      = Some (0x10000 + (u - 0xD800) * 0x400 + (l - 0xDC00)) :: code_points x).
        { intros x. cbn [code_points]. now rewrite Hhigh', Hlow'. }
        split; [| split].
        -- rewrite (utf8_encode_step _ _ _ (Hcp rest')).
           rewrite utf8_decode_encoded by (unfold is_scalar; lia).
           rewrite IH1. unfold utf16_of_code_point. decide_tests. cbn [app].
           f_equal; [| f_equal]; Z.div_mod_to_equations; lia.
        -- rewrite (utf8_encode_step _ _ _ (Hcp (toWellFormed rest'))).
           rewrite (utf8_encode_step _ _ _ (Hcp rest')). now rewrite IH2.
        -- unfold well_formed_text in *. cbn [forallb]. rewrite Hcp.
           cbn [forallb paired]. rewrite Hunit, Hl. cbn [andb]. exact IH3.
      * destruct (IH (l :: rest')) as (IH1 & IH2 & IH3);
          [cbn in Hlen |- *; lia | exact Hrest |].
        assert (Hcp : code_points (u :: l :: rest') = None :: code_points (l :: rest')).
        { cbn [code_points]. now rewrite Hhigh', Hlow. }
        split; [| split].
        -- rewrite (utf8_encode_step _ _ _ Hcp).
           rewrite utf8_decode_encoded by exact replacement_scalar.
           now rewrite IH1, Hrep.
        -- rewrite (utf8_encode_step _ _ _ (Hcp' _)), (utf8_encode_step _ _ _ Hcp).
           now rewrite IH2.
        -- unfold well_formed_text in *. cbn [forallb]. rewrite Hcp'.
           cbn [forallb paired]. rewrite Hrep_unit. cbn [andb]. exact IH3.
  - destruct (IH rest) as (IH1 & IH2 & IH3); [cbn in Hlen; lia | exact Hrest |].
    destruct (is_low_surrogate u) eqn:Hlow.
    + assert (Hcp : code_points (u :: rest) = None :: code_points rest).
      { cbn [code_points]. now rewrite Hhigh, Hlow. }
      split; [| split].
      * rewrite (utf8_encode_step _ _ _ Hcp).
        rewrite utf8_decode_encoded by exact replacement_scalar.
        now rewrite IH1, Hrep.
      * rewrite (utf8_encode_step _ _ _ (Hcp' _)), (utf8_encode_step _ _ _ Hcp).
        now rewrite IH2.
      * unfold well_formed_text in *. cbn [forallb]. rewrite Hcp'.
        cbn [forallb paired]. rewrite Hrep_unit. cbn [andb]. exact IH3.
    + assert (Hcp : forall x, code_points (u :: x) = Some u :: code_points x).
      { intros x. cbn [code_points]. now rewrite Hhigh, Hlow. }
      apply surrogate_tests_false in Hhigh, Hlow.
      split; [| split].
      * rewrite (utf8_encode_step _ _ _ (Hcp rest)).
        rewrite utf8_decode_encoded by (unfold is_scalar; lia).
        rewrite IH1. unfold utf16_of_code_point. decide_tests. reflexivity.
      * rewrite (utf8_encode_step _ _ _ (Hcp _)), (utf8_encode_step _ _ _ (Hcp rest)).
        now rewrite IH2.
      * unfold well_formed_text in *. cbn [forallb]. rewrite Hcp.
        cbn [forallb paired]. rewrite Hunit. cbn [andb]. exact IH3.
Qed.

(** X3. What [Buffer.from(content)] (lines 197 and 245) writes reads
    back through [toString('utf-8')] (line 329) as the content with
    every unpaired surrogate replaced by U+FFFD and nothing else
    changed; the result is well-formed text. *)
Theorem text_read_back_is_made_well_formed (s : jsstring) :
  forallb is_code_unit s = true ->
  utf8_decode (utf8_encode s) = toWellFormed s /\
  well_formed_text (toWellFormed s) = true.
Proof.
  intros Hu. destruct (utf8_read_back_upto (List.length s) s (le_n _) Hu) as (H1 & _ & H3).
  split; assumption.
Qed.

(** X4. Writing again what was read back gives the bytes of the first
    write: the replacement of unpaired surrogates happens once. *)
Theorem saving_what_was_read_keeps_the_bytes (s : jsstring) :
  forallb is_code_unit s = true ->
  utf8_encode (utf8_decode (utf8_encode s)) = utf8_encode s.
Proof.
  intros Hu. destruct (utf8_read_back_upto (List.length s) s (le_n _) Hu) as (H1 & H2 & _).
  now rewrite H1.
Qed.

Ltac bool_facts :=
  unfold second_of_three, second_of_four, is_continuation in *;
  repeat match goal with
         | H : (if ?b then _ else _) = _ |- _ => destruct b eqn:?
         end;
  repeat match goal with
         | H : _ && _ = true |- _ => apply andb_true_iff in H as [? ?]
         | H : (_ <=? _) = true |- _ => apply Z.leb_le in H
         | H : (_ <? _) = true |- _ => apply Z.ltb_lt in H
         | H : (_ =? _) = true |- _ => apply Z.eqb_eq in H
         | H : (_ <? _) = false |- _ => apply Z.ltb_ge in H
         | H : (_ =? _) = false |- _ => apply Z.eqb_neq in H
         end.

(** Everything the UTF-8 reader yields is a scalar value. *)
Lemma utf8_code_points_scalar_upto (n : nat) :
  forall bs, (List.length bs <= n)%nat -> Forall is_byte bs ->
    Forall is_scalar (utf8_code_points bs).
Proof.
  induction n as [|n IH]; intros bs Hlen Hb.
  { destruct bs; [constructor | cbn in Hlen; lia]. }
  destruct bs as [|b0 r0]; [constructor |].
  apply Forall_cons_iff in Hb as [Hb0 Hr0]. unfold is_byte in Hb0.
  assert (IH0 : Forall is_scalar (utf8_code_points r0))
    by (apply IH; [cbn in Hlen; lia | exact Hr0]).
  cbn [utf8_code_points].
  destruct (b0 <? 0x80) eqn:T0.
  { constructor; [bool_facts; unfold is_scalar; lia | exact IH0]. }
  destruct ((0xC2 <=? b0) && (b0 <=? 0xDF)) eqn:T2.
  { destruct r0 as [|b1 r1]; [constructor; [exact replacement_scalar | constructor] |].
    apply Forall_cons_iff in Hr0 as [Hb1 Hr1]. unfold is_byte in Hb1.
    destruct (is_continuation b1) eqn:C1.
    - constructor; [bool_facts; unfold is_scalar; lia |].
      apply IH; [cbn in Hlen; lia | exact Hr1].
    - constructor; [exact replacement_scalar | exact IH0]. }
  destruct ((0xE0 <=? b0) && (b0 <=? 0xEF)) eqn:T3.
  { destruct r0 as [|b1 r1]; [constructor; [exact replacement_scalar | constructor] |].
    apply Forall_cons_iff in Hr0 as [Hb1 Hr1]. unfold is_byte in Hb1.
    assert (IH1 : Forall is_scalar (utf8_code_points r1))
      by (apply IH; [cbn in Hlen; lia | exact Hr1]).
    destruct (second_of_three b0 b1) eqn:C1;
      [| constructor; [exact replacement_scalar | exact IH0]].
    destruct r1 as [|b2 r2]; [constructor; [exact replacement_scalar | constructor] |].
    apply Forall_cons_iff in Hr1 as [Hb2 Hr2]. unfold is_byte in Hb2.
    destruct (is_continuation b2) eqn:C2;
      [| constructor; [exact replacement_scalar | exact IH1]].
    constructor; [bool_facts; unfold is_scalar; lia |].
    apply IH; [cbn in Hlen; lia | exact Hr2]. }
  destruct ((0xF0 <=? b0) && (b0 <=? 0xF4)) eqn:T4;
    [| constructor; [exact replacement_scalar | exact IH0]].
  destruct r0 as [|b1 r1]; [constructor; [exact replacement_scalar | constructor] |].
  apply Forall_cons_iff in Hr0 as [Hb1 Hr1]. unfold is_byte in Hb1.
  assert (IH1 : Forall is_scalar (utf8_code_points r1))
    by (apply IH; [cbn in Hlen; lia | exact Hr1]).
  destruct (second_of_four b0 b1) eqn:C1;
    [| constructor; [exact replacement_scalar | exact IH0]].
  destruct r1 as [|b2 r2]; [constructor; [exact replacement_scalar | constructor] |].
  apply Forall_cons_iff in Hr1 as [Hb2 Hr2]. unfold is_byte in Hb2.
  assert (IH2 : Forall is_scalar (utf8_code_points r2))
    by (apply IH; [cbn in Hlen; lia | exact Hr2]).
  destruct (is_continuation b2) eqn:C2;
    [| constructor; [exact replacement_scalar | exact IH1]].
  destruct r2 as [|b3 r3]; [constructor; [exact replacement_scalar | constructor] |].
  apply Forall_cons_iff in Hr2 as [Hb3 Hr3]. unfold is_byte in Hb3.
  destruct (is_continuation b3) eqn:C3;
    [| constructor; [exact replacement_scalar | exact IH2]].
  constructor; [bool_facts; unfold is_scalar; lia |].
  apply IH; [cbn in Hlen; lia | exact Hr3].
Qed.

(** The code units of scalar values make well-formed text. *)
Lemma code_unit_test (u : Z) : is_code_unit u = true <-> 0 <= u <= 0xFFFF.
Proof. unfold is_code_unit. rewrite andb_true_iff, !Z.leb_le. tauto. Qed.

Lemma utf16_of_scalars_well_formed (cs : list Z) :
  Forall is_scalar cs ->
  well_formed_text (List.concat (List.map utf16_of_code_point cs)) = true.
Proof.
  induction 1 as [|c cs Hc _ IH]; [reflexivity |].
  cbn [List.map List.concat].
  generalize dependent (List.concat (List.map utf16_of_code_point cs)). intros tail IH.
  unfold utf16_of_code_point.
  unfold well_formed_text in *. apply andb_true_iff in IH as [IHu IHp].
  unfold is_scalar in Hc.
  destruct (Z.ltb_spec c 0x10000) as [Hlt|Hge]; cbn [app forallb code_points].
  - assert (Hunit : is_code_unit c = true) by (apply code_unit_test; lia).
    assert (Hh : is_high_surrogate c = false) by (apply surrogate_tests_false; lia).
    assert (Hl : is_low_surrogate c = false) by (apply surrogate_tests_false; lia).
    rewrite Hh, Hl, Hunit. cbn [forallb paired andb]. now rewrite IHu, IHp.
  - assert (Hh : 0xD800 <= 0xD800 + (c - 0x10000) / 0x400 <= 0xDBFF)
      by (Z.div_mod_to_equations; lia).
    assert (Hl : 0xDC00 <= 0xDC00 + (c - 0x10000) mod 0x400 <= 0xDFFF)
      by (Z.div_mod_to_equations; lia).
    revert Hh Hl.
    generalize (0xD800 + (c - 0x10000) / 0x400) (0xDC00 + (c - 0x10000) mod 0x400).
    intros h l Hh Hl.
    assert (Hhu : is_code_unit h = true) by (apply code_unit_test; lia).
    assert (Hlu : is_code_unit l = true) by (apply code_unit_test; lia).
    assert (Hhh : is_high_surrogate h = true) by (apply surrogate_tests; lia).
    assert (Hll : is_low_surrogate l = true) by (apply surrogate_tests; lia).
    rewrite Hhh, Hll, Hhu, Hlu. cbn [forallb paired andb]. now rewrite IHu, IHp.
Qed.

(** X5. Whatever bytes a file holds, [toString('utf-8')] (line 329)
    makes well-formed text of them: the content GET /file/* answers
    with never has an unpaired surrogate. *)
Theorem decoded_file_is_well_formed_text (bs : list Z) :
  Forall is_byte bs -> well_formed_text (utf8_decode bs) = true.
Proof.
  intros Hb. unfold utf8_decode. apply utf16_of_scalars_well_formed.
  now apply (utf8_code_points_scalar_upto (List.length bs)).
Qed.

(** * More facts about the handlers, against any remote store *)

(** Two results of one computation are the same. *)
Ltac same_results :=
  repeat match goal with
         | H1 : ?x = Ok ?a, H2 : ?x = Ok ?b |- _ =>
             let E := fresh in
             assert (E : a = b) by congruence; subst b; clear H2
         end.

Ltac unfold_handlers :=
  unfold handler, post_auth, post_test_token, get_og_image, post_upload_image, post_commit,
    post_create_pr, post_merge_pr, try_upload_image, try_commit, try_create_pr, try_merge_pr,
    get_files, get_file, get_prs.

(** Reads a property of the body of a call. *)
Ltac settle_member :=
  repeat (cbn [member own_prop]; eval_keys;
          try match goal with
              | |- context [match ?v with VUndefined => _ | _ => _ end] => destruct v
              end);
  reflexivity.

Lemma wp_keeps_world {R A} (m : M R A) (Q : A -> world R -> Prop) E (w : world R) :
  snd (m w) = w -> (forall a, Q a w) -> (forall e, E e w) -> wp m Q E w.
Proof.
  unfold wp. destruct (m w) as [[a|e] w']; cbn; intros ->; auto.
Qed.

Lemma render_file_keeps_world {R} (file : value) (w : world R) :
  snd (render_file file w) = w.
Proof.
  unfold render_file. unfold_monad.
  destruct (nullish file); [reflexivity |]. cbn.
  destruct (is_string (member file (js "type")) "file"); cbn.
  - destruct (ToString (member file (js "path"))); [| reflexivity].
    destruct (ToString (member file (js "name"))); reflexivity.
  - destruct (ToString (member file (js "name"))); reflexivity.
Qed.

Lemma render_pr_keeps_world {R} (pr : value) (w : world R) :
  snd (render_pr pr w) = w.
Proof.
  unfold render_pr. unfold_monad.
  destruct (nullish pr); [reflexivity |]. cbn.
  destruct (ToString (member pr (js "number"))); [| reflexivity].
  destruct (ToString (member pr (js "title"))); reflexivity.
Qed.

Lemma append_each_keeps_world {R} (render : value -> M R jsstring) (items : list value) :
  (forall item w, snd (render item w) = w) ->
  forall html w, snd (append_each render items html w) = w.
Proof.
  intros Hrender. induction items as [|item rest IH]; intros html w; [reflexivity |].
  cbn [append_each]. unfold bind.
  specialize (Hrender item w).
  destruct (render item w) as [[piece|e] w']; cbn in Hrender; subst w'; [apply IH | reflexivity].
Qed.

(** The rendering loops of GET /files and GET /prs make no call and
    leave the response as it is. *)
Lemma forEach_keeps_world {R} (render : value -> M R jsstring) (list : value) :
  (forall item w, snd (render item w) = w) ->
  forall html w, snd (forEach render list html w) = w.
Proof.
  intros Hrender html w.
  destruct list; try reflexivity. now apply append_each_keeps_world.
Qed.

Ltac wp_forEach :=
  lazymatch goal with
  | |- wp (forEach render_file _ _) _ _ _ =>
      apply wp_keeps_world;
      [apply forEach_keeps_world; apply render_file_keeps_world | intros ? | intros ?]
  | |- wp (forEach render_pr _ _) _ _ _ =>
      apply wp_keeps_world;
      [apply forEach_keeps_world; apply render_pr_keeps_world | intros ? | intros ?]
  end.

(** Runs a handler to its ends, a rendering loop taken as one step. *)
Ltac run_routes := run_handler; try (wp_forEach; run_handler).

Lemma truthy_env_value (o : option jsstring) :
  truthy (env_value o) = true <-> exists t, o = Some t /\ t <> [].
Proof.
  destruct o as [[|c t]|]; cbn; split; try discriminate.
  - intros (t & Ht & Hne). injection Ht as <-. congruence.
  - intros _. eexists. split; [reflexivity | discriminate].
  - reflexivity.
  - intros (t & Ht & _). discriminate Ht.
Qed.

Section MoreGatewayFacts.
Context {R : Type}.
Variable serve : R -> fetch_request -> fetch_outcome * R.
Variable buffer_from_object : value -> result (list Z).

Local Abbreviation run := (serve_request serve buffer_from_object).

(** X6. Every call any route issues is made with the resolved
    credential: a credential resolved, its header is
    [Authorization: token <credential>] with the [Accept] header of the
    source, the address is the user address or one under the
    repository's, a GET has no body, and a PUT or POST has a body and the
    JSON content type. *)
Theorem calls_carry_the_credential
    (ep : endpoint) (env : process_env) (now : Z) (req : request) (s : R) (rq : fetch_request) :
  In rq (issued (snd (run ep env now req s))) ->
  exists t, truthy (getAuthToken env req) = true /\
            ToString (getAuthToken env req) = Ok t /\
            well_addressed rq /\ well_headed t rq.
Proof.
  revert rq. unfold serve_request.
  apply (wp_of_run _ _ (fun _ w =>
    forall rq, In rq (issued w) ->
    exists t, truthy (getAuthToken env req) = true /\
              ToString (getAuthToken env req) = Ok t /\
              well_addressed rq /\ well_headed t rq)).
  destruct ep; unfold_handlers.
  all: run_routes.
  all: intros rq Hin; unfold issued in Hin; cbn [calls List.map fst In] in Hin.
  all: try contradiction.
  all: same_results.
  all: rewrite ?negb_false_iff, ?negb_true_iff in *.
  all: repeat (destruct Hin as [Hin|Hin]; [subst rq |]); try contradiction.
  all: eexists; split; [first [reflexivity | eassumption] |].
  all: split; [eassumption |].
  all: split;
    [ unfold well_addressed, contents_url; cbn [rq_url];
      first [left; reflexivity | right; eexists; reflexivity]
    | unfold well_headed; cbn [rq_method rq_headers rq_body];
      split; [reflexivity | first [reflexivity | eexists; reflexivity]] ].
Qed.

(** X7. The calls of a route are issued in the order of the source and
    a run only ever cuts that order short: the methods of the calls
    issued are a beginning of the route's plan (so a read route issues
    at most one call, a GET, /auth none, /create-pr at most five), and
    every call but the last was answered: nothing is called after a call
    that failed in transit, and nothing is tried again. *)
Theorem calls_follow_the_plan
    (ep : endpoint) (env : process_env) (now : Z) (req : request) (s : R) :
  (exists k, List.map rq_method (issued (snd (run ep env now req s)))
             = firstn k (call_plan ep req)) /\
  Forall answered (removelast (calls (snd (run ep env now req s)))).
Proof.
  unfold serve_request.
  apply (wp_of_run _ _ (fun _ w =>
    (exists k, List.map rq_method (issued w) = firstn k (call_plan ep req)) /\
    Forall answered (removelast (calls w)))).
  destruct ep; unfold_handlers; cbn [call_plan].
  all: run_routes.
  all: unfold issued; cbn [calls List.map fst rq_method removelast].
  all: rewrite ?negb_false_iff, ?negb_true_iff in *.
  all: repeat match goal with
              | H : truthy ?v = _ |- context [if truthy ?v then _ else _] => rewrite H
              end.
  all: split;
    [ first [ exists 0%nat; reflexivity | exists 1%nat; reflexivity
            | exists 2%nat; reflexivity | exists 3%nat; reflexivity
            | exists 4%nat; reflexivity | exists 5%nat; reflexivity ]
    | repeat constructor; eexists; reflexivity ].
Qed.

(** X8. Every route answers every request, whatever the store does:
    no error escapes a handler. /auth, /test-token, /file/* and the four
    mutating routes answer JSON with status 200, /files and /prs answer
    text with status 200, also when they report a failure, and the image
    proxy answers bytes or a text. GET /favicon.ico answers 204 with an
    empty body and calls nothing. *)
Theorem every_route_answers
    (ep : endpoint) (env : process_env) (now : Z) (req : request) (s : R) :
  fst (run ep env now req s) = Ok tt /\
  answer_shape ep (res (snd (run ep env now req s))) /\
  (forall w : world R,
     get_favicon req w
     = (Ok tt, {| remote := remote w;
                  calls := calls w;
                  res := {| statusCode := 204;
                            headers := headers (res w);
                            sent := Ended |} |})).
Proof.
  assert (Hrun : fst (run ep env now req s) = Ok tt /\
                 answer_shape ep (res (snd (run ep env now req s)))).
  { unfold serve_request.
    apply (wp_of_run _ _ (fun r w => r = Ok tt /\ answer_shape ep (res w))).
    destruct ep; unfold_handlers; cbn [answer_shape].
    all: run_routes.
    all: split; [reflexivity |].
    all: first [ left; eexists; reflexivity | right; eexists; reflexivity
               | split; [reflexivity | split; [reflexivity | eexists; reflexivity]] ]. }
  destruct Hrun as [Hok Hshape].
  split; [exact Hok |]. split; [exact Hshape |].
  intros w. reflexivity.
Qed.

(** X9. POST /auth never calls the store, so it does not check the
    credential it finds. It answers [Connected via Environment Variable]
    exactly when [GITHUB_TOKEN] is set and not empty,
    [Connected via Session] exactly when it is not and the request
    carries a credential, and its error exactly when no credential
    resolves. *)
Theorem auth_reports_credential_source
    (env : process_env) (now : Z) (req : request) (s : R) :
  calls (snd (run Auth env now req s)) = [] /\
  remote (snd (run Auth env now req s)) = s /\
  (sent (res (snd (run Auth env now req s)))
   = Json (success_envelope (js "Connected via Environment Variable"))
   <-> exists t, GITHUB_TOKEN env = Some t /\ t <> []) /\
  (sent (res (snd (run Auth env now req s)))
   = Json (success_envelope (js "Connected via Session"))
   <-> truthy (env_value (GITHUB_TOKEN env)) = false /\ getAuthToken env req <> VNull) /\
  (sent (res (snd (run Auth env now req s)))
   = Json (error_envelope (js "No token found. Set GITHUB_TOKEN in Vercel."))
   <-> getAuthToken env req = VNull).
Proof.
  rewrite <- truthy_env_value, <- getAuthToken_falsy.
  unfold serve_request, handler, post_auth.
  assert (Henv : truthy (env_value (GITHUB_TOKEN env)) = true ->
                 truthy (getAuthToken env req) = true).
  { intros E. unfold getAuthToken. now rewrite E. }
  destruct (truthy (getAuthToken env req)) eqn:Htoken;
    destruct (truthy (env_value (GITHUB_TOKEN env))) eqn:Hfrom;
    try (specialize (Henv eq_refl); discriminate Henv); cbn;
    (split; [reflexivity |]); (split; [reflexivity |]).
  - split; [tauto |]. split; split; intros H.
    + vm_compute in H. discriminate H.
    + destruct H as [H _]. discriminate H.
    + vm_compute in H. discriminate H.
    + discriminate H.
  - split; [| split]; split; intros H.
    + vm_compute in H. discriminate H.
    + discriminate H.
    + split; [reflexivity | discriminate].
    + reflexivity.
    + vm_compute in H. discriminate H.
    + discriminate H.
  - split; [| split]; split; intros H.
    + vm_compute in H. discriminate H.
    + discriminate H.
    + vm_compute in H. discriminate H.
    + destruct H as [_ H]. now contradiction H.
    + reflexivity.
    + reflexivity.
Qed.

(** X10. POST /test-token with a credential issues one call, the read
    of the user. A refusal is answered with
    [Token test failed: <status> - <body>], an accepted read with
    [Logged in as: <login>], and a call that fails in transit with its
    message. *)
Theorem test_token_outcomes
    (env : process_env) (now : Z) (req : request) (s : R) (t : jsstring) :
  getAuthToken env req = VStr t ->
  (exists o, calls (snd (run TestToken env now req s)) = [(user_read t, o)]) /\
  remote (snd (run TestToken env now req s)) = snd (serve s (user_read t)) /\
  (forall e s', serve s (user_read t) = (Rejected e, s') ->
     sent (res (snd (run TestToken env now req s))) = Json (error_envelope (message e))) /\
  (forall r s', serve s (user_read t) = (Responded r, s') -> ok r = false ->
     sent (res (snd (run TestToken env now req s)))
     = Json (error_envelope (js "Token test failed: " ++ number_to_string (status r)
                             ++ js " - " ++ text r))) /\
  (forall r s' user login,
     serve s (user_read t) = (Responded r, s') -> ok r = true ->
     json r = Some user -> nullish user = false ->
     ToString (member user (js "login")) = Ok login ->
     sent (res (snd (run TestToken env now req s)))
     = Json (success_envelope (js "Logged in as: " ++ login))).
Proof.
  intros Ht.
  unfold serve_request, handler, post_test_token, user_read.
  unfold_monad. cbn.
  rewrite (string_credential_truthy _ _ _ Ht), Ht. cbn. rewrite ToString_string. cbn.
  destruct (serve s _) as [[r|e] s1] eqn:Hserve; cbn.
  - split; [| split; [| split; [| split]]].
    + destruct (ok r); cbn; [| eexists; reflexivity].
      destruct (json r) as [user|]; cbn; [| eexists; reflexivity].
      destruct (nullish user); cbn; [eexists; reflexivity |].
      destruct (ToString (member user (js "login"))); cbn; eexists; reflexivity.
    + destruct (ok r); cbn; [| reflexivity].
      destruct (json r) as [user|]; cbn; [| reflexivity].
      destruct (nullish user); cbn; [reflexivity |].
      destruct (ToString (member user (js "login"))); reflexivity.
    + intros e s' H. discriminate H.
    + intros r0 s' H Hok. injection H as <- <-. rewrite Hok. reflexivity.
    + intros r0 s' user login H Hok Hjson Hn Hlogin. injection H as <- <-.
      rewrite Hok, Hjson. cbn. rewrite Hn. cbn. rewrite Hlogin. reflexivity.
  - split; [eexists; reflexivity |]. split; [reflexivity |].
    split; [intros e0 s' H; injection H as <- <-; reflexivity |].
    split; [intros r s' H; discriminate H | intros r s' user login H; discriminate H].
Qed.

(** X11. A /commit that names a [sha] reads nothing: its only call is
    the write, with the [sha] as given. An accepted write is answered
    with [Committed successfully!], a refused one with the store's raw
    body as the error. *)
Theorem commit_with_given_version
    (env : process_env) (now : Z) (req : request) (s : R) (t c p fp : jsstring) :
  nullish (body req) = false ->
  getAuthToken env req = VStr t ->
  truthy (member (body req) (js "sha")) = true ->
  member (body req) (js "content") = VStr c ->
  encodeURIComponent (js_or (member (body req) (js "filePath")) (VStr (js "index.html")))
    = Ok p ->
  ToString (member (body req) (js "filePath")) = Ok fp ->
  let write := commit_write t p fp c (member (body req) (js "sha")) in
  (exists o, calls (snd (run Commit env now req s)) = [(write, o)]) /\
  remote (snd (run Commit env now req s)) = snd (serve s write) /\
  (forall r s', serve s write = (Responded r, s') ->
     sent (res (snd (run Commit env now req s)))
     = Json (if ok r then success_envelope (js "Committed successfully!")
             else error_envelope (text r))).
Proof.
  intros Hbody Ht Hsha Hc Hp Hfp write. subst write.
  unfold serve_request, handler, post_commit, try_commit, commit_write.
  unfold_monad. cbn.
  rewrite Hbody. cbn.
  rewrite (string_credential_truthy _ _ _ Ht), Ht, Hsha, Hc. cbn.
  rewrite Hp, ToString_string, Hfp. cbn.
  destruct (serve s _) as [[r|e] s1]; cbn.
  - split; [destruct (ok r); eexists; reflexivity |].
    split; [destruct (ok r); reflexivity |].
    intros r0 s' H. injection H as <- <-. destruct (ok r); reflexivity.
  - split; [eexists; reflexivity |]. split; [reflexivity |].
    intros r s' H. discriminate H.
Qed.

(** X12. When /commit gets no [filePath], the file written is
    [index.html] but the commit message is made from the missing value:
    it reads [Update undefined from web editor]. The default of lines
    179 and 188 is not applied on line 196. *)
Theorem commit_message_when_path_omitted
    (env : process_env) (now : Z) (req : request) (s : R) (rq : fetch_request) (b : value) :
  member (body req) (js "filePath") = VUndefined ->
  In rq (issued (snd (run Commit env now req s))) ->
  rq_body rq = Some b ->
  rq_url rq = contents_url (js "index.html") /\
  member b (js "message") = VStr (js "Update undefined from web editor").
Proof.
  intros Hpath. revert rq b. unfold serve_request.
  apply (wp_of_run _ _ (fun _ w =>
    forall rq b, In rq (issued w) -> rq_body rq = Some b ->
      rq_url rq = contents_url (js "index.html") /\
      member b (js "message") = VStr (js "Update undefined from web editor"))).
  unfold handler, post_commit, try_commit. rewrite Hpath.
  run_handler.
  all: intros rq b Hin Hb; unfold issued in Hin; cbn [calls List.map fst In] in Hin.
  all: try contradiction.
  all: repeat (destruct Hin as [Hin|Hin]; [subst rq; cbn [rq_body rq_url] in * |]);
         try contradiction; try discriminate Hb.
  all: injection Hb as <-.
  all: repeat match goal with
              | H : encodeURIComponent (js_or VUndefined _) = Ok ?p |- _ =>
                  apply (default_path VUndefined _ eq_refl) in H; subst p
              | H : ToString VUndefined = Ok ?a |- _ =>
                  change (ToString VUndefined) with (@Ok jsstring (js "undefined")) in H;
                  injection H as <-
              end.
  all: split; [reflexivity |].
  all: cbn [member own_prop]; eval_keys; reflexivity.
Qed.

(** X13. A /commit or /create-pr whose [content] cannot be made into
    bytes (it is missing, or not a string), or whose path cannot be
    escaped, issues no write and opens no pull request. *)
Theorem no_write_without_bytes_or_path
    (ep : endpoint) (env : process_env) (now : Z) (req : request) (s : R) (rq : fetch_request) :
  ep = Commit \/ ep = CreatePr ->
  (exists e, Buffer_from buffer_from_object (member (body req) (js "content")) utf8 = Throw e) \/
  (exists e, requested_path ep req = Throw e) ->
  In rq (issued (snd (run ep env now req s))) ->
  rq_method rq <> PUT /\ ~ opens_pull rq.
Proof.
  intros Hep Hfail. revert rq. unfold serve_request.
  apply (wp_of_run _ _ (fun _ w =>
    forall rq, In rq (issued w) -> rq_method rq <> PUT /\ ~ opens_pull rq)).
  destruct Hep as [-> | ->]; cbn [requested_path] in Hfail;
    unfold handler, post_commit, post_create_pr, try_commit, try_create_pr; run_handler.
  all: intros rq Hin; unfold issued in Hin; cbn [calls List.map fst In] in Hin.
  all: try contradiction.
  all: try (destruct Hfail as [[e' Hfail] | [e' Hfail]]; congruence).
  all: repeat (destruct Hin as [Hin|Hin]; [subst rq; cbn [rq_method] |]); try contradiction.
  all: split; [discriminate |].
  all: unfold opens_pull; cbn [rq_url]; intros Hu.
  all: first [ apply app_inv_head in Hu; vm_compute in Hu; discriminate Hu
             | unfold contents_url in Hu; apply app_inv_head in Hu;
               vm_compute in Hu; discriminate Hu ].
Qed.

(** X14. When the path cannot be escaped, /commit and GET /file/* call
    nothing at all and, given a credential, answer with the message of
    the error thrown by [encodeURIComponent]. *)
Theorem unencodable_path_makes_no_call
    (ep : endpoint) (env : process_env) (now : Z) (req : request) (s : R) (e : js_error) :
  ep = Commit \/ ep = FileAt ->
  requested_path ep req = Throw e ->
  calls (snd (run ep env now req s)) = [] /\
  remote (snd (run ep env now req s)) = s /\
  (truthy (getAuthToken env req) = true ->
   nullish (body req) = false \/ ep = FileAt ->
   sent (res (snd (run ep env now req s))) = Json (error_envelope (message e))).
Proof.
  intros Hep Hpath. unfold serve_request.
  apply (wp_of_run _ _ (fun _ w =>
    calls w = [] /\ remote w = s /\
    (truthy (getAuthToken env req) = true ->
     nullish (body req) = false \/ ep = FileAt ->
     sent (res w) = Json (error_envelope (message e))))).
  destruct Hep as [-> | ->]; cbn [requested_path] in Hpath;
    unfold handler, post_commit, get_file, try_commit; run_handler.
  all: try congruence.
  all: rewrite ?negb_false_iff, ?negb_true_iff in *.
  all: split; [reflexivity |]; split; [reflexivity |].
  all: intros Htoken Hbody; try congruence.
  all: try (destruct Hbody as [Hbody | Hbody]; congruence).
  all: replace e with e0 by congruence; reflexivity.
Qed.

(** X15. Whatever the store answers, /create-pr writes to no branch
    but its own: its write names the branch [web-editor-<now>], which is
    never [main]; the branch it creates is that one, and the pull
    request it opens goes from that one to [main]. *)
Theorem create_pr_stays_on_its_branch
    (env : process_env) (now : Z) (req : request) (s : R) (rq : fetch_request) (b : value) :
  In rq (issued (snd (run CreatePr env now req s))) ->
  rq_body rq = Some b ->
  branch_name now <> js "main" /\
  match rq_method rq with
  | PUT => member b (js "branch") = VStr (branch_name now)
  | POST =>
      (rq_url rq = repo_api ++ js "/git/refs" /\
       member b (js "ref") = VStr (js "refs/heads/" ++ branch_name now)) \/
      (opens_pull rq /\ member b (js "head") = VStr (branch_name now) /\
       member b (js "base") = VStr (js "main"))
  | GET => False
  end.
Proof.
  revert rq b. unfold serve_request.
  apply (wp_of_run _ _ (fun _ w =>
    forall rq b, In rq (issued w) -> rq_body rq = Some b ->
    branch_name now <> js "main" /\
    match rq_method rq with
    | PUT => member b (js "branch") = VStr (branch_name now)
    | POST =>
        (rq_url rq = repo_api ++ js "/git/refs" /\
         member b (js "ref") = VStr (js "refs/heads/" ++ branch_name now)) \/
        (opens_pull rq /\ member b (js "head") = VStr (branch_name now) /\
         member b (js "base") = VStr (js "main"))
    | GET => False
    end)).
  unfold handler, post_create_pr, try_create_pr. run_handler.
  all: intros rq b Hin Hb; unfold issued in Hin; cbn [calls List.map fst In] in Hin.
  all: try contradiction.
  all: split; [exact (branch_name_not_default now) |].
  all: repeat (destruct Hin as [Hin|Hin];
               [subst rq; cbn [rq_body rq_url rq_method] in * |]);
         try contradiction; try discriminate Hb.
  all: injection Hb as <-.
  all: unfold opens_pull; cbn [rq_url].
  all: first
    [ left; split; [reflexivity |]; settle_member
    | right; split; [reflexivity |]; split; settle_member
    | settle_member ].
Qed.

(** X16. /create-pr looks at [content] only after it has created the
    branch (line 245 follows lines 227-231): with [content] missing, the
    run creates the branch, reads the file, answers with the error, and
    calls nothing more. The branch stays behind. *)
Theorem create_pr_leaves_its_branch_behind
    (env : process_env) (now : Z) (req : request) (s : R) (t p : jsstring) (e : js_error)
    (r1 r2 r3 : fetch_response) (s1 s2 s3 : R) (mainBranch currentFile : value) :
  nullish (body req) = false ->
  getAuthToken env req = VStr t ->
  Buffer_from buffer_from_object (member (body req) (js "content")) utf8 = Throw e ->
  encodeURIComponent (js_or (member (body req) (js "filePath")) (VStr (js "index.html")))
    = Ok p ->
  serve s (tip_read t) = (Responded r1, s1) ->
  json r1 = Some mainBranch -> nullish mainBranch = false ->
  nullish (member mainBranch (js "object")) = false ->
  serve s1 (branch_create t now (member (member mainBranch (js "object")) (js "sha")))
    = (Responded r2, s2) ->
  serve s2 (commit_read t p) = (Responded r3, s3) ->
  current_file r3 = Some currentFile ->
  run CreatePr env now req s
  = (Ok tt,
     {| remote := s3;
        calls := [(tip_read t, Responded r1);
                  (branch_create t now (member (member mainBranch (js "object")) (js "sha")),
                   Responded r2);
                  (commit_read t p, Responded r3)];
        res := json_response (error_envelope (message e)) |}).
Proof.
  intros Hbody Ht Hc Hp H1 Hj1 Hn1 Hn1' H2 H3 Hcur.
  unfold serve_request, handler, post_create_pr, try_create_pr.
  unfold tip_read, branch_create, commit_read in *.
  unfold_monad. cbn. cbn in H2.
  rewrite Hbody. cbn.
  rewrite (string_credential_truthy _ _ _ Ht), Ht. cbn.
  rewrite ToString_string. cbn.
  rewrite H1. cbn. rewrite Hj1. cbn. rewrite Hn1. cbn. rewrite Hn1'. cbn.
  rewrite H2. cbn. rewrite Hp. cbn. rewrite H3. cbn.
  unfold current_file in Hcur.
  destruct (ok r3); cbn.
  - rewrite Hcur. cbn. rewrite Hc. reflexivity.
  - rewrite Hc. reflexivity.
Qed.

(** X17. POST /merge-pr issues one call, the merge of the pull request
    whose number is [prNumber] as printed, titled [Merge PR #<n>], for a
    [prNumber] that is a safe integer (or is no number). An accepted
    merge is answered with [PR #<n> merged!], a refused one with the
    store's raw body as the error. *)
Theorem merge_pr_outcomes
    (env : process_env) (now : Z) (req : request) (s : R) (t n : jsstring) :
  nullish (body req) = false ->
  getAuthToken env req = VStr t ->
  safe_numbers (member (body req) (js "prNumber")) = true ->
  ToString (member (body req) (js "prNumber")) = Ok n ->
  (exists o, calls (snd (run MergePr env now req s)) = [(merge_call t n, o)]) /\
  remote (snd (run MergePr env now req s)) = snd (serve s (merge_call t n)) /\
  (forall r s', serve s (merge_call t n) = (Responded r, s') ->
     sent (res (snd (run MergePr env now req s)))
     = Json (if ok r then success_envelope (js "PR #" ++ n ++ js " merged!")
             else error_envelope (text r))).
Proof.
  intros Hbody Ht _ Hn.
  unfold serve_request, handler, post_merge_pr, try_merge_pr, merge_call.
  unfold_monad. cbn.
  rewrite Hbody. cbn.
  rewrite (string_credential_truthy _ _ _ Ht), Ht, Hn. cbn.
  rewrite ToString_string. cbn.
  destruct (serve s _) as [[r|e] s1]; cbn.
  - split; [destruct (ok r); eexists; reflexivity |].
    split; [destruct (ok r); reflexivity |].
    intros r0 s' H. injection H as <- <-. destruct (ok r); reflexivity.
  - split; [eexists; reflexivity |]. split; [reflexivity |].
    intros r s' H. discriminate H.
Qed.

(** X18. POST /upload-image reads [images/<filename>], the address the
    image proxy reads for that name, then writes there the [content] as
    it came, not encoded again, with the version the read returned if
    any. An accepted write is answered with [Image uploaded!] and the
    proxy address of the image, which carries the name and the time. *)
Theorem upload_image_outcomes
    (env : process_env) (now : Z) (req : request) (s : R) (t f : jsstring) :
  nullish (body req) = false ->
  getAuthToken env req = VStr t ->
  ToString (member (body req) (js "filename")) = Ok f ->
  (exists o rest, calls (snd (run UploadImage env now req s)) = (image_read t f, o) :: rest) /\
  (forall r1 s1 sha r2 s2,
     serve s (image_read t f) = (Responded r1, s1) ->
     resolved_version r1 = Some sha ->
     serve s1 (image_write t f (member (body req) (js "content")) sha) = (Responded r2, s2) ->
     calls (snd (run UploadImage env now req s))
     = [(image_read t f, Responded r1);
        (image_write t f (member (body req) (js "content")) sha, Responded r2)] /\
     remote (snd (run UploadImage env now req s)) = s2 /\
     sent (res (snd (run UploadImage env now req s)))
     = Json (if ok r2
             then VObj [(js "success", VStr (js "Image uploaded!"));
                        (js "url", VStr (proxy_url f now))]
             else error_envelope (js "GitHub upload failed: " ++ text r2))).
Proof.
  intros Hbody Ht Hf.
  unfold serve_request, handler, post_upload_image, try_upload_image, image_read, image_write,
    proxy_url.
  unfold_monad. cbn.
  rewrite Hbody. cbn.
  rewrite (string_credential_truthy _ _ _ Ht), Ht, Hf. cbn.
  rewrite ToString_string. cbn.
  split.
  - destruct (serve s _) as [[r1|e1] s1]; cbn; [| do 2 eexists; reflexivity].
    destruct (ok r1); cbn.
    + destruct (json r1) as [v|]; cbn; [| do 2 eexists; reflexivity].
      destruct (nullish v); cbn; [do 2 eexists; reflexivity |].
      destruct (serve s1 _) as [[r2|e2] s2]; cbn; [| do 2 eexists; reflexivity].
      destruct (ok r2); cbn; do 2 eexists; reflexivity.
    + destruct (serve s1 _) as [[r2|e2] s2]; cbn; [| do 2 eexists; reflexivity].
      destruct (ok r2); cbn; do 2 eexists; reflexivity.
  - intros r1 s1 sha r2 s2 Hread Hres Hwrite.
    rewrite Hread. cbn.
    unfold resolved_version in Hres. cbn in Hwrite.
    destruct (ok r1); cbn.
    + destruct (json r1) as [v|]; [| discriminate Hres]. cbn.
      destruct (nullish v); [discriminate Hres |]. cbn.
      injection Hres as <-. rewrite Hwrite. cbn.
      destruct (ok r2); cbn; repeat split; reflexivity.
    + injection Hres as <-. cbn in Hwrite |- *. rewrite Hwrite. cbn.
      destruct (ok r2); cbn; repeat split; reflexivity.
Qed.

Lemma upload_success_url
    (env : process_env) (now : Z) (req : request) (s : R) (u : jsstring) :
  sent (res (snd (run UploadImage env now req s))) = uploaded u ->
  exists f, ToString (member (body req) (js "filename")) = Ok f /\ u = proxy_url f now.
Proof.
  revert u. unfold serve_request.
  apply (wp_of_run _ _ (fun _ w =>
    forall u, sent (res w) = uploaded u ->
    exists f, ToString (member (body req) (js "filename")) = Ok f /\ u = proxy_url f now)).
  unfold handler, post_upload_image, try_upload_image, uploaded. run_handler.
  all: intros u Hsent; try discriminate Hsent.
  all: injection Hsent as <-; eexists; split; [eassumption | reflexivity].
Qed.

(** X19. Two uploads under one name at different times that both
    succeed are answered with different addresses: the time in the
    address tells them apart, which is what keeps a cache from serving
    the older image. *)
Theorem upload_urls_differ_in_time
    (env : process_env) (req : request) (now1 now2 : Z) (s1 s2 : R) (u1 u2 : jsstring) :
  now1 <> now2 ->
  sent (res (snd (run UploadImage env now1 req s1))) = uploaded u1 ->
  sent (res (snd (run UploadImage env now2 req s2))) = uploaded u2 ->
  u1 <> u2.
Proof.
  intros Hnow H1 H2 Heq.
  apply upload_success_url in H1 as (f1 & Hf1 & ->).
  apply upload_success_url in H2 as (f2 & Hf2 & ->).
  assert (f2 = f1) by congruence. subst f2.
  unfold proxy_url in Heq.
  do 3 apply app_inv_head in Heq.
  now apply number_to_string_inj in Heq.
Qed.

(** X20. The image proxy reads [images/og-image.png] when the request
    names no image, and [images/<name>] otherwise, in one call. A call
    that fails in transit is answered 500 with its message, and an
    accepted read whose body is not JSON is answered 500, without any
    header of the handler's. *)
Theorem og_image_default_and_failures
    (env : process_env) (now : Z) (req : request) (s : R) (t : jsstring) :
  getAuthToken env req = VStr t ->
  nullish (query req) = false ->
  (truthy (member (query req) (js "name")) = false ->
   exists o, calls (snd (run OgImage env now req s))
             = [(image_read t (js "og-image.png"), o)]) /\
  (forall name,
     ToString (js_or (member (query req) (js "name")) (VStr (js "og-image.png"))) = Ok name ->
     (exists o, calls (snd (run OgImage env now req s)) = [(image_read t name, o)]) /\
     (forall e s', serve s (image_read t name) = (Rejected e, s') ->
        res (snd (run OgImage env now req s)) = text_response 500 (message e)) /\
     (forall r s', serve s (image_read t name) = (Responded r, s') ->
        ok r = true -> json r = None ->
        statusCode (res (snd (run OgImage env now req s))) = 500 /\
        headers (res (snd (run OgImage env now req s))) = [])).
Proof.
  intros Ht Hq.
  assert (Hnamed : forall name,
     ToString (js_or (member (query req) (js "name")) (VStr (js "og-image.png"))) = Ok name ->
     (exists o, calls (snd (run OgImage env now req s)) = [(image_read t name, o)]) /\
     (forall e s', serve s (image_read t name) = (Rejected e, s') ->
        res (snd (run OgImage env now req s)) = text_response 500 (message e)) /\
     (forall r s', serve s (image_read t name) = (Responded r, s') ->
        ok r = true -> json r = None ->
        statusCode (res (snd (run OgImage env now req s))) = 500 /\
        headers (res (snd (run OgImage env now req s))) = [])).
  { intros name Hname.
    unfold serve_request, handler, get_og_image, image_read.
    unfold_monad. cbn.
    rewrite (string_credential_truthy _ _ _ Ht), Ht. cbn.
    rewrite Hq. cbn. rewrite Hname, ToString_string. cbn.
    destruct (serve s _) as [[r|e] s1]; cbn.
    - split; [| split].
      + destruct (ok r); cbn; [| eexists; reflexivity].
        destruct (json r) as [data|]; cbn; [| eexists; reflexivity].
        destruct (nullish data); cbn; [eexists; reflexivity |].
        destruct (Buffer_from _ _ _); cbn; eexists; reflexivity.
      + intros e s' H. discriminate H.
      + intros r0 s' H Hok Hjson. injection H as <- <-.
        rewrite Hok, Hjson. cbn. split; reflexivity.
    - split; [eexists; reflexivity |].
      split; [intros e0 s' H; injection H as <- <-; reflexivity |].
      intros r s' H. discriminate H. }
  split; [| exact Hnamed].
  intros Hfalsy.
  apply (Hnamed (js "og-image.png")).
  unfold js_or. rewrite Hfalsy. reflexivity.
Qed.

(** X21. GET /file/* issues one call. Every refusal of the store, of
    whatever status (a credential the store does not accept as well as a
    missing file), is answered [File not found]; a path that names a
    directory, for which the store answers a list, is answered with the
    error of a TypeError. *)
Theorem file_refusals_read_as_not_found
    (env : process_env) (now : Z) (req : request) (s : R) (t p : jsstring) :
  getAuthToken env req = VStr t ->
  encodeURIComponent_string (params0 req) = Ok p ->
  (exists o, calls (snd (run FileAt env now req s)) = [(file_read t p, o)]) /\
  remote (snd (run FileAt env now req s)) = snd (serve s (file_read t p)) /\
  (forall r s', serve s (file_read t p) = (Responded r, s') -> ok r = false ->
     res (snd (run FileAt env now req s))
     = json_response (error_envelope (js "File not found"))) /\
  (forall r s' items,
     serve s (file_read t p) = (Responded r, s') -> ok r = true ->
     json r = Some (VArr items) ->
     exists e, kind e = TypeError /\
       res (snd (run FileAt env now req s)) = json_response (error_envelope (message e))).
Proof.
  intros Ht Hp.
  unfold serve_request, handler, get_file, file_read, commit_read.
  unfold_monad. cbn.
  rewrite (string_credential_truthy _ _ _ Ht), Ht. cbn.
  rewrite Hp, ToString_string. cbn.
  destruct (serve s _) as [[r|e] s1]; cbn.
  - split; [| split; [| split]].
    + destruct (ok r); cbn; [| eexists; reflexivity].
      destruct (json r) as [data|]; cbn; [| eexists; reflexivity].
      destruct (nullish data); cbn; [eexists; reflexivity |].
      destruct (Buffer_from _ _ _); cbn; eexists; reflexivity.
    + destruct (ok r); cbn; [| reflexivity].
      destruct (json r) as [data|]; cbn; [| reflexivity].
      destruct (nullish data); cbn; [reflexivity |].
      destruct (Buffer_from _ _ _); reflexivity.
    + intros r0 s' H Hok. injection H as <- <-. rewrite Hok. reflexivity.
    + intros r0 s' items H Hok Hjson. injection H as <- <-.
      rewrite Hok, Hjson. cbn.
      match goal with |- context [VStr (js ?m)] => exists (type_error m) end.
      split; reflexivity.
  - split; [eexists; reflexivity |]. split; [reflexivity |].
    split; intros r s'; [intros H | intros items H]; discriminate H.
Qed.

(** X22. When the store answers the read with the base64 text that a
    commit of [content] sent, broken into lines or not, GET /file/*
    answers with [content], every unpaired surrogate replaced by U+FFFD,
    with the path as it was requested and with the store's [sha]. *)
Theorem file_returns_the_text_written
    (env : process_env) (now : Z) (req : request) (s : R) (t p c64 sha content : jsstring)
    (r : fetch_response) (s' : R) (data : value) :
  getAuthToken env req = VStr t ->
  encodeURIComponent_string (params0 req) = Ok p ->
  serve s (file_read t p) = (Responded r, s') ->
  ok r = true -> json r = Some data ->
  member data (js "content") = VStr c64 ->
  member data (js "sha") = VStr sha ->
  Forall is_latin1 c64 ->
  b64_significant c64 = base64_encode (utf8_encode content) ->
  forallb is_code_unit content = true ->
  res (snd (run FileAt env now req s))
  = json_response (VObj [(js "content", VStr (toWellFormed content));
                         (js "path", VStr (params0 req));
                         (js "sha", VStr sha)]).
Proof.
  intros Ht Hp Hread Hok Hjson Hc Hsha Hlatin Hc64 Hunits.
  rewrite (get_file_run serve buffer_from_object env now req s t p c64 r s' data
             Ht Hp Hread Hok Hjson Hc).
  cbn [snd res]. rewrite Hsha.
  unfold base64_decode. rewrite <- (b64_sextets_significant c64 Hlatin), Hc64.
  fold (base64_decode (base64_encode (utf8_encode content))).
  rewrite base64_round_trip by now apply utf8_encode_bytes.
  destruct (utf8_read_back_upto (List.length content) content (le_n _) Hunits) as (-> & _).
  reflexivity.
Qed.

(** X23. GET /files answers a refusal of the store with
    [<p>Error: <status></p>], an empty list with the heading alone, and
    an accepted answer that is not a list with the message of a
    TypeError; the status is 200 each time. *)
Theorem files_listing_edges
    (env : process_env) (now : Z) (req : request) (s : R) (t : jsstring)
    (r : fetch_response) (s' : R) :
  getAuthToken env req = VStr t ->
  serve s (files_read t) = (Responded r, s') ->
  (ok r = false ->
   res (snd (run Files env now req s))
   = text_response 200 (js "<p>Error: " ++ number_to_string (status r) ++ js "</p>")) /\
  (ok r = true -> json r = Some (VArr []) ->
   res (snd (run Files env now req s))
   = text_response 200 (js "<h3>Repository Files</h3>")) /\
  (forall v, ok r = true -> json r = Some v -> (forall items, v <> VArr items) ->
   exists e, kind e = TypeError /\
     res (snd (run Files env now req s))
     = text_response 200 (js "<p>Error: " ++ message e ++ js "</p>")).
Proof.
  intros Ht Hread.
  unfold serve_request, handler, get_files, files_read in *.
  unfold_monad. cbn.
  rewrite (string_credential_truthy _ _ _ Ht), Ht. cbn.
  rewrite ToString_string. cbn. rewrite Hread. cbn.
  split; [| split].
  - intros Hok. rewrite Hok. reflexivity.
  - intros Hok Hjson. rewrite Hok, Hjson. reflexivity.
  - intros v Hok Hjson Hv. rewrite Hok, Hjson. cbn.
    destruct v; try (now contradiction (Hv items)); cbn;
      match goal with
      | |- context [js "<p>Error: " ++ js ?m ++ _] => exists (type_error m)
      end; split; reflexivity.
Qed.

(** X24. GET /prs never looks at the status of the store's answer: an
    empty list is answered [No open PRs] whatever the status, a body
    that is not a list and has no [length] of zero (the store's error
    bodies are such objects) is answered with the message of a
    TypeError, not with the status, and a body that is not JSON with the
    message of the SyntaxError. *)
Theorem prs_ignores_the_status
    (env : process_env) (now : Z) (req : request) (s : R) (t : jsstring)
    (r : fetch_response) (s' : R) :
  getAuthToken env req = VStr t ->
  serve s (prs_read t) = (Responded r, s') ->
  (json r = Some (VArr []) ->
   res (snd (run Prs env now req s)) = text_response 200 (js "<p>No open PRs</p>")) /\
  (forall v, json r = Some v -> (forall items, v <> VArr items) ->
   length_is_zero v = false ->
   exists e, kind e = TypeError /\
     res (snd (run Prs env now req s))
     = text_response 200 (js "<p>Error: " ++ message e ++ js "</p>")) /\
  (json r = None ->
   exists e, kind e = SyntaxError /\
     res (snd (run Prs env now req s))
     = text_response 200 (js "<p>Error: " ++ message e ++ js "</p>")).
Proof.
  intros Ht Hread.
  unfold serve_request, handler, get_prs, prs_read in *.
  unfold_monad. cbn.
  rewrite (string_credential_truthy _ _ _ Ht), Ht. cbn.
  rewrite ToString_string. cbn. rewrite Hread. cbn.
  split; [| split].
  - intros Hjson. rewrite Hjson. reflexivity.
  - intros v Hjson Hv Hlen. rewrite Hjson. cbn. rewrite Hlen.
    destruct v; try (now contradiction (Hv items)); cbn;
      match goal with
      | |- context [js "<p>Error: " ++ js ?m ++ _] => exists (type_error m)
      end; split; reflexivity.
  - intros Hjson. rewrite Hjson. cbn. eexists {| kind := SyntaxError; message := _ |}.
    split; reflexivity.
Qed.

End MoreGatewayFacts.


(** * More concrete requests *)

(** "hello" in lines of four characters decodes to its five bytes. *)
Lemma base64_decode_passes_over_line_breaks_witness :
  base64_decode (js "aGVs" ++ newline ++ js "bG8=" ++ newline) = [104; 101; 108; 108; 111].
Proof.
  apply base64_decode_passes_over_line_breaks.
  - repeat constructor; unfold is_byte; lia.
  - vm_compute. repeat constructor; discriminate.
  - vm_compute. reflexivity.
Defined.

(** A nested path with a blank is escaped into one segment. *)
Lemma escaped_path_is_one_segment_witness :
  exists p, encodeURIComponent_string (js "docs/a b.md") = Ok p /\ ~ In 47 p /\ ~ In 63 p.
Proof.
  pose proof (escaped_path_is_one_segment (js "docs/a b.md") eq_refl) as H.
  change (forallb paired (code_points (js "docs/a b.md"))) with true in H.
  destruct H as (p & Hp & _ & H47 & H63 & _).
  exists p. split; [exact Hp | split; [exact H47 | exact H63]].
Defined.

(** The letter a followed by a high surrogate alone reads back as the
    letter followed by U+FFFD. *)
Lemma text_read_back_is_made_well_formed_witness :
  utf8_decode (utf8_encode [97; 0xD800]) = [97; 0xFFFD].
Proof.
  destruct (text_read_back_is_made_well_formed [97; 0xD800] eq_refl) as [H _].
  exact H.
Defined.

Lemma saving_what_was_read_keeps_the_bytes_witness :
  utf8_encode (utf8_decode (utf8_encode [97; 0xD800])) = utf8_encode [97; 0xD800].
Proof. exact (saving_what_was_read_keeps_the_bytes [97; 0xD800] eq_refl). Defined.

(** The byte 0xFF, which no UTF-8 text has, and a letter. *)
Lemma decoded_file_is_well_formed_text_witness :
  well_formed_text (utf8_decode [255; 97]) = true.
Proof.
  apply decoded_file_is_well_formed_text.
  repeat constructor; unfold is_byte; lia.
Defined.


(** The read that /commit issues first carries the credential. *)
Lemma calls_carry_the_credential_witness :
  exists t, ToString (getAuthToken with_token (text_request (js "a.txt") (js "hello"))) = Ok t /\
            well_headed t (commit_read (js "tok") (js "a.txt")).
Proof.
  destruct (calls_carry_the_credential store_serve rejects_objects Commit with_token 0
              (text_request (js "a.txt") (js "hello")) (new_store (js "tok"))
              (commit_read (js "tok") (js "a.txt")))
    as (t & _ & Ht & _ & Hh).
  - vm_compute. left. reflexivity.
  - exists t. split; [exact Ht | exact Hh].
Defined.

(** The user read answered with a login. *)
Lemma test_token_outcomes_witness :
  sent (res (snd (on_script TestToken with_token 0 bare_request
                    [answer 200 (VObj [(js "login", VStr (js "octocat"))])])))
  = Json (success_envelope (js "Logged in as: " ++ js "octocat")).
Proof.
  destruct (test_token_outcomes scripted rejects_objects with_token 0 bare_request
              [answer 200 (VObj [(js "login", VStr (js "octocat"))])] (js "tok") eq_refl)
    as (_ & _ & _ & _ & H).
  eapply H; reflexivity.
Defined.

(** A /commit that names the version [abc], accepted. *)
Lemma commit_with_given_version_witness :
  (exists o,
     calls (snd (on_script Commit with_token 0 versioned_request [answer 200 (VObj [])]))
     = [(commit_write (js "tok") (js "a.txt") (js "a.txt") (js "hello") (VStr (js "abc")),
         o)]) /\
  sent (res (snd (on_script Commit with_token 0 versioned_request [answer 200 (VObj [])])))
  = Json (success_envelope (js "Committed successfully!")).
Proof.
  destruct (commit_with_given_version scripted rejects_objects with_token 0 versioned_request
              [answer 200 (VObj [])] (js "tok") (js "hello") (js "a.txt") (js "a.txt"))
    as (Hcalls & _ & Hsent); try reflexivity.
  split; [exact Hcalls | exact (Hsent _ _ eq_refl)].
Defined.

(** A /commit of "hi" with no [filePath], the file absent. *)
Lemma commit_message_when_path_omitted_witness :
  rq_url (commit_write (js "tok") (js "index.html") (js "undefined") (js "hi") VUndefined)
  = contents_url (js "index.html") /\
  member (json_image
            (VObj [(js "message", VStr (js "Update " ++ js "undefined" ++ js " from web editor"));
                   (js "content", VStr (base64_encode (utf8_encode (js "hi"))));
                   (js "sha", VUndefined)]))
    (js "message")
  = VStr (js "Update undefined from web editor").
Proof.
  apply (commit_message_when_path_omitted scripted rejects_objects with_token 0 content_request
           [refusal 404 "Not Found"; answer 201 (VObj [])]
           (commit_write (js "tok") (js "index.html") (js "undefined") (js "hi") VUndefined)).
  - reflexivity.
  - vm_compute. right. left. reflexivity.
  - reflexivity.
Defined.

(** A /create-pr with no content: its third and last call is a read. *)
Lemma no_write_without_bytes_or_path_witness :
  rq_method (commit_read (js "tok") (js "a.txt")) <> PUT /\
  ~ opens_pull (commit_read (js "tok") (js "a.txt")).
Proof.
  apply (no_write_without_bytes_or_path store_serve rejects_objects CreatePr with_token 5
           path_request (new_store (js "tok")) (commit_read (js "tok") (js "a.txt"))).
  - right. reflexivity.
  - left. eexists. reflexivity.
  - vm_compute. right. right. left. reflexivity.
Defined.

(** GET /file/* for a path that is one unpaired surrogate. *)
Lemma unencodable_path_makes_no_call_witness :
  calls (snd (on_store FileAt with_token 0 surrogate_request (new_store (js "tok")))) = [] /\
  sent (res (snd (on_store FileAt with_token 0 surrogate_request (new_store (js "tok")))))
  = Json (error_envelope (js "URI malformed")).
Proof.
  destruct (unencodable_path_makes_no_call store_serve rejects_objects FileAt with_token 0
              surrogate_request (new_store (js "tok"))
              {| kind := URIError; message := js "URI malformed" |})
    as (Hcalls & _ & Hsent).
  - right. reflexivity.
  - reflexivity.
  - split; [exact Hcalls |]. apply Hsent; [reflexivity | right; reflexivity].
Defined.

(** The write of a /create-pr at time 5. *)
Lemma create_pr_stays_on_its_branch_witness :
  branch_name 5 <> js "main" /\
  member (json_image
            (VObj [(js "message", VStr (js "Update from web editor"));
                   (js "content", VStr (base64_encode (utf8_encode (js "hello"))));
                   (js "sha", VUndefined);
                   (js "branch", VStr (branch_name 5))]))
    (js "branch")
  = VStr (branch_name 5).
Proof.
  apply (create_pr_stays_on_its_branch store_serve rejects_objects with_token 5
           (text_request (js "a.txt") (js "hello")) (new_store (js "tok"))
           (branch_write (js "tok") (js "a.txt") (js "hello") VUndefined 5)).
  - vm_compute. do 3 right. left. reflexivity.
  - reflexivity.
Defined.


(** A /create-pr at time 5 with no content, on a new store: the branch
    is there afterwards, and the answer is an error. *)
Lemma create_pr_leaves_its_branch_behind_witness :
  call_summary (snd (on_store CreatePr with_token 5 path_request (new_store (js "tok"))))
  = [(GET, repo_api ++ js "/git/ref/heads/main", Some 200);
     (POST, repo_api ++ js "/git/refs", Some 201);
     (GET, contents_url (js "a.txt"), Some 404)] /\
  (exists msg,
     sent (res (snd (on_store CreatePr with_token 5 path_request (new_store (js "tok")))))
     = Json (error_envelope msg)) /\
  forked_from (remote (snd (on_store CreatePr with_token 5 path_request
                              (new_store (js "tok")))))
    (branch_name 5) = Some 0%nat.
Proof.
  unfold on_store.
  erewrite (create_pr_leaves_its_branch_behind store_serve rejects_objects with_token 5
              path_request (new_store (js "tok")) (js "tok") (js "a.txt")); cycle 1.
  - reflexivity.
  - reflexivity.
  - reflexivity.
  - reflexivity.
  - compute_lhs. reflexivity.
  - reflexivity.
  - reflexivity.
  - reflexivity.
  - compute_lhs. reflexivity.
  - compute_lhs. reflexivity.
  - vm_compute. reflexivity.
  - split; [vm_compute; reflexivity |].
    split; [eexists; reflexivity | vm_compute; reflexivity].
Defined.

(** The merge of the pull request that [taken_store] holds. *)
Lemma merge_pr_outcomes_witness :
  sent (res (snd (on_store MergePr with_token 0 merge_request taken_store)))
  = Json (success_envelope (js "PR #" ++ js "1" ++ js " merged!")).
Proof.
  destruct (merge_pr_outcomes store_serve rejects_objects with_token 0 merge_request
              taken_store (js "tok") (js "1")) as (_ & _ & H);
    [reflexivity | reflexivity | reflexivity | reflexivity |].
  unfold on_store. erewrite H; [| compute_lhs; reflexivity].
  reflexivity.
Defined.

(** The upload of one byte as [og-image.png] on a new store. *)
Lemma upload_image_outcomes_witness :
  sent (res (snd (on_store UploadImage with_token 7 upload_request (new_store (js "tok")))))
  = uploaded (proxy_url (js "og-image.png") 7).
Proof.
  destruct (upload_image_outcomes store_serve rejects_objects with_token 7 upload_request
              (new_store (js "tok")) (js "tok") (js "og-image.png")) as (_ & H);
    [reflexivity | reflexivity | reflexivity |].
  edestruct H as (_ & _ & Hsent).
  - compute_lhs. reflexivity.
  - vm_compute. reflexivity.
  - compute_lhs. reflexivity.
  - unfold on_store. rewrite Hsent. reflexivity.
Defined.

(** The same upload at times 7 and 8. *)
Lemma upload_urls_differ_in_time_witness :
  proxy_url (js "og-image.png") 7 <> proxy_url (js "og-image.png") 8.
Proof.
  apply (upload_urls_differ_in_time store_serve rejects_objects with_token upload_request
           7 8 (new_store (js "tok")) (new_store (js "tok"))).
  - lia.
  - vm_compute. reflexivity.
  - vm_compute. reflexivity.
Defined.

(** The image proxy asked for no name in particular. *)
Lemma og_image_default_and_failures_witness :
  exists o,
    calls (snd (on_store OgImage with_token 0 bare_request pictured_store))
    = [(image_read (js "tok") (js "og-image.png"), o)].
Proof.
  destruct (og_image_default_and_failures store_serve rejects_objects with_token 0
              bare_request pictured_store (js "tok") eq_refl eq_refl) as [H _].
  exact (H eq_refl).
Defined.

(** A file asked for with a credential the store does not accept: the
    store answers 401, the route [File not found]. *)
Lemma file_refusals_read_as_not_found_witness :
  call_summary (snd (on_store FileAt wrong_token 0 path_request (new_store (js "tok"))))
  = [(GET, contents_url (js "a.txt"), Some 401)] /\
  res (snd (on_store FileAt wrong_token 0 path_request (new_store (js "tok"))))
  = json_response (error_envelope (js "File not found")).
Proof.
  split; [vm_compute; reflexivity |].
  destruct (file_refusals_read_as_not_found store_serve rejects_objects wrong_token 0
              path_request (new_store (js "tok")) (js "bad") (js "a.txt") eq_refl eq_refl)
    as (_ & _ & H & _).
  eapply H; [compute_lhs; reflexivity | reflexivity].
Defined.

(** The read answered with "hello" in two lines. *)
Lemma file_returns_the_text_written_witness :
  res (snd (on_script FileAt with_token 0 path_request [answer 200 hello_file]))
  = json_response (VObj [(js "content", VStr (js "hello"));
                         (js "path", VStr (js "a.txt"));
                         (js "sha", VStr (js "abc"))]).
Proof.
  unfold on_script.
  rewrite (file_returns_the_text_written scripted rejects_objects with_token 0 path_request
             [answer 200 hello_file] (js "tok") (js "a.txt")
             (js "aGVs" ++ newline ++ js "bG8=" ++ newline) (js "abc") (js "hello")
             (Build_fetch_response 200 (json_text hello_file) (Some hello_file)) []
             hello_file);
    try reflexivity.
  vm_compute. repeat constructor; discriminate.
Defined.

(** The listing refused with 403. *)
Lemma files_listing_edges_witness :
  res (snd (on_script Files with_token 0 bare_request [refusal 403 "rate limit exceeded"]))
  = text_response 200 (js "<p>Error: " ++ number_to_string 403 ++ js "</p>").
Proof.
  destruct (files_listing_edges scripted rejects_objects with_token 0 bare_request
              [refusal 403 "rate limit exceeded"] (js "tok") _ _ eq_refl eq_refl)
    as (H & _).
  exact (H eq_refl).
Defined.

(** An empty list of pull requests under the status 500. *)
Lemma prs_ignores_the_status_witness :
  res (snd (on_script Prs with_token 0 bare_request [answer 500 (VArr [])]))
  = text_response 200 (js "<p>No open PRs</p>").
Proof.
  destruct (prs_ignores_the_status scripted rejects_objects with_token 0 bare_request
              [answer 500 (VArr [])] (js "tok") _ _ eq_refl eq_refl)
    as (H & _).
  exact (H eq_refl).
Defined.
